(** * HotUpdate: a shallow embedding of the update pipeline

    The development follows the plugin's sources:
    - [FDownloadTask]          (DownLoadTask.cpp)        one resumable chunked download;
    - [FFileDownloadManager]   (FileDownloadManager.cpp) the task map and its events;
    - [FFilePakManager]        (FilePakManager.cpp)      validation and mounting;
    - [UHotUpdateSubsystem]    (HotUpdateSubsystem.cpp)  the coordinator.

    Engine services (HTTP, file system, JSON reader, GUID generator, path
    helpers) are not part of the plugin.  They appear either as fields of the
    record [Engine] or as the answers handed to a callback. *)

From Stdlib Require Import ZArith List String Ascii Bool Lia.
From Stdlib Require Import Sorted.
From stdpp Require Import base option list gmap strings.
Import ListNotations.
Set Warnings "-register-all".
Local Open Scope Z_scope.

(** ** Machine integers *)

Definition int32 (z : Z) : Z := (z + 2147483648) mod 4294967296 - 2147483648.
Definition uint32 (z : Z) : Z := z mod 4294967296.
Definition uint64 (z : Z) : Z := z mod 18446744073709551616.
Definition INT32_MAX : Z := 2147483647.
Definition UINT32_MAX : Z := 4294967295.
Definition INDEX_NONE : Z := -1.

(** ** FString

    TCHAR strings are embedded as [string].  The comparison operators of
    FString ([==], [!=], [Equals] apart) go through [Stricmp] and ignore the
    case of letters. *)

Module FString.

Definition ToLowerChar (c : ascii) : ascii :=
  let n := nat_of_ascii c in
  if ((65 <=? n) && (n <=? 90))%nat then ascii_of_nat (n + 32) else c.

Fixpoint ToLower (s : string) : string :=
  match s with
  | EmptyString => EmptyString
  | String c r => String (ToLowerChar c) (ToLower r)
  end.

(** [operator==] *)
Definition eq (a b : string) : bool := String.eqb (ToLower a) (ToLower b).
(** [operator!=] *)
Definition ne (a b : string) : bool := negb (eq a b).

Definition IsEmpty (s : string) : bool :=
  match s with EmptyString => true | _ => false end.

Definition Len (s : string) : Z := Z.of_nat (String.length s).

(** Index of the first occurrence of [c] at a position [>= start]. *)
Fixpoint index_from (start : nat) (c : ascii) (s : string) : option nat :=
  match s with
  | EmptyString => None
  | String d r =>
      match start with
      | O => if Ascii.eqb d c then Some O else S <$> index_from O c r
      | S start' => S <$> index_from start' c r
      end
  end.

Definition Clamp (x lo hi : Z) : Z :=
  if x <? lo then lo else if x <? hi then x else hi.

(** [Find(SubStr, IgnoreCase, FromStart, StartPosition)] for a needle of
    one character.  The engine clamps the start position into
    [[0, Len-1]] before it searches, so a string shorter than the start
    position is searched from its last character.  On the empty string the
    clamp leaves the buffer; the model answers [INDEX_NONE] there, and
    [Start] has returned before an empty URL is ever searched. *)
Definition Find (s : string) (c : ascii) (StartPosition : Z) : Z :=
  if IsEmpty s then INDEX_NONE
  else
    match index_from (Z.to_nat (Clamp StartPosition 0 (Len s - 1))) c s with
    | Some i => Z.of_nat i
    | None => INDEX_NONE
    end.

Fixpoint drop (n : nat) (s : string) : string :=
  match n, s with
  | O, _ => s
  | S n', String _ r => drop n' r
  | S _, EmptyString => EmptyString
  end.

Fixpoint take (n : nat) (s : string) : string :=
  match n, s with
  | S n', String c r => String c (take n' r)
  | _, _ => EmptyString
  end.

(** [Mid(Start)] and [Left(Count)] *)
Definition Mid (s : string) (Start : Z) : string := drop (Z.to_nat Start) s.
Definition Left (s : string) (Count : Z) : string := take (Z.to_nat Count) s.

(** [ParseIntoArray(Out, Delim)] with the default [InCullEmpty = true]:
    the pieces between delimiters, empty pieces dropped. *)
Fixpoint split_on (c : ascii) (cur : string) (s : string) : list string :=
  match s with
  | EmptyString => [cur]
  | String d r =>
      if Ascii.eqb d c then cur :: split_on c EmptyString r
      else split_on c (String.append cur (String d EmptyString)) r
  end.

Definition ParseIntoArray (s : string) (Delim : ascii) : list string :=
  List.filter (fun p => negb (IsEmpty p)) (split_on Delim EmptyString s).

(** Whether the character [c] occurs in [s]. *)
Fixpoint occurs (c : ascii) (s : string) : bool :=
  match s with
  | EmptyString => false
  | String d r => Ascii.eqb d c || occurs c r
  end.

Definition NibbleToTChar (n : N) : ascii :=
  if (9 <? n)%N then ascii_of_N (65 + (n - 10)) else ascii_of_N (48 + n).

(** [BytesToHex]: two upper-case digits per byte. *)
Fixpoint BytesToHex (bs : list Byte.byte) : string :=
  match bs with
  | [] => EmptyString
  | b :: r =>
      let n := Byte.to_N b in
      String (NibbleToTChar (n / 16)) (String (NibbleToTChar (n mod 16)) (BytesToHex r))
  end.

End FString.

(** ** FileDownType.h and TaskInfo.h *)

Inductive EDownloadTaskEvent :=
| REQ_HEAD | RET_HEAD | BEGIN_DOWNLOAD | UPDATE_DOWNLOAD | END_DOWNLOAD | ERROR.

Inductive EDownloadState :=
| DS_BEGIN_DOWNLOAD | DS_UPDATE_DOWNLOAD | DS_BEGIN_FILE_DOWNLOAD
| DS_END_FILE_DOWNLOAD | DS_END_DOWNLOAD.

Inductive EHotUpdateState :=
| HU_BEGIN_HOTUPDATE | HU_BEGIN_GETVERSION | HU_END_GETVERSION
| HU_BEGIN_DOWNLOAD | HU_END_DOWNLOAD | HU_BEGIN_MOUNT | HU_END_MOUNT
| HU_END_HOTUPDATE | HU_ERROR.

#[global] Instance EDownloadTaskEvent_eq_dec : EqDecision EDownloadTaskEvent.
Proof. solve_decision. Defined.
#[global] Instance EDownloadState_eq_dec : EqDecision EDownloadState.
Proof. solve_decision. Defined.
#[global] Instance EHotUpdateState_eq_dec : EqDecision EHotUpdateState.
Proof. solve_decision. Defined.

Definition FGuid := N.

Record FPakFileProperty := {
  PakName : string;
  PakSize : Z;          (* int32 *)
  MD5 : string
}.

Record FTaskInfo := {
  FileName : string;
  URL : string;
  FileSize : Z;         (* uint32 *)
  CurrentSize : Z;      (* int32 *)
  DownloadSize : Z;     (* int32 *)
  TotalSize : Z;        (* int32 *)
  GUID : FGuid
}.

(** [FTaskInfo::FTaskInfo()]: sizes zero, strings empty, the GUID is the one
    [FGuid::NewGuid()] returned. *)
Definition FTaskInfo_new (NewGuid : FGuid) : FTaskInfo :=
  {| FileName := EmptyString; URL := EmptyString; FileSize := 0;
     CurrentSize := 0; DownloadSize := 0; TotalSize := 0; GUID := NewGuid |}.

(** [FPakFileProperty::operator==]: the names by [Equals], for which case
    counts, the sizes, and the hashes in lower case. *)
Definition FPakFileProperty_equal (a b : FPakFileProperty) : bool :=
  String.eqb (PakName a) (PakName b)
  && (PakSize a =? PakSize b)
  && String.eqb (FString.ToLower (MD5 a)) (FString.ToLower (MD5 b)).

Module FDownloadProgress.

(** [ConvertIntToSize(uint64 Size)]: the number handed to
    [FString::FormatAsNumber], whose parameter is an int32, and the unit
    appended to its text. *)
Definition ConvertIntToSize_parts (Size : Z) : Z * string :=
  if Size <? 1024 then (int32 Size, "B"%string)
  else
    let Size := Size / 1024 in
    if Size <? 1024 then (int32 Size, "KB"%string)
    else
      let Size := Size / 1024 in
      (int32 Size, "MB"%string).

Definition ConvertIntToSize (FormatAsNumber : Z -> string) (Size : Z) : string :=
  let '(n, unit) := ConvertIntToSize_parts Size in
  String.append (FormatAsNumber n) unit.

(** The bytes one step of a unit stands for. *)
Definition unit_bytes (unit : string) : Z :=
  if String.eqb unit "B" then 1
  else if String.eqb unit "KB" then 1024
  else 1024 * 1024.

End FDownloadProgress.

(** ** Engine services *)

Inductive FJsonValue :=
| JNull
| JBool (b : bool)
| JNumber (n : Z)
| JString (s : string)
| JArray (items : list FJsonValue)
| JObject (fields : list (string * FJsonValue)).

(** What the file manager answers for one path. *)
Record FileSystem := {
  FileExists : string -> bool;
  FileSizeOf : string -> Z;                      (* int64, [IFileManager::FileSize] *)
  HashFile : string -> option (list Byte.byte)   (* [FMD5Hash::HashFile]; None: not valid *)
}.

Record Engine := {
  (** [FGenericPlatformHttp::UrlEncode] *)
  UrlEncode : string -> string;
  (** [FPaths::GetCleanFilename], [FPaths::GetExtension], [FPaths::Combine] *)
  GetCleanFilename : string -> string;
  GetExtension : string -> string;
  Combine : string -> string -> string;
  (** the n-th value returned by [FGuid::NewGuid] *)
  NewGuid : nat -> FGuid;
  (** [TJsonReader]: the JSON value a response text denotes, if any *)
  ReadJson : string -> option FJsonValue;
  (** [FJsonValue::AsArray], [FJsonValue::AsObject] and the field getters
      of [FJsonObject], with whatever they return on a value of another kind *)
  AsArray : FJsonValue -> list FJsonValue;
  AsObject : FJsonValue -> list (string * FJsonValue);
  GetStringField : list (string * FJsonValue) -> string -> string;
  GetIntegerField : list (string * FJsonValue) -> string -> Z;
  (** [FPakPlatformFile::Mount]: mounting changes what the file manager sees *)
  Mount : FileSystem -> string -> FileSystem * bool;
  (** settings and project constants *)
  HotUpdateServerUrl : string;
  ProjectVersion : string;
  Platform : string;
  TempPakSaveRoot : string;
  PakSaveRoot : string;
  MaxRetryTime : Z                               (* uint32 *)
}.

(** ** HTTP requests and responses, as far as the plugin reads them *)

Inductive EVerb := HEAD | GET | POST.

Record FHttpRequest := {
  Verb : EVerb;
  ReqURL : string;
  (** the [Range: bytes=Begin-End] header, as the two integers printed in it *)
  Range : option (Z * Z)
}.

Record FHttpResponse := {
  ResponseCode : Z;     (* int32 *)
  ContentLength : Z;    (* int32, [GetContentLength] *)
  ContentNum : Z;       (* [GetContent().Num()] *)
  ContentAsString : string
}.

(** ** DownLoadTask.cpp *)

Module FDownloadTask.

Record t := {
  TaskInfo : FTaskInfo;
  Root : string;
  bIsDownLoading : bool;
  TempFileName : string;
  TempFileHandle : bool;             (* true: not nullptr *)
  Request : option FHttpRequest      (* None: nullptr *)
}.

(** What a task does to the outside, in program order. *)
Inductive Effect :=
| ProcessRequest (r : FHttpRequest)
| Execute (ev : EDownloadTaskEvent) (info : FTaskInfo)   (* [OnTaskEvent.Execute] *)
| SeekWrite (offset count : Z).                          (* [Seek] then [Write] *)

(** Answers of the file system during [RetGetHead]. *)
Record HeadAnswers := {
  DirectoryExists : bool;      (* after [CreateDirectoryTree] *)
  OpenWrite : bool             (* true: a handle was returned *)
}.

(** Answers of the file system during [RetGetChunk]. *)
Record ChunkAnswers := {
  WriteOk : bool;
  IsFileExistAnswer : bool;    (* [FileExists(Root / FileName)] *)
  MoveOk : bool;
  ExistingFileSize : Z
}.

Definition ChunkSize : Z := 4 * 1024 * 1024.
Definition TempFileExtension : string := ".tmp"%string.

Definition set_info (f : FTaskInfo -> FTaskInfo) (x : t) : t :=
  {| TaskInfo := f (TaskInfo x); Root := Root x; bIsDownLoading := bIsDownLoading x;
     TempFileName := TempFileName x; TempFileHandle := TempFileHandle x;
     Request := Request x |}.
Definition set_bIsDownLoading (b : bool) (x : t) : t :=
  {| TaskInfo := TaskInfo x; Root := Root x; bIsDownLoading := b;
     TempFileName := TempFileName x; TempFileHandle := TempFileHandle x;
     Request := Request x |}.
Definition set_TempFileName (s : string) (x : t) : t :=
  {| TaskInfo := TaskInfo x; Root := Root x; bIsDownLoading := bIsDownLoading x;
     TempFileName := s; TempFileHandle := TempFileHandle x; Request := Request x |}.
Definition set_TempFileHandle (h : bool) (x : t) : t :=
  {| TaskInfo := TaskInfo x; Root := Root x; bIsDownLoading := bIsDownLoading x;
     TempFileName := TempFileName x; TempFileHandle := h; Request := Request x |}.
Definition set_Request (r : option FHttpRequest) (x : t) : t :=
  {| TaskInfo := TaskInfo x; Root := Root x; bIsDownLoading := bIsDownLoading x;
     TempFileName := TempFileName x; TempFileHandle := TempFileHandle x; Request := r |}.

Definition with_FileName (s : string) (i : FTaskInfo) : FTaskInfo :=
  {| FileName := s; URL := URL i; FileSize := FileSize i; CurrentSize := CurrentSize i;
     DownloadSize := DownloadSize i; TotalSize := TotalSize i; GUID := GUID i |}.
Definition with_URL (s : string) (i : FTaskInfo) : FTaskInfo :=
  {| FileName := FileName i; URL := s; FileSize := FileSize i; CurrentSize := CurrentSize i;
     DownloadSize := DownloadSize i; TotalSize := TotalSize i; GUID := GUID i |}.
Definition with_FileSize (n : Z) (i : FTaskInfo) : FTaskInfo :=
  {| FileName := FileName i; URL := URL i; FileSize := n; CurrentSize := CurrentSize i;
     DownloadSize := DownloadSize i; TotalSize := TotalSize i; GUID := GUID i |}.
Definition with_CurrentSize (n : Z) (i : FTaskInfo) : FTaskInfo :=
  {| FileName := FileName i; URL := URL i; FileSize := FileSize i; CurrentSize := n;
     DownloadSize := DownloadSize i; TotalSize := TotalSize i; GUID := GUID i |}.
Definition with_DownloadSize (n : Z) (i : FTaskInfo) : FTaskInfo :=
  {| FileName := FileName i; URL := URL i; FileSize := FileSize i; CurrentSize := CurrentSize i;
     DownloadSize := n; TotalSize := TotalSize i; GUID := GUID i |}.
Definition with_TotalSize (n : Z) (i : FTaskInfo) : FTaskInfo :=
  {| FileName := FileName i; URL := URL i; FileSize := FileSize i; CurrentSize := CurrentSize i;
     DownloadSize := DownloadSize i; TotalSize := n; GUID := GUID i |}.

Section Methods.
Context (E : Engine).

(** The constructor.  [guid] is the GUID its [FTaskInfo] member drew;
    creating the save root only touches directories and is left out. *)
Definition new (guid : FGuid) (URL_ SaveRoot FileName_ : string) (FileSize_ : Z) : t :=
  {| TaskInfo := with_FileSize (uint32 FileSize_)
                   (with_FileName FileName_ (with_URL URL_ (FTaskInfo_new guid)));
     Root := SaveRoot; bIsDownLoading := false; TempFileName := EmptyString;
     TempFileHandle := false; Request := None |}.

Definition GetGuid (x : t) : FGuid := GUID (TaskInfo x).
Definition GetTaskInfo (x : t) : FTaskInfo := TaskInfo x.
Definition IsDownloading (x : t) : bool := bIsDownLoading x.
Definition GetFilePath (x : t) : string := Combine E (Root x) (FileName (TaskInfo x)).

(** The loop of [GetEncodedURL]: encode each unit, a slash between units. *)
Fixpoint encode_units (URLUnit : list string) : string :=
  match URLUnit with
  | [] => EmptyString
  | [u] => UrlEncode E u
  | u :: r => String.append (UrlEncode E u) (String.append "/" (encode_units r))
  end.

Definition GetEncodedURL (x : t) : string :=
  let url := URL (TaskInfo x) in
  let URLSplit := int32 (FString.Find url "/"%char 14 + 1) in
  if 0 <? URLSplit then
    let SubURL := FString.Mid url URLSplit in
    let URLUnit := FString.ParseIntoArray SubURL "/"%char in
    String.append (FString.Left url URLSplit) (encode_units URLUnit)
  else EmptyString.

Definition ReqGetHead (x : t) : t * list Effect :=
  let EncodedURL := GetEncodedURL x in
  if FString.IsEmpty EncodedURL then (x, [])
  else
    let r := {| Verb := HEAD; ReqURL := EncodedURL; Range := None |} in
    let x := set_Request (Some r) x in
    (x, [ProcessRequest r; Execute REQ_HEAD (TaskInfo x)]).

(** The first statement of [Start]: an empty file name is replaced by the
    clean file name of the URL. *)
Definition name_fallback (x : t) : t :=
  if FString.IsEmpty (FileName (TaskInfo x))
  then set_info (with_FileName (GetCleanFilename E (URL (TaskInfo x)))) x
  else x.

Definition Start (x : t) : t * list Effect :=
  let x := name_fallback x in
  if FString.IsEmpty (URL (TaskInfo x)) || FString.IsEmpty (FileName (TaskInfo x))
  then (x, [Execute ERROR (TaskInfo x)])
  else if bIsDownLoading x then (x, [])
  else ReqGetHead (set_bIsDownLoading true x).

(** [BeginPosition + ChunkSize - 1] is computed in int32, left to right;
    the model wraps around where C++ leaves the overflow undefined. *)
Definition ReqGetChunk (x : t) : t * list Effect :=
  let EncodedURL := GetEncodedURL x in
  if FString.IsEmpty EncodedURL then (x, [])
  else
    let BeginPosition := CurrentSize (TaskInfo x) in
    let EndPosition := int32 (int32 (BeginPosition + ChunkSize) - 1) in
    let EndPosition :=
      if TotalSize (TaskInfo x) <=? EndPosition
      then int32 (TotalSize (TaskInfo x) - 1) else EndPosition in
    let r := {| Verb := GET; ReqURL := EncodedURL;
                Range := Some (BeginPosition, EndPosition) |} in
    let x := set_Request (Some r) x in
    (x, [ProcessRequest r; Execute BEGIN_DOWNLOAD (TaskInfo x)]).

Definition OnTaskCompleted (a : ChunkAnswers) (x : t) : t * list Effect :=
  let x := set_bIsDownLoading false (set_TempFileHandle false x) in
  if negb (IsFileExistAnswer a) then
    if MoveOk a then (x, [Execute END_DOWNLOAD (TaskInfo x)])
    else (x, [Execute ERROR (TaskInfo x)])
  else
    let x := set_info (with_TotalSize (int32 (ExistingFileSize a))) x in
    let x :=
      if negb (CurrentSize (TaskInfo x) =? TotalSize (TaskInfo x))
      then set_info (with_CurrentSize (TotalSize (TaskInfo x))) x else x in
    (x, [Execute END_DOWNLOAD (TaskInfo x)]).

Definition OnWriteChunkEnd (a : ChunkAnswers) (BufferSize : Z) (x : t) : t * list Effect :=
  let x := set_info (with_CurrentSize (int32 (CurrentSize (TaskInfo x) + BufferSize))) x in
  let e1 := [Execute UPDATE_DOWNLOAD (TaskInfo x)] in
  let '(x, e2) :=
    if CurrentSize (TaskInfo x) <? TotalSize (TaskInfo x)
    then ReqGetChunk x else OnTaskCompleted a x in
  (x, e1 ++ e2).

Definition bad_status (ResponseCode_ : Z) : bool :=
  (400 <=? ResponseCode_) || (ResponseCode_ <? 200).

Definition RetGetHead (Response : option FHttpResponse) (bConnectedSuccessfully : bool)
    (a : HeadAnswers) (x : t) : t * list Effect :=
  match Response with
  | None => (x, [Execute ERROR (TaskInfo x)])
  | Some resp =>
      if negb bConnectedSuccessfully then (x, [Execute ERROR (TaskInfo x)])
      else if bad_status (ResponseCode resp) then
        let x := set_TempFileHandle false x in
        (x, [Execute ERROR (TaskInfo x)])
      else
        let e1 := [Execute RET_HEAD (TaskInfo x)] in
        let x := set_info (with_CurrentSize 0) x in
        let x := set_info (with_TotalSize (int32 (ContentLength resp))) x in
        let x := set_TempFileName (String.append (GetFilePath x) TempFileExtension) x in
        if negb (DirectoryExists a) then (x, e1 ++ [Execute ERROR (TaskInfo x)])
        else
          let x := set_TempFileHandle (OpenWrite a) x in
          if negb (TempFileHandle x) then (x, e1 ++ [Execute ERROR (TaskInfo x)])
          else
            let '(x, e2) := ReqGetChunk x in
            (x, e1 ++ e2)
  end.

Definition RetGetChunk (Response : option FHttpResponse) (bConnectedSuccessfully : bool)
    (a : ChunkAnswers) (x : t) : t * list Effect :=
  match Response with
  | None => (x, [Execute ERROR (TaskInfo x)])
  | Some resp =>
      if negb bConnectedSuccessfully then (x, [Execute ERROR (TaskInfo x)])
      else if bad_status (ResponseCode resp) then
        let x := set_TempFileHandle false x in
        (x, [Execute ERROR (TaskInfo x)])
      else if TempFileHandle x then
        let w := [SeekWrite (CurrentSize (TaskInfo x)) (ContentNum resp)] in
        if WriteOk a then
          let '(x, e) := OnWriteChunkEnd a (ContentNum resp) x in
          (x, w ++ e)
        else (x, w ++ [Execute ERROR (TaskInfo x)])
      else (x, [])
  end.

Definition GetChunkProgress (BytesReceived : Z) (x : t) : t * list Effect :=
  let DownloadSize_ := int32 (CurrentSize (TaskInfo x) + BytesReceived) in
  if TotalSize (TaskInfo x) <? DownloadSize_ then (x, [])
  else
    let x := set_info (with_DownloadSize DownloadSize_) x in
    (x, [Execute UPDATE_DOWNLOAD (TaskInfo x)]).

(** [Stop]: the file handle is deleted and the request dropped, its
    delegates unbound, so that nothing calls the task back. *)
Definition Stop (x : t) : t := set_Request None (set_TempFileHandle false x).

End Methods.

(** *** Reading a trace *)

Definition requests (effs : list Effect) : list FHttpRequest :=
  omap (fun e => match e with ProcessRequest r => Some r | _ => None end) effs.

(** The byte ranges of the GET requests of a trace, in order. *)
Definition ranges (effs : list Effect) : list (Z * Z) :=
  omap (fun r => match Verb r with GET => Range r | _ => None end) (requests effs).

Definition events (effs : list Effect) : list EDownloadTaskEvent :=
  omap (fun e => match e with Execute ev _ => Some ev | _ => None end) effs.

Definition raised (ev : EDownloadTaskEvent) (effs : list Effect) : bool :=
  bool_decide (ev ∈ events effs).

(** The request a trace leaves in flight: the last one it issued. *)
Definition pending (effs : list Effect) : option FHttpRequest := last (requests effs).

(** *** A server that delivers exactly the requested bytes *)

Definition exact_reply (r : FHttpRequest) : FHttpResponse :=
  {| ResponseCode := 206;
     ContentLength := match Range r with Some (b, e) => e - b + 1 | None => 0 end;
     ContentNum := match Range r with Some (b, e) => e - b + 1 | None => 0 end;
     ContentAsString := EmptyString |}.

(** Answer the GET that [prev] left in flight, then the one the answer
    provokes, and so on; the result is the task and what it did. *)
Fixpoint serve (E : Engine) (fuel : nat) (a : ChunkAnswers) (x : t) (prev : list Effect)
    : t * list Effect :=
  match fuel with
  | O => (x, [])
  | S fuel' =>
      match pending prev with
      | Some r =>
          match Verb r with
          | GET =>
              let '(x, e) := RetGetChunk E (Some (exact_reply r)) true a x in
              let '(x, e') := serve E fuel' a x e in
              (x, e ++ e')
          | _ => (x, [])
          end
      | None => (x, [])
      end
  end.

(** The byte intervals a trace writes to the temp file, in order. *)
Definition writes (effs : list Effect) : list (Z * Z) :=
  omap (fun e => match e with SeekWrite o c => Some (o, o + c - 1) | _ => None end) effs.

(** *** A server that sends bodies of its own choice *)

Definition body_reply (n : Z) : FHttpResponse :=
  {| ResponseCode := 206; ContentLength := n; ContentNum := n;
     ContentAsString := EmptyString |}.

(** The GET in flight is answered with a body of [n] bytes, for the [n] of
    [sizes] in turn, as long as the task is transferring. *)
Fixpoint feed (E : Engine) (a : ChunkAnswers) (sizes : list Z) (x : t) : t * list Effect :=
  match sizes with
  | [] => (x, [])
  | n :: rest =>
      match Request x with
      | Some r =>
          match Verb r with
          | GET =>
              if bIsDownLoading x then
                let '(x, e) := RetGetChunk E (Some (body_reply n)) true a x in
                let '(x, e') := feed E a rest x in
                (x, e ++ e')
              else (x, [])
          | _ => (x, [])
          end
      | None => (x, [])
      end
  end.

(** The events that end a task. *)
Definition terminal (ev : EDownloadTaskEvent) : bool :=
  match ev with END_DOWNLOAD | ERROR => true | _ => false end.

(** [ends_last final effs]: an event of [effs] that ends the task is the
    last effect of [effs] and carries [final]. *)
Fixpoint ends_last (final : FTaskInfo) (effs : list Effect) : Prop :=
  match effs with
  | [] => True
  | Execute ev info :: r =>
      (terminal ev = true -> r = [] /\ info = final) /\ ends_last final r
  | _ :: r => ends_last final r
  end.

(** A task that [Start] has marked as downloading although it holds no
    request: nothing is in flight that could call it back. *)
Definition parked (x : t) : Prop :=
  FString.IsEmpty (URL (TaskInfo x)) = false
  /\ FString.IsEmpty (FileName (TaskInfo x)) = false
  /\ bIsDownLoading x = true
  /\ Request x = None.

(** Every method keeps the GUID and raises its events under it. *)
Definition own_events (x : t) (r : t * list Effect) : Prop :=
  GUID (TaskInfo r.1) = GUID (TaskInfo x)
  /\ Forall (fun e => match e with
                      | Execute _ info => GUID info = GUID (TaskInfo x)
                      | _ => True
                      end) r.2.

(** Every method keeps the URL and sends its requests to its encoding. *)
Definition own_requests (E : Engine) (x : t) (r : t * list Effect) : Prop :=
  URL (TaskInfo r.1) = URL (TaskInfo x)
  /\ Forall (fun e => match e with
                      | ProcessRequest q => ReqURL q = GetEncodedURL E x
                      | _ => True
                      end) r.2.

Definition get_request (E : Engine) (x : t) (b e : Z) : FHttpRequest :=
  {| Verb := GET; ReqURL := GetEncodedURL E x; Range := Some (b, e) |}.

(** *** Words of the specification *)

(** The HEAD answers [RetGetHead] lets through: a response, a connection,
    and a status in [[200, 400)]. *)
Definition head_accepted (Response : option FHttpResponse) (bConnectedSuccessfully : bool)
    : bool :=
  match Response with
  | Some resp =>
      bConnectedSuccessfully && (200 <=? ResponseCode resp) && (ResponseCode resp <? 400)
  | None => false
  end.

(** No slash at index 14 or later, and none in the last position (where
    the clamped search of a short URL starts). *)
Definition no_path_slash (url : string) : Prop :=
  forall i, String.get i url = Some "/"%char ->
            (i < 14)%nat /\ (S i < String.length url)%nat.

(** *** Chunk sequencing as the specification words it *)

(** [ceil(S / C)] *)
Definition chunk_count (S : Z) : Z := (S + ChunkSize - 1) / ChunkSize.

(** The k-th range: [ChunkSize] bytes from [k * ChunkSize], clamped to
    the last byte. *)
Definition chunk_range (S k : Z) : Z * Z :=
  (k * ChunkSize, Z.min (k * ChunkSize + ChunkSize - 1) (S - 1)).

Definition chunk_ranges (S : Z) : list (Z * Z) :=
  chunk_range S <$> seqZ 0 (chunk_count S).

(** [Tiles lo hi rs]: the closed intervals [rs], in order, cover
    [[lo, hi)] with neither gap nor overlap. *)
Inductive Tiles : Z -> Z -> list (Z * Z) -> Prop :=
| Tiles_nil lo : Tiles lo lo []
| Tiles_cons lo e hi rs : lo <= e -> Tiles (e + 1) hi rs -> Tiles lo hi ((lo, e) :: rs).

End FDownloadTask.

(** ** FileDownloadManager.cpp *)

Module FFileDownloadManager.

Import FDownloadTask.

(** What the manager does to the outside, in program order. *)
Inductive Output :=
| OnDownloadEvent (st : EDownloadState) (info : FTaskInfo)
| Http (task : FGuid) (r : FHttpRequest).

Record t := {
  Tasks : gmap FGuid FDownloadTask.t;
  FailedTasks : list FDownloadTask.t;
  CurrentDownloadSize : Z;           (* uint64 *)
  TotalDownloadSize : Z;             (* uint64 *)
  LastUpdateTime : Z;
  (** the surroundings the methods read: how many GUIDs the process has
      drawn, and the world time of the running callback *)
  Guids : nat;
  Now : Z;
  Out : list Output
}.

Definition empty : t :=
  {| Tasks := ∅; FailedTasks := []; CurrentDownloadSize := 0; TotalDownloadSize := 0;
     LastUpdateTime := 0; Guids := O; Now := 0; Out := [] |}.

Definition set_Tasks (f : gmap FGuid FDownloadTask.t -> gmap FGuid FDownloadTask.t) (m : t) : t :=
  {| Tasks := f (Tasks m); FailedTasks := FailedTasks m;
     CurrentDownloadSize := CurrentDownloadSize m; TotalDownloadSize := TotalDownloadSize m;
     LastUpdateTime := LastUpdateTime m; Guids := Guids m; Now := Now m; Out := Out m |}.
Definition set_FailedTasks (l : list FDownloadTask.t) (m : t) : t :=
  {| Tasks := Tasks m; FailedTasks := l;
     CurrentDownloadSize := CurrentDownloadSize m; TotalDownloadSize := TotalDownloadSize m;
     LastUpdateTime := LastUpdateTime m; Guids := Guids m; Now := Now m; Out := Out m |}.
Definition set_CurrentDownloadSize (n : Z) (m : t) : t :=
  {| Tasks := Tasks m; FailedTasks := FailedTasks m;
     CurrentDownloadSize := n; TotalDownloadSize := TotalDownloadSize m;
     LastUpdateTime := LastUpdateTime m; Guids := Guids m; Now := Now m; Out := Out m |}.
Definition set_TotalDownloadSize (n : Z) (m : t) : t :=
  {| Tasks := Tasks m; FailedTasks := FailedTasks m;
     CurrentDownloadSize := CurrentDownloadSize m; TotalDownloadSize := n;
     LastUpdateTime := LastUpdateTime m; Guids := Guids m; Now := Now m; Out := Out m |}.
Definition set_LastUpdateTime (n : Z) (m : t) : t :=
  {| Tasks := Tasks m; FailedTasks := FailedTasks m;
     CurrentDownloadSize := CurrentDownloadSize m; TotalDownloadSize := TotalDownloadSize m;
     LastUpdateTime := n; Guids := Guids m; Now := Now m; Out := Out m |}.
Definition set_Guids (n : nat) (m : t) : t :=
  {| Tasks := Tasks m; FailedTasks := FailedTasks m;
     CurrentDownloadSize := CurrentDownloadSize m; TotalDownloadSize := TotalDownloadSize m;
     LastUpdateTime := LastUpdateTime m; Guids := n; Now := Now m; Out := Out m |}.
Definition set_Now (n : Z) (m : t) : t :=
  {| Tasks := Tasks m; FailedTasks := FailedTasks m;
     CurrentDownloadSize := CurrentDownloadSize m; TotalDownloadSize := TotalDownloadSize m;
     LastUpdateTime := LastUpdateTime m; Guids := Guids m; Now := n; Out := Out m |}.
Definition emit (o : Output) (m : t) : t :=
  {| Tasks := Tasks m; FailedTasks := FailedTasks m;
     CurrentDownloadSize := CurrentDownloadSize m; TotalDownloadSize := TotalDownloadSize m;
     LastUpdateTime := LastUpdateTime m; Guids := Guids m; Now := Now m;
     Out := Out m ++ [o] |}.

(** The keys in the order the model walks the map: that of [map_to_list].
    The code walks the TMap in the order of its slots, which is the order
    of insertion only as long as no task was removed; that order is not
    modelled, and the statements below hold for the walk in the order
    given here. *)
Definition keys (m : t) : list FGuid := (map_to_list (Tasks m)).*1.

Section Methods.
Context (E : Engine).

(** A default-constructed [FTaskInfo()] draws a GUID. *)
Definition default_info (m : t) : FTaskInfo * t :=
  (FTaskInfo_new (NewGuid E (Guids m)), set_Guids (S (Guids m)) m).

Definition IsSuccessful (m : t) : bool :=
  (Z.of_nat (size (Tasks m)) <=? 0) && (Z.of_nat (length (FailedTasks m)) <=? 0).

Definition OnAllTaskFinish (m : t) : t :=
  let '(info, m) := default_info m in
  emit (OnDownloadEvent DS_END_DOWNLOAD info) m.

(** [TempPakSaveRoot E] stands for the combined [GetTempPakSaveRoot()]. *)
Definition AddTask (URL_ Name : string) (Size : Z) (m : t) : t :=
  let '(info, m) := default_info m in
  let Task := FDownloadTask.new (GUID info) URL_ (TempPakSaveRoot E) Name Size in
  if decide (is_Some (Tasks m !! GetGuid Task)) then m
  else set_Tasks (insert (GetGuid Task) Task) m.

(** The task's delegate is bound to [OnTaskEvent]; [Execute] runs it at
    once.  [rec] is the manager's [OnTaskEvent]. *)
Section Reentrant.
Context (rec : EDownloadTaskEvent -> FTaskInfo -> t -> option t).

Fixpoint deliver (g : FGuid) (effs : list Effect) (m : t) : option t :=
  match effs with
  | [] => Some m
  | e :: r =>
      m' ← match e with
           | ProcessRequest q => Some (emit (Http g q) m)
           | Execute ev info => rec ev info m
           | SeekWrite _ _ => Some m
           end;
      deliver g r m'
  end.

(** Run a method on the task object stored under [g].  The object is
    written back before its events are delivered: a method raises the
    events that end its task (END_DOWNLOAD, ERROR) last, after every change
    to the object, and the handlers of the other events do not read it. *)
Definition call (g : FGuid) (method : FDownloadTask.t -> FDownloadTask.t * list Effect)
    (m : t) : option t :=
  match Tasks m !! g with
  | None => Some m
  | Some x =>
      let '(x', effs) := method x in
      deliver g effs (set_Tasks (insert g x') m)
  end.

(** [for (Task : Tasks) if (!Task->IsDownloading()) Task->Start();]
    walked over the keys present when the loop begins; an entry that
    a nested event removed meanwhile is passed over. *)
Fixpoint restart (ks : list FGuid) (m : t) : option t :=
  match ks with
  | [] => Some m
  | g :: r =>
      m' ← match Tasks m !! g with
           | Some x => if IsDownloading x then Some m else call g (Start E) m
           | None => Some m
           end;
      restart r m'
  end.

(** [for (Task : Tasks) Task->Start();] *)
Fixpoint start_all (ks : list FGuid) (m : t) : option t :=
  match ks with
  | [] => Some m
  | g :: r => m' ← call g (Start E) m; start_all r m'
  end.

(** On success the staged file is moved to the pak root; both
    outcomes of the move only log.  *)
Definition OnTaskFinish (Info : FTaskInfo) (bIsSuccess : bool) (m : t) : option t :=
  let m := set_CurrentDownloadSize (uint64 (CurrentDownloadSize m + DownloadSize Info)) m in
  match Tasks m !! GUID Info with
  | None => Some m
  | Some OutRemovedValue =>
      let m := set_Tasks (delete (GUID Info)) m in
      let m := if bIsSuccess then m
               else set_FailedTasks (FailedTasks m ++ [OutRemovedValue]) m in
      restart (keys m) m
  end.

Definition OnTaskEvent_body (InEvent : EDownloadTaskEvent) (InInfo : FTaskInfo) (m : t)
    : option t :=
  match InEvent with
  | BEGIN_DOWNLOAD => Some (emit (OnDownloadEvent DS_BEGIN_FILE_DOWNLOAD InInfo) m)
  | UPDATE_DOWNLOAD =>
      if Now m <=? LastUpdateTime m then Some m
      else Some (emit (OnDownloadEvent DS_UPDATE_DOWNLOAD InInfo)
                   (set_LastUpdateTime (Now m) m))
  | END_DOWNLOAD =>
      let m := emit (OnDownloadEvent DS_END_FILE_DOWNLOAD InInfo) m in
      m ← OnTaskFinish InInfo true m;
      Some (if IsSuccessful m then OnAllTaskFinish m else m)
  | ERROR => OnTaskFinish InInfo false m
  | _ => Some m
  end.
End Reentrant.

(** [fuel] bounds the nesting of events raised from inside a handler. *)
Fixpoint OnTaskEvent (fuel : nat) (InEvent : EDownloadTaskEvent) (InInfo : FTaskInfo)
    (m : t) : option t :=
  match fuel with
  | O => None
  | S fuel' => OnTaskEvent_body (OnTaskEvent fuel') InEvent InInfo m
  end.

Definition sum_FileSize (m : t) : Z :=
  foldl (fun acc kv => uint64 (acc + FileSize (GetTaskInfo kv.2))) 0 (map_to_list (Tasks m)).

(** [StartUp], from the test of [Tasks.Num()] on.  The two statements
    before it are left out: the write of [StartTime], which only log lines
    read, and the call of [ClearTempPak], which deletes the [.pak] and temp
    files of the temp directory and touches no field of the manager.  What
    is modelled of [StartUp] is what it does to the manager, the events it
    raises and the requests it sends. *)
Definition StartUp (fuel : nat) (m : t) : option t :=
  if 0 <? Z.of_nat (size (Tasks m)) then
    let m := set_CurrentDownloadSize 0 (set_TotalDownloadSize 0 m) in
    let m := set_TotalDownloadSize (sum_FileSize m) m in
    let '(info, m) := default_info m in
    let m := emit (OnDownloadEvent DS_BEGIN_DOWNLOAD info) m in
    start_all (OnTaskEvent fuel) (keys m) m
  else
    let '(info, m) := default_info m in
    Some (emit (OnDownloadEvent DS_END_DOWNLOAD info) m).

(** [ShutDown]: every task is stopped and both containers are emptied;
    clearing the temp directory is left out. *)
Definition ShutDown (m : t) : t :=
  set_FailedTasks [] (set_Tasks (fun _ => ∅) (set_Tasks (fmap Stop) m)).

(** The HTTP module calling back into the task stored under [g]. *)
Inductive Callback :=
| CbRetGetHead (Response : option FHttpResponse) (bConnectedSuccessfully : bool)
    (a : HeadAnswers)
| CbRetGetChunk (Response : option FHttpResponse) (bConnectedSuccessfully : bool)
    (a : ChunkAnswers)
| CbGetChunkProgress (BytesReceived : Z).

Definition run_callback (cb : Callback) : FDownloadTask.t -> FDownloadTask.t * list Effect :=
  match cb with
  | CbRetGetHead r c a => RetGetHead E r c a
  | CbRetGetChunk r c a => RetGetChunk E r c a
  | CbGetChunkProgress n => GetChunkProgress n
  end.

(** A callback can only come from the request the task holds. *)
Definition bound (cb : Callback) (x : FDownloadTask.t) : bool :=
  match Request x, cb with
  | Some r, CbRetGetHead _ _ _ => match Verb r with HEAD => true | _ => false end
  | Some r, _ => match Verb r with GET => true | _ => false end
  | None, _ => false
  end.

Definition OnCallback (fuel : nat) (now : Z) (g : FGuid) (cb : Callback) (m : t) : option t :=
  match Tasks m !! g with
  | Some x =>
      if bound cb x then call (OnTaskEvent fuel) g (run_callback cb) (set_Now now m)
      else None
  | None => None
  end.

End Methods.

(** Every task is stored under its own GUID, as [AddTask] stores it. *)
Definition wf (m : t) : Prop :=
  forall k x, Tasks m !! k = Some x -> GUID (TaskInfo x) = k.

(** How many times a trace raises the aggregate END_DOWNLOAD. *)
Definition all_done (out : list Output) : nat :=
  length (List.filter
            (fun o => match o with OnDownloadEvent DS_END_DOWNLOAD _ => true | _ => false end)
            out).

(** [keeps m m']: from [m] to [m'] no task appeared, the failed list only
    grew at its end, the aggregate END_DOWNLOAD was not raised, and every
    parked task is still stored, untouched. *)
Definition keeps (m m' : t) : Prop :=
  (size (Tasks m') <= size (Tasks m))%nat
  /\ FailedTasks m `prefix_of` FailedTasks m'
  /\ (forall k, Tasks m !! k = None -> Tasks m' !! k = None)
  /\ all_done (Out m') = all_done (Out m)
  /\ (wf m -> wf m' /\
        forall g x, parked x -> Tasks m !! g = Some x -> Tasks m' !! g = Some x).

(** The task an event speaks of is not a parked one. *)
Definition subject_free (info : FTaskInfo) (m : t) : Prop :=
  wf m -> forall x, Tasks m !! GUID info = Some x -> ~ parked x.

(** What one handled event does to the manager: as [keeps], except that
    END_DOWNLOAD of a task raises the aggregate END_DOWNLOAD once exactly
    when the manager ends up successful, and that the subject of the
    event may have left the map. *)
Definition handled (ev : EDownloadTaskEvent) (info : FTaskInfo) (m m' : t) : Prop :=
  (size (Tasks m') <= size (Tasks m))%nat
  /\ FailedTasks m `prefix_of` FailedTasks m'
  /\ (forall k, Tasks m !! k = None -> Tasks m' !! k = None)
  /\ all_done (Out m')
     = (all_done (Out m)
        + if decide (ev = END_DOWNLOAD)
          then (if IsSuccessful m' then 1 else 0) else 0)%nat
  /\ (wf m -> wf m')
  /\ (wf m -> subject_free info m ->
      forall g x, parked x -> Tasks m !! g = Some x -> Tasks m' !! g = Some x)
  /\ (Tasks m' = Tasks m \/ Tasks m' !! GUID info = None).

(** What can happen to a manager during a run: a request calls back into
    its task, a task is added, the run is started. *)
Inductive step (E : Engine) : t -> t -> Prop :=
| step_callback fuel now g cb m m' :
    OnCallback E fuel now g cb m = Some m' -> step E m m'
| step_AddTask URL_ Name Size m :
    step E m (AddTask E URL_ Name Size m)
| step_StartUp fuel m m' :
    StartUp E fuel m = Some m' -> step E m m'.

(** The transfer phase alone: callbacks and the start of the run. *)
Inductive transfer (E : Engine) : t -> t -> Prop :=
| transfer_callback fuel now g cb m m' :
    OnCallback E fuel now g cb m = Some m' -> transfer E m m'
| transfer_StartUp fuel m m' :
    StartUp E fuel m = Some m' -> transfer E m m'.

(** [traces E m m']: every task of [m'] was a task of [m] under the same
    key and with the same URL, and every request issued on the way from [m]
    to [m'] went to the encoded URL of a task of [m], under its key. *)
Definition traces (E : Engine) (m m' : t) : Prop :=
  (forall g x', Tasks m' !! g = Some x' ->
     exists x, Tasks m !! g = Some x /\ URL (TaskInfo x') = URL (TaskInfo x))
  /\ exists news, Out m' = Out m ++ news
       /\ forall g q, Http g q ∈ news ->
            exists x, Tasks m !! g = Some x /\ ReqURL q = GetEncodedURL E x.

(** No stored task is idle. *)
Definition busy (m : t) : Prop :=
  forall k x, Tasks m !! k = Some x -> bIsDownLoading x = true.

(** No failed task is still stored. *)
Definition failed_apart (m : t) : Prop :=
  forall y, y ∈ FailedTasks m -> Tasks m !! GUID (TaskInfo y) = None.

(** [calm m m']: from [m] to [m'] every stored task was stored before and
    is transferring if it was, and every task that joined the failed list
    has left the map. *)
Definition calm (m m' : t) : Prop :=
  (wf m -> wf m')
  /\ (forall k x', Tasks m' !! k = Some x' ->
        exists x, Tasks m !! k = Some x
                  /\ (bIsDownLoading x = true -> bIsDownLoading x' = true))
  /\ (wf m -> forall y, y ∈ FailedTasks m' ->
        y ∈ FailedTasks m \/ Tasks m' !! GUID (TaskInfo y) = None).

(** What one handled event leaves behind: as [calm], and an event that
    ends a task removes it and has every other task started. *)
Definition settled (ev : EDownloadTaskEvent) (info : FTaskInfo) (m m' : t) : Prop :=
  calm m m'
  /\ (terminal ev = true -> Tasks m' !! GUID info = None)
  /\ (terminal ev = true -> wf m -> is_Some (Tasks m !! GUID info) -> busy m').

End FFileDownloadManager.

(** ** FilePakManager.cpp *)

Module FFilePakManager.

Inductive Output :=
| Verified (p : FPakFileProperty) (bRet : bool)        (* a call of [IsPakValid] *)
| Mounted (PakPath : string) (bRet : bool)             (* a call of [Mount] *)
| OnMountUpdated (Name : string) (Done Total : Z).     (* progress Done / Total *)

Record t := {
  PakFiles : list FPakFileProperty;
  FailedPakList : list FPakFileProperty;
  Out : list Output
}.

Definition empty : t := {| PakFiles := []; FailedPakList := []; Out := [] |}.

Definition set_PakFiles (l : list FPakFileProperty) (pm : t) : t :=
  {| PakFiles := l; FailedPakList := FailedPakList pm; Out := Out pm |}.
Definition set_FailedPakList (l : list FPakFileProperty) (pm : t) : t :=
  {| PakFiles := PakFiles pm; FailedPakList := l; Out := Out pm |}.
Definition emit (o : Output) (pm : t) : t :=
  {| PakFiles := PakFiles pm; FailedPakList := FailedPakList pm; Out := Out pm ++ [o] |}.

Section Methods.
Context (E : Engine).

(** [PakSaveRoot E] stands for the combined [GetPakSaveRoot()]. *)
Definition IsPakValid (fs : FileSystem) (PakInfo : FPakFileProperty) : bool :=
  let PakPath := Combine E (PakSaveRoot E) (PakName PakInfo) in
  if negb (FileExists fs PakPath) then false
  else if negb (FileSizeOf fs PakPath =? PakSize PakInfo) then false
  else
    match HashFile fs PakPath with
    | None => false
    | Some bytes => FString.eq (FString.BytesToHex bytes) (MD5 PakInfo)
    end.

Definition AddPakFile (PakFileProperty : FPakFileProperty) (pm : t) : t :=
  set_PakFiles (PakFiles pm ++ [PakFileProperty]) pm.

Definition IsSuccessful (pm : t) : bool :=
  Z.of_nat (length (FailedPakList pm)) <=? 0.

Definition UpdateMountProgress (CurrentIndex : Z) (pm : t) : t :=
  if (0 <=? CurrentIndex) && (CurrentIndex <? Z.of_nat (length (PakFiles pm))) then
    match PakFiles pm !! Z.to_nat CurrentIndex with
    | Some p => emit (OnMountUpdated (PakName p) (CurrentIndex + 1)
                        (Z.of_nat (length (PakFiles pm)))) pm
    | None => pm
    end
  else pm.

(** The loop of [StartUp], one unit of [fuel] per iteration. *)
Fixpoint StartUp_loop (fuel : nat) (i : Z) (fs : FileSystem) (pm : t) : FileSystem * t :=
  match fuel with
  | O => (fs, pm)
  | S fuel' =>
      if i <? Z.of_nat (length (PakFiles pm)) then
        match PakFiles pm !! Z.to_nat i with
        | None => (fs, pm)
        | Some p =>
            if FString.ne (GetExtension E (PakName p)) "pak" then
              StartUp_loop fuel' (i + 1) fs pm
            else
              let bRet := IsPakValid fs p in
              let pm := emit (Verified p bRet) pm in
              if negb bRet then
                let pm := set_FailedPakList (FailedPakList pm ++ [p]) pm in
                let pm := set_PakFiles (delete (Z.to_nat i) (PakFiles pm)) pm in
                StartUp_loop fuel' (i - 1 + 1) fs pm
              else
                let PakPath := Combine E (PakSaveRoot E) (PakName p) in
                let '(fs, bRet) := Mount E fs PakPath in
                let pm := emit (Mounted PakPath bRet) pm in
                if negb bRet then
                  StartUp_loop fuel' (i + 1) fs
                    (set_FailedPakList (FailedPakList pm ++ [p]) pm)
                else StartUp_loop fuel' (i + 1) fs (UpdateMountProgress i pm)
        end
      else (fs, pm)
  end.

(** [StartUp]: every iteration either moves past an entry or removes
    one, so the number of entries is fuel enough (see
    [StartUp_loop_fuel]).  Installing the pak platform file and opening
    the shader libraries are left out. *)
Definition StartUp (fs : FileSystem) (pm : t) : FileSystem * t :=
  StartUp_loop (length (PakFiles pm)) 0 fs pm.

Definition ShutDown (pm : t) : t :=
  set_FailedPakList [] (set_PakFiles [] pm).

(** The same loop told over the entries still ahead: [done] are the
    entries kept so far, so the index is [length done] and the array is
    [done ++ rest] (see [StartUp_loop_walk]). *)
Fixpoint walk (rest done : list FPakFileProperty) (fs : FileSystem)
    (failed : list FPakFileProperty) (out : list Output) : FileSystem * t :=
  match rest with
  | [] => (fs, {| PakFiles := done; FailedPakList := failed; Out := out |})
  | p :: rest' =>
      if FString.ne (GetExtension E (PakName p)) "pak" then
        walk rest' (done ++ [p]) fs failed out
      else
        let bRet := IsPakValid fs p in
        let out := out ++ [Verified p bRet] in
        if negb bRet then walk rest' done fs (failed ++ [p]) out
        else
          let PakPath := Combine E (PakSaveRoot E) (PakName p) in
          let '(fs, bRet) := Mount E fs PakPath in
          let out := out ++ [Mounted PakPath bRet] in
          if negb bRet then walk rest' (done ++ [p]) fs (failed ++ [p]) out
          else
            walk rest' (done ++ [p]) fs failed
              (out ++ [OnMountUpdated (PakName p) (Z.of_nat (length done) + 1)
                         (Z.of_nat (length (done ++ p :: rest')))])
  end.

(** The entries the mount stage looks at: extension equal to pak, by
    FString's comparison. *)
Definition is_pak (p : FPakFileProperty) : bool :=
  negb (FString.ne (GetExtension E (PakName p)) "pak").

(** The queue [ps] without the pak entries whose validation failed:
    [vs] are the verdicts on the pak entries of [ps], in order. *)
Fixpoint kept (ps : list FPakFileProperty) (vs : list bool) : list FPakFileProperty :=
  match ps with
  | [] => []
  | p :: r =>
      if is_pak p then
        match vs with
        | v :: vs' => if v then p :: kept r vs' else kept r vs'
        | [] => p :: kept r []
        end
      else p :: kept r vs
  end.

End Methods.

(** The validations and mounts of a trace, progress reports left out. *)
Definition calls (out : list Output) : list Output :=
  List.filter (fun o => match o with OnMountUpdated _ _ _ => false | _ => true end) out.

Definition mounts (out : list Output) : list string :=
  omap (fun o => match o with Mounted PakPath _ => Some PakPath | _ => None end) out.

(** The validations of a trace with their verdicts, the mounts with
    their results, and the progress reports as [(Done, Total)]. *)
Definition verdicts (out : list Output) : list (FPakFileProperty * bool) :=
  omap (fun o => match o with Verified p bRet => Some (p, bRet) | _ => None end) out.

Definition mount_results (out : list Output) : list (string * bool) :=
  omap (fun o => match o with Mounted PakPath bRet => Some (PakPath, bRet) | _ => None end) out.

Definition progress (out : list Output) : list (Z * Z) :=
  omap (fun o => match o with OnMountUpdated _ Done Total => Some (Done, Total) | _ => None end)
    out.

End FFilePakManager.

(** ** HotUpdateSubsystem.cpp *)

Module UHotUpdateSubsystem.

(** What the coordinator does to the outside, in program order. *)
Inductive Output :=
| StateEvent (State : EHotUpdateState) (Message : string)  (* [OnHotUpdateStateEvent.Execute] *)
| PostVersion                                              (* the manifest request *)
| Download (o : FFileDownloadManager.Output)
| MountOut (o : FFilePakManager.Output)
| HotUpdateFinished.                                       (* [OnHotUpdateFinished.Broadcast] *)

Record t := {
  DownloadManager : option FFileDownloadManager.t;   (* None: nullptr *)
  PakManager : option FFilePakManager.t;
  RequestBound : bool;         (* the completion delegate of [Request] is bound *)
  TimerSet : bool;             (* [TimeOutHandle] is running *)
  CurrentTimeRetry : Z;        (* uint32 *)
  bIsUpdating : bool;
  Log : list Output
}.

Definition set_DownloadManager (d : option FFileDownloadManager.t) (s : t) : t :=
  {| DownloadManager := d; PakManager := PakManager s; RequestBound := RequestBound s;
     TimerSet := TimerSet s; CurrentTimeRetry := CurrentTimeRetry s;
     bIsUpdating := bIsUpdating s; Log := Log s |}.
Definition set_PakManager (p : option FFilePakManager.t) (s : t) : t :=
  {| DownloadManager := DownloadManager s; PakManager := p; RequestBound := RequestBound s;
     TimerSet := TimerSet s; CurrentTimeRetry := CurrentTimeRetry s;
     bIsUpdating := bIsUpdating s; Log := Log s |}.
Definition set_RequestBound (b : bool) (s : t) : t :=
  {| DownloadManager := DownloadManager s; PakManager := PakManager s; RequestBound := b;
     TimerSet := TimerSet s; CurrentTimeRetry := CurrentTimeRetry s;
     bIsUpdating := bIsUpdating s; Log := Log s |}.
Definition set_TimerSet (b : bool) (s : t) : t :=
  {| DownloadManager := DownloadManager s; PakManager := PakManager s;
     RequestBound := RequestBound s; TimerSet := b; CurrentTimeRetry := CurrentTimeRetry s;
     bIsUpdating := bIsUpdating s; Log := Log s |}.
Definition set_CurrentTimeRetry (n : Z) (s : t) : t :=
  {| DownloadManager := DownloadManager s; PakManager := PakManager s;
     RequestBound := RequestBound s; TimerSet := TimerSet s; CurrentTimeRetry := n;
     bIsUpdating := bIsUpdating s; Log := Log s |}.
Definition set_bIsUpdating (b : bool) (s : t) : t :=
  {| DownloadManager := DownloadManager s; PakManager := PakManager s;
     RequestBound := RequestBound s; TimerSet := TimerSet s;
     CurrentTimeRetry := CurrentTimeRetry s; bIsUpdating := b; Log := Log s |}.
Definition emit (o : Output) (s : t) : t :=
  {| DownloadManager := DownloadManager s; PakManager := PakManager s;
     RequestBound := RequestBound s; TimerSet := TimerSet s;
     CurrentTimeRetry := CurrentTimeRetry s; bIsUpdating := bIsUpdating s;
     Log := Log s ++ [o] |}.
Definition emits (os : list Output) (s : t) : t := foldl (fun s o => emit o s) s os.

(** The coordinator together with the file system it runs against. *)
Definition World : Type := FileSystem * t.

Section Methods.
Context (E : Engine).

(** [Initialize]; [CanSkipUpdate()] is the constant false. *)
Definition Initialize : t :=
  {| DownloadManager := Some FFileDownloadManager.empty;
     PakManager := Some FFilePakManager.empty;
     RequestBound := false; TimerSet := false; CurrentTimeRetry := 0;
     bIsUpdating := true; Log := [] |}.

Definition ShutDown (s : t) : t :=
  let s := set_RequestBound false s in
  let s := set_DownloadManager None s in
  let s := set_PakManager None s in
  set_bIsUpdating false s.

Definition IsSuccessful (s : t) : bool :=
  match DownloadManager s with
  | None => false
  | Some dm =>
      if negb (FFileDownloadManager.IsSuccessful dm) then false
      else
        match PakManager s with
        | None => false
        | Some pm => FFilePakManager.IsSuccessful pm
        end
  end.

(** The state delegate is bound to [OnHotUpdateState]; [rec] is that
    handler, run at once by [Execute]. *)
Section Reentrant.
Context (rec : EHotUpdateState -> string -> World -> option World).

(** [OnDownloadEvent].  [OnUpdateDownloadProgress], here and at
    END_DOWNLOAD, broadcasts a rate computed in floating point and touches
    only the manager's fields of that computation; it is left out. *)
Definition OnDownloadEvent (Event : EDownloadState) (w : World) : option World :=
  match Event with
  | DS_END_DOWNLOAD => rec HU_END_DOWNLOAD "EndDownload" w
  | _ => Some w
  end.

(** The manager's outputs reach the coordinator in the order raised. *)
Fixpoint forward (os : list FFileDownloadManager.Output) (w : World) : option World :=
  match os with
  | [] => Some w
  | o :: r =>
      let w := (w.1, emit (Download o) w.2) in
      w' ← match o with
           | FFileDownloadManager.OnDownloadEvent st _ => OnDownloadEvent st w
           | FFileDownloadManager.Http _ _ => Some w
           end;
      forward r w'
  end.

Definition OnHotUpdateState_body (fuel : nat) (State : EHotUpdateState)
    (Message : string) (w : World) : option World :=
  let '(fs, s) := w in
  match State with
  | HU_END_GETVERSION =>
      match DownloadManager s with
      | Some dm =>
          dm' ← FFileDownloadManager.StartUp E fuel dm;
          forward (drop (length (FFileDownloadManager.Out dm)) (FFileDownloadManager.Out dm'))
            (fs, set_DownloadManager (Some dm') s)
      | None => Some w
      end
  | HU_END_DOWNLOAD => rec HU_BEGIN_MOUNT "BeginMount" w
  | HU_BEGIN_MOUNT =>
      match PakManager s with
      | Some pm =>
          let '(fs', pm') := FFilePakManager.StartUp E fs pm in
          let s := emits (MountOut <$> drop (length (FFilePakManager.Out pm))
                                       (FFilePakManager.Out pm')) s in
          let s := set_PakManager (Some pm') s in
          if FFilePakManager.IsSuccessful pm'
          then rec HU_END_MOUNT "EndMount" (fs', s)
          else rec HU_ERROR "Mount failed" (fs', s)
      | None => Some w
      end
  | HU_END_MOUNT => rec HU_END_HOTUPDATE "FinishUpdate" w
  | HU_END_HOTUPDATE =>
      if IsSuccessful s then Some (fs, emit HotUpdateFinished (ShutDown s))
      else rec HU_ERROR "Is not successful" w
  | _ => Some w
  end.
End Reentrant.

(** [OnHotUpdateStateEvent.Execute(State, Message)]; [fuel] bounds the
    nesting of state events and of the manager's task events. *)
Fixpoint OnHotUpdateState (fuel : nat) (State : EHotUpdateState) (Message : string)
    (w : World) : option World :=
  match fuel with
  | O => None
  | S fuel' =>
      OnHotUpdateState_body (OnHotUpdateState fuel') fuel' State Message
        (w.1, emit (StateEvent State Message) w.2)
  end.

Definition ReqGetVersion (fuel : nat) (w : World) : option World :=
  w ← OnHotUpdateState fuel HU_BEGIN_GETVERSION "Begin to get version" w;
  let '(fs, s) := w in
  let s := emit PostVersion (set_RequestBound true s) in
  Some (fs, set_TimerSet true s).

Definition OnReqGetVersionTimeOut (fuel : nat) (w : World) : option World :=
  let '(fs, s) := w in
  let s := set_RequestBound false s in
  let s := set_CurrentTimeRetry (uint32 (CurrentTimeRetry s + 1)) s in
  if CurrentTimeRetry s <=? MaxRetryTime E then ReqGetVersion fuel (fs, s)
  else
    let s := set_CurrentTimeRetry 0 s in
    let s := set_TimerSet false s in
    OnHotUpdateState fuel HU_ERROR "Error: Failed to req version" (fs, s).

(** [FJsonSerializer::Deserialize] into a [TSharedPtr<FJsonObject>]: the
    text has to denote a JSON object. *)
Definition Deserialize (text : string) : option (list (string * FJsonValue)) :=
  match ReadJson E text with
  | Some (JObject Values) => Some Values
  | _ => None
  end.

Definition PakFileProperty_of (File : FJsonValue) : FPakFileProperty :=
  let FileObject := AsObject E File in
  {| PakName := GetStringField E FileObject "File";
     PakSize := int32 (GetIntegerField E FileObject "Size");
     MD5 := GetStringField E FileObject "HASH" |}.

(** The files of the manifest in the order the two loops visit them. *)
Definition manifest_files (Values : list (string * FJsonValue)) : list FJsonValue :=
  concat ((fun Value => AsArray E Value.2) <$> Values).

Definition VersionURL : string :=
  String.append (HotUpdateServerUrl E) (String.append "/"
    (String.append (ProjectVersion E) (String.append "/"
      (String.append (Platform E) "/")))).

(** The body of the inner loop of [RetGetVersion]. *)
Definition register_file (fs : FileSystem) (File : FJsonValue)
    (mgrs : FFileDownloadManager.t * FFilePakManager.t)
    : FFileDownloadManager.t * FFilePakManager.t :=
  let '(dm, pm) := mgrs in
  let PakFileProperty := PakFileProperty_of File in
  let dm :=
    if negb (FFilePakManager.IsPakValid E fs PakFileProperty)
    then FFileDownloadManager.AddTask E
           (String.append VersionURL (PakName PakFileProperty))
           (PakName PakFileProperty) (PakSize PakFileProperty) dm
    else dm in
  (dm, FFilePakManager.AddPakFile PakFileProperty pm).

Definition register_files (fs : FileSystem) (Files : list FJsonValue)
    (mgrs : FFileDownloadManager.t * FFilePakManager.t)
    : FFileDownloadManager.t * FFilePakManager.t :=
  foldl (fun mgrs File => register_file fs File mgrs) mgrs Files.

Definition RetGetVersion (fuel : nat) (Response : option FHttpResponse)
    (bConnectedSuccessfully : bool) (w : World) : option World :=
  let '(fs, s) := w in
  let s := if TimerSet s then set_TimerSet false s else s in
  match Response with
  | None => OnHotUpdateState fuel HU_ERROR "Error: Failed to get version" (fs, s)
  | Some resp =>
      if negb bConnectedSuccessfully
      then OnHotUpdateState fuel HU_ERROR "Error: Failed to get version" (fs, s)
      else if FDownloadTask.bad_status (ResponseCode resp)
      then OnHotUpdateState fuel HU_ERROR "Error: Failed to get version" (fs, s)
      else
        match DownloadManager s, PakManager s with
        | Some dm, Some pm =>
            match Deserialize (ContentAsString resp) with
            | Some Values =>
                let '(dm, pm) := register_files fs (manifest_files Values) (dm, pm) in
                let s := set_PakManager (Some pm) (set_DownloadManager (Some dm) s) in
                OnHotUpdateState fuel HU_END_GETVERSION "End to get version" (fs, s)
            | None =>
                OnHotUpdateState fuel HU_ERROR "Error: Failed to deserialize json" (fs, s)
            end
        | _, _ => Some (fs, s)
        end
  end.

(** [StartUp]; [CanSkipUpdate()] is the constant false. *)
Definition StartUp (fuel : nat) (w : World) : option World := ReqGetVersion fuel w.

Definition CanSkipUpdate : bool := false.

(** [IsFinished] (HotUpdateSubsystem.h) *)
Definition IsFinished (s : t) : bool := negb (bIsUpdating s).

Definition OnSkipUpdate (fuel : nat) (w : World) : option World :=
  OnHotUpdateState fuel HU_END_HOTUPDATE "OnSkipUpdate" w.

Definition ForceSkipUpdate (fuel : nat) (w : World) : option World :=
  if CanSkipUpdate then Some w
  else if IsFinished w.2 then Some w
  else OnSkipUpdate fuel w.

(** The timer firing [k] times in a row, no answer in between. *)
Definition after_timeouts (fuel k : nat) (w : World) : option World :=
  Nat.iter k (fun o => o ≫= OnReqGetVersionTimeOut fuel) (Some w).

(** The call [register_file] makes for an entry that failed validation. *)
Definition add_download (dm : FFileDownloadManager.t) (p : FPakFileProperty)
    : FFileDownloadManager.t :=
  FFileDownloadManager.AddTask E (String.append VersionURL (PakName p))
    (PakName p) (PakSize p) dm.

(** Where the requests of the task of an entry go: the encoding, by the
    task, of the URL that [register_file] hands to [AddTask]. *)
Definition request_url (p : FPakFileProperty) : string :=
  FDownloadTask.GetEncodedURL E
    (FDownloadTask.new 0%N (String.append VersionURL (PakName p)) (TempPakSaveRoot E)
       (PakName p) (PakSize p)).

End Methods.

(** The coordinator when the mount loop has run: END_DOWNLOAD and
    BEGIN_MOUNT are logged, then what the loop did, and the pak manager is
    the one the loop left. *)
Definition mounted_state (s : t) (pm pm' : FFilePakManager.t) : t :=
  set_PakManager (Some pm')
    (emits (MountOut <$> drop (length (FFilePakManager.Out pm)) (FFilePakManager.Out pm'))
       (emit (StateEvent HU_BEGIN_MOUNT "BeginMount")
          (emit (StateEvent HU_END_DOWNLOAD "EndDownload") s))).

(** *** Reading a log *)

Definition states (log : list Output) : list (EHotUpdateState * string) :=
  omap (fun o => match o with StateEvent st msg => Some (st, msg) | _ => None end) log.

Definition posts (log : list Output) : nat :=
  length (List.filter (fun o => match o with PostVersion => true | _ => false end) log).

Definition downloads (log : list Output) : list FFileDownloadManager.Output :=
  omap (fun o => match o with Download d => Some d | _ => None end) log.

(** One manifest request, as it shows in the log. *)
Definition request_entry : list Output :=
  [StateEvent HU_BEGIN_GETVERSION "Begin to get version"; PostVersion].

End UHotUpdateSubsystem.

(** ** Reading hexadecimal text back

    The inverse of [FString.BytesToHex], for digits of either case. *)

Module Hex.

Definition digit (c : ascii) : option N :=
  let n := N_of_ascii c in
  if ((48 <=? n) && (n <=? 57))%N then Some (n - 48)%N
  else if ((65 <=? n) && (n <=? 70))%N then Some (n - 55)%N
  else if ((97 <=? n) && (n <=? 102))%N then Some (n - 87)%N
  else None.

Fixpoint decode (s : string) : option (list Byte.byte) :=
  match s with
  | EmptyString => Some []
  | String hi (String lo r) =>
      h ← digit hi; l ← digit lo; b ← Byte.of_N (16 * h + l); bs ← decode r;
      Some (b :: bs)
  | String _ EmptyString => None
  end.

End Hex.

(** ** A concrete engine for the examples *)

Module Demo.

Fixpoint after_last (c : ascii) (acc : string) (s : string) : string :=
  match s with
  | EmptyString => acc
  | String d r =>
      if Ascii.eqb d c then after_last c r r else after_last c acc r
  end.

Fixpoint has_char (c : ascii) (s : string) : bool :=
  match s with
  | EmptyString => false
  | String d r => Ascii.eqb d c || has_char c r
  end.

Definition lookup_field (fields : list (string * FJsonValue)) (k : string) : option FJsonValue :=
  snd <$> List.find (fun kv => String.eqb kv.1 k) fields.

(** The texts the examples send, next to the values they denote.  The
    first is the JSON string literal made of two quotes. *)
Definition quote : string := String "034"%char EmptyString.
Definition empty_json_string : string := String.append quote quote.

Definition file_object (name hash : string) (size : Z) : FJsonValue :=
  JObject [("File"%string, JString name); ("HASH"%string, JString hash);
           ("Size"%string, JNumber size)].

Definition manifest_text : string := "{manifest}".
Definition manifest_value : FJsonValue :=
  JObject [("0.1.0.0"%string, JArray []);
           ("0.1.1.0"%string,
             JArray [file_object "a.pak" "0cc175b9c0f1b6a831c399e269772661" 1;
                     file_object "b.pak" "92eb5ffee6ae2fec3ad71c777531578f" 1])].

Definition texts : list (string * FJsonValue) :=
  [(empty_json_string, JString EmptyString);
   ("{}"%string, JObject []);
   (manifest_text, manifest_value)].

Definition engine : Engine :=
  {| UrlEncode := fun s => s;
     GetCleanFilename := fun s => after_last "/"%char s s;
     GetExtension := fun s =>
       if has_char "."%char s then after_last "."%char s s else EmptyString;
     Combine := fun a b => String.append a (String.append "/" b);
     NewGuid := N.of_nat;
     ReadJson := fun text => snd <$> List.find (fun kv => String.eqb kv.1 text) texts;
     AsArray := fun v => match v with JArray l => l | _ => [] end;
     AsObject := fun v => match v with JObject f => f | _ => [] end;
     GetStringField := fun f k =>
       match lookup_field f k with Some (JString s) => s | _ => EmptyString end;
     GetIntegerField := fun f k =>
       match lookup_field f k with Some (JNumber n) => n | _ => 0 end;
     Mount := fun fs _ => (fs, true);
     HotUpdateServerUrl := "http://127.0.0.1";
     ProjectVersion := "0.1.1.0";
     Platform := "win";
     TempPakSaveRoot := "Saved/Paks/Temp";
     PakSaveRoot := "Saved/Paks";
     MaxRetryTime := 3 |}.

(** The same engine with the largest retry bound a uint32 can hold. *)
Definition patient_engine : Engine :=
  {| UrlEncode := UrlEncode engine;
     GetCleanFilename := GetCleanFilename engine;
     GetExtension := GetExtension engine;
     Combine := Combine engine;
     NewGuid := NewGuid engine;
     ReadJson := ReadJson engine;
     AsArray := AsArray engine;
     AsObject := AsObject engine;
     GetStringField := GetStringField engine;
     GetIntegerField := GetIntegerField engine;
     Mount := Mount engine;
     HotUpdateServerUrl := HotUpdateServerUrl engine;
     ProjectVersion := ProjectVersion engine;
     Platform := Platform engine;
     TempPakSaveRoot := TempPakSaveRoot engine;
     PakSaveRoot := PakSaveRoot engine;
     MaxRetryTime := UINT32_MAX |}.

(** The same engine with other texts to read. *)
Definition engine_reading (texts : list (string * FJsonValue)) : Engine :=
  {| UrlEncode := UrlEncode engine;
     GetCleanFilename := GetCleanFilename engine;
     GetExtension := GetExtension engine;
     Combine := Combine engine;
     NewGuid := NewGuid engine;
     ReadJson := fun text => snd <$> List.find (fun kv => String.eqb kv.1 text) texts;
     AsArray := AsArray engine;
     AsObject := AsObject engine;
     GetStringField := GetStringField engine;
     GetIntegerField := GetIntegerField engine;
     Mount := Mount engine;
     HotUpdateServerUrl := HotUpdateServerUrl engine;
     ProjectVersion := ProjectVersion engine;
     Platform := Platform engine;
     TempPakSaveRoot := TempPakSaveRoot engine;
     PakSaveRoot := PakSaveRoot engine;
     MaxRetryTime := MaxRetryTime engine |}.

(** An encoder that escapes: letters, digits and [-_.~] stay, every other
    character becomes a percent sign and its two hexadecimal digits. *)
Definition unreserved (c : ascii) : bool :=
  let n := N_of_ascii c in
  ((48 <=? n) && (n <=? 57) || (65 <=? n) && (n <=? 90) || (97 <=? n) && (n <=? 122)
   || (n =? 45) || (n =? 95) || (n =? 46) || (n =? 126))%N.

Definition hex_digit (n : N) : ascii :=
  ascii_of_N (if (n <? 10)%N then 48 + n else 55 + n).

Fixpoint percent_encode (s : string) : string :=
  match s with
  | EmptyString => EmptyString
  | String c r =>
      if unreserved c then String c (percent_encode r)
      else String "%"%char
             (String (hex_digit (N_of_ascii c / 16))
                (String (hex_digit (N_of_ascii c mod 16)) (percent_encode r)))
  end.

Definition escaping_engine : Engine :=
  {| UrlEncode := percent_encode;
     GetCleanFilename := GetCleanFilename engine;
     GetExtension := GetExtension engine;
     Combine := Combine engine;
     NewGuid := NewGuid engine;
     ReadJson := ReadJson engine;
     AsArray := AsArray engine;
     AsObject := AsObject engine;
     GetStringField := GetStringField engine;
     GetIntegerField := GetIntegerField engine;
     Mount := Mount engine;
     HotUpdateServerUrl := HotUpdateServerUrl engine;
     ProjectVersion := ProjectVersion engine;
     Platform := Platform engine;
     TempPakSaveRoot := TempPakSaveRoot engine;
     PakSaveRoot := PakSaveRoot engine;
     MaxRetryTime := MaxRetryTime engine |}.

(** A manifest that lists a.pak under two versions, with the hash of each. *)
Definition versions_text : string := "{versions}".
Definition versions_fields : list (string * FJsonValue) :=
  [("0.1.0.0"%string, JArray [file_object "a.pak" "0cc175b9c0f1b6a831c399e269772661" 1]);
   ("0.1.1.0"%string, JArray [file_object "a.pak" "92eb5ffee6ae2fec3ad71c777531578f" 1])].
Definition versions_engine : Engine :=
  engine_reading [(versions_text, JObject versions_fields)].


(** A disk that holds [Saved/Paks/a.pak], one byte long, with the MD5 of
    the letter a; nothing else. *)
Definition a_md5 : list Byte.byte :=
  [Byte.x0c; Byte.xc1; Byte.x75; Byte.xb9; Byte.xc0; Byte.xf1; Byte.xb6; Byte.xa8;
   Byte.x31; Byte.xc3; Byte.x99; Byte.xe2; Byte.x69; Byte.x77; Byte.x26; Byte.x61].

Definition disk : FileSystem :=
  {| FileExists := fun p => String.eqb p "Saved/Paks/a.pak";
     FileSizeOf := fun p => if String.eqb p "Saved/Paks/a.pak" then 1 else -1;
     HashFile := fun p => if String.eqb p "Saved/Paks/a.pak" then Some a_md5 else None |}.

Definition no_disk : FileSystem :=
  {| FileExists := fun _ => false; FileSizeOf := fun _ => -1; HashFile := fun _ => None |}.

Definition url_a : string := "http://127.0.0.1/0.1.1.0/win/a.pak".
Definition url_b : string := "http://127.0.0.1/0.1.1.0/win/b.pak".

Definition task_a : FDownloadTask.t := FDownloadTask.new 0%N url_a "Saved/Paks/Temp" "a.pak" 1.

Definition head_ok : FDownloadTask.HeadAnswers :=
  {| FDownloadTask.DirectoryExists := true; FDownloadTask.OpenWrite := true |}.
Definition chunk_ok : FDownloadTask.ChunkAnswers :=
  {| FDownloadTask.WriteOk := true; FDownloadTask.IsFileExistAnswer := false;
     FDownloadTask.MoveOk := true; FDownloadTask.ExistingFileSize := 0 |}.

Definition response (code len num : Z) : FHttpResponse :=
  {| ResponseCode := code; ContentLength := len; ContentNum := num;
     ContentAsString := EmptyString |}.

(** Two files are queued and started; the HEAD request of a.pak fails,
    b.pak (one byte) arrives whole. *)
Definition two_tasks : FFileDownloadManager.t :=
  FFileDownloadManager.AddTask engine url_b "b.pak" 1
    (FFileDownloadManager.AddTask engine url_a "a.pak" 1 FFileDownloadManager.empty).

Definition a_fails : FFileDownloadManager.Callback :=
  FFileDownloadManager.CbRetGetHead None false head_ok.
Definition b_head : FFileDownloadManager.Callback :=
  FFileDownloadManager.CbRetGetHead (Some (response 200 1 0)) true head_ok.
Definition b_chunk : FFileDownloadManager.Callback :=
  FFileDownloadManager.CbRetGetChunk (Some (response 206 1 1)) true chunk_ok.

Definition a_fails_then_b_succeeds : option FFileDownloadManager.t :=
  m ← FFileDownloadManager.StartUp engine 3 two_tasks;
  m ← FFileDownloadManager.OnCallback engine 3 1 0%N a_fails m;
  m ← FFileDownloadManager.OnCallback engine 3 2 1%N b_head m;
  FFileDownloadManager.OnCallback engine 3 3 1%N b_chunk m.

Definition b_succeeds_then_a_fails : option FFileDownloadManager.t :=
  m ← FFileDownloadManager.StartUp engine 3 two_tasks;
  m ← FFileDownloadManager.OnCallback engine 3 1 1%N b_head m;
  m ← FFileDownloadManager.OnCallback engine 3 2 1%N b_chunk m;
  FFileDownloadManager.OnCallback engine 3 3 0%N a_fails m.

(** Tasks whose URL has no path, and one without URL. *)
Definition task_spaced : FDownloadTask.t :=
  FDownloadTask.new 0%N "http://127.0.0.1/0.1.1.0/win/a b.pak" "Saved/Paks/Temp" "a b.pak" 1.
Definition task_no_path : FDownloadTask.t :=
  FDownloadTask.new 7%N "127.0.0.1:8080" "Saved/Paks/Temp" "a.pak" 1.
Definition task_no_url : FDownloadTask.t :=
  FDownloadTask.new 7%N EmptyString "Saved/Paks/Temp" "a.pak" 1.

(** The coordinator after [Initialize], on either disk. *)
Definition world (fs : FileSystem) : UHotUpdateSubsystem.World :=
  (fs, UHotUpdateSubsystem.Initialize).

Definition answer (text : string) : FHttpResponse :=
  {| ResponseCode := 200; ContentLength := 0; ContentNum := 0; ContentAsString := text |}.

Definition hot_update_states (w : UHotUpdateSubsystem.World) : list EHotUpdateState :=
  fst <$> UHotUpdateSubsystem.states (UHotUpdateSubsystem.Log w.2).

Definition download_requests (w : UHotUpdateSubsystem.World) : list string :=
  omap (fun d => match d with
                 | FFileDownloadManager.Http _ r => Some (ReqURL r)
                 | _ => None
                 end) (UHotUpdateSubsystem.downloads (UHotUpdateSubsystem.Log w.2)).

Definition download_states (m : FFileDownloadManager.t) : list EDownloadState :=
  omap (fun o => match o with
                 | FFileDownloadManager.OnDownloadEvent st _ => Some st
                 | _ => None
                 end) (FFileDownloadManager.Out m).

End Demo.

(** * Properties *)

(** ** Machine integers *)

Lemma int32_id z : -2147483648 <= z <= INT32_MAX -> int32 z = z.
Proof.
  unfold int32, INT32_MAX. intros H.
  rewrite Z.mod_small by lia. lia.
Qed.

Lemma int32_pred z : int32 (int32 z - 1) = int32 (z - 1).
Proof.
  unfold int32.
  replace ((z + 2147483648) mod 4294967296 - 2147483648 - 1 + 2147483648)
    with ((z + 2147483648) mod 4294967296 - 1) by lia.
  rewrite Zminus_mod_idemp_l. f_equal. f_equal. lia.
Qed.

(** ** The download task *)

Import FDownloadTask.

Section TaskFacts.
Context (E : Engine).

Lemma ChunkSize_val : ChunkSize = 4194304.
Proof. reflexivity. Qed.

(** [ceil]: [k] is a chunk index exactly when its first byte is in the file. *)
Lemma chunk_index_lt S k : k * ChunkSize < S <-> k < chunk_count S.
Proof.
  unfold chunk_count. rewrite ChunkSize_val.
  pose proof (Z.div_mod (S + 4194304 - 1) 4194304 ltac:(lia)) as Hd.
  pose proof (Z.mod_pos_bound (S + 4194304 - 1) 4194304 ltac:(lia)) as Hm.
  lia.
Qed.

Lemma GetEncodedURL_URL (x y : FDownloadTask.t) :
  URL (TaskInfo x) = URL (TaskInfo y) -> GetEncodedURL E x = GetEncodedURL E y.
Proof. unfold GetEncodedURL. intros ->. reflexivity. Qed.

Lemma ReqGetChunk_eq x S k :
  FString.IsEmpty (GetEncodedURL E x) = false ->
  TotalSize (TaskInfo x) = S -> S <= INT32_MAX ->
  0 <= k -> k * ChunkSize < S ->
  CurrentSize (TaskInfo x) = k * ChunkSize ->
  ReqGetChunk E x =
    (set_Request (Some (get_request E x (chunk_range S k).1 (chunk_range S k).2)) x,
     [ProcessRequest (get_request E x (chunk_range S k).1 (chunk_range S k).2);
      Execute BEGIN_DOWNLOAD (TaskInfo x)]).
Proof.
  intros Hurl HS Hmax Hk Hlt Hcur.
  unfold ReqGetChunk. rewrite Hurl, Hcur, HS, int32_pred.
  unfold chunk_range, get_request. simpl.
  unfold INT32_MAX in Hmax. rewrite ChunkSize_val in *.
  rewrite (int32_id (k * 4194304 + 4194304 - 1)) by (unfold INT32_MAX; lia).
  destruct (Z.leb_spec S (k * 4194304 + 4194304 - 1)).
  - rewrite int32_id by (unfold INT32_MAX; lia).
    rewrite Z.min_r by lia. reflexivity.
  - rewrite Z.min_l by lia. reflexivity.
Qed.

Lemma pending_ReqGetChunk r info :
  pending [ProcessRequest r; Execute BEGIN_DOWNLOAD info] = Some r.
Proof. reflexivity. Qed.

Lemma pending_after_write o n info r info' :
  pending [SeekWrite o n; Execute UPDATE_DOWNLOAD info; ProcessRequest r;
           Execute BEGIN_DOWNLOAD info'] = Some r.
Proof. reflexivity. Qed.

Lemma ranges_app e1 e2 : ranges (e1 ++ e2) = ranges e1 ++ ranges e2.
Proof. unfold ranges, requests. by rewrite !omap_app. Qed.

Lemma events_app e1 e2 : events (e1 ++ e2) = events e1 ++ events e2.
Proof. unfold events. by rewrite omap_app. Qed.

(** One answered chunk: the bytes are written at [CurrentSize], the size
    advances, and either the next range is requested or the task ends. *)
Lemma serve_chunks a fuel : forall x prev S k,
  WriteOk a = true ->
  FString.IsEmpty (GetEncodedURL E x) = false ->
  TempFileHandle x = true ->
  TotalSize (TaskInfo x) = S -> S <= INT32_MAX ->
  0 <= k -> k * ChunkSize < S ->
  CurrentSize (TaskInfo x) = k * ChunkSize ->
  pending prev = Some (get_request E x (chunk_range S k).1 (chunk_range S k).2) ->
  (Z.to_nat (chunk_count S - k) <= fuel)%nat ->
  ranges (serve E fuel a x prev).2
    = chunk_range S <$> seqZ (k + 1) (chunk_count S - (k + 1))
  /\ bIsDownLoading (serve E fuel a x prev).1 = false
  /\ (raised END_DOWNLOAD (serve E fuel a x prev).2
      || raised ERROR (serve E fuel a x prev).2 = true).
Proof.
  induction fuel as [|fuel IH]; intros x prev S k Hw Hurl Hh HS Hmax Hk Hlt Hcur Hp Hfuel.
  { apply chunk_index_lt in Hlt. lia. }
  pose proof (proj1 (chunk_index_lt S k) Hlt) as Hidx.
  cbn [serve]. rewrite Hp. cbn [get_request Verb].
  unfold RetGetChunk. cbn [negb exact_reply ResponseCode ContentNum Range get_request].
  replace (bad_status 206) with false by reflexivity.
  rewrite Hh, Hw. unfold OnWriteChunkEnd.
  set (x1 := set_info _ x).
  assert (Hc1 : CurrentSize (TaskInfo x1) = Z.min ((k + 1) * ChunkSize) S).
  { subst x1. cbn. rewrite Hcur. unfold chunk_range. cbn [fst snd].
    unfold INT32_MAX in Hmax. rewrite ChunkSize_val in *.
    rewrite int32_id by (unfold INT32_MAX; lia). lia. }
  assert (Ht1 : TotalSize (TaskInfo x1) = S) by (subst x1; cbn; exact HS).
  assert (Hu1 : FString.IsEmpty (GetEncodedURL E x1) = false).
  { rewrite (GetEncodedURL_URL x1 x); [exact Hurl | reflexivity]. }
  rewrite Hc1, Ht1.
  destruct (Z.ltb_spec (Z.min ((k + 1) * ChunkSize) S) S) as [Hmore|Hdone].
  - (* another chunk *)
    assert (Hlt1 : (k + 1) * ChunkSize < S) by lia.
    rewrite (ReqGetChunk_eq x1 S (k + 1)) by (try done; lia).
    set (r1 := get_request E x1 _ _).
    set (x2 := set_Request (Some r1) x1).
    set (e := [SeekWrite _ _] ++ _).
    assert (Hu2 : FString.IsEmpty (GetEncodedURL E x2) = false).
    { rewrite (GetEncodedURL_URL x2 x); [exact Hurl | reflexivity]. }
    assert (Hc2 : CurrentSize (TaskInfo x2) = (k + 1) * ChunkSize).
    { change (CurrentSize (TaskInfo x2)) with (CurrentSize (TaskInfo x1)). lia. }
    assert (Hp2 : pending e
              = Some (get_request E x2 (chunk_range S (k + 1)).1 (chunk_range S (k + 1)).2)).
    { subst e r1. reflexivity. }
    assert (Hf2 : (Z.to_nat (chunk_count S - (k + 1)) <= fuel)%nat) by lia.
    destruct (IH x2 e S (k + 1) Hw Hu2 Hh Ht1 Hmax ltac:(lia) Hlt1 Hc2 Hp2 Hf2)
      as (Hr & Hd & He).
    destruct (serve E fuel a x2 e) as [x3 e3] eqn:Hs.
    cbn [fst snd] in *. split; [|split].
    + rewrite ranges_app. subst e r1. cbn -[chunk_range seqZ].
      rewrite Hr.
      rewrite (seqZ_cons (k + 1)) by (apply chunk_index_lt in Hlt1; lia).
      cbn -[chunk_range seqZ]. f_equal. f_equal. f_equal; lia.
    + exact Hd.
    + unfold raised in *. rewrite events_app.
      apply orb_true_iff in He. apply orb_true_iff.
      destruct He as [He|He]; [left|right];
        apply bool_decide_eq_true in He; apply bool_decide_eq_true;
        apply elem_of_app; by right.
  - (* the last chunk *)
    assert (Hlast : chunk_count S = k + 1).
    { assert (~ (k + 1) * ChunkSize < S) by lia.
      rewrite chunk_index_lt in H. lia. }
    rewrite Hlast, Z.sub_diag. cbn [seqZ].
    unfold OnTaskCompleted.
    destruct (IsFileExistAnswer a); cbn [negb];
      [ match goal with
        | |- context [if negb ?c then _ else _] => destruct c; cbn [negb]
        end
      | destruct (MoveOk a) ].
    all: match goal with
         | |- context [serve E ?f ?a0 ?y ?e] =>
             assert (Hs : serve E f a0 y e = (y, []))
               by (destruct f; reflexivity)
         end; cbn in Hs |- *; rewrite Hs; cbn; auto.
Qed.

End TaskFacts.

Lemma chunk_ranges_length S : 0 < S -> Z.of_nat (length (chunk_ranges S)) = chunk_count S.
Proof.
  intros HS. unfold chunk_ranges. rewrite length_fmap, length_seqZ.
  assert (0 < chunk_count S) by (apply chunk_index_lt; lia). lia.
Qed.

Lemma chunk_ranges_Tiles_from S (m : nat) : forall k,
  0 <= k -> chunk_count S = k + Z.of_nat (Datatypes.S m) ->
  Tiles (k * ChunkSize) S (chunk_range S <$> seqZ k (Z.of_nat (Datatypes.S m))).
Proof.
  induction m as [|m IH]; intros k Hk Hn.
  - assert (Hlt : k * ChunkSize < S) by (apply chunk_index_lt; lia).
    assert (Hge : ~ (k + 1) * ChunkSize < S) by (rewrite chunk_index_lt; lia).
    assert (Hl : chunk_range S <$> seqZ k (Z.of_nat 1) = [(k * ChunkSize, S - 1)]).
    { rewrite seqZ_cons by lia. rewrite seqZ_nil by lia.
      cbn. unfold chunk_range. rewrite ChunkSize_val in *. f_equal. f_equal; lia. }
    rewrite Hl. apply Tiles_cons; [lia|].
    replace (S - 1 + 1) with S by lia. apply Tiles_nil.
  - assert (Hlt : (k + 1) * ChunkSize < S) by (apply chunk_index_lt; lia).
    rewrite seqZ_cons by lia. rewrite fmap_cons.
    unfold chunk_range at 1.
    replace (Z.min (k * ChunkSize + ChunkSize - 1) (S - 1))
      with (k * ChunkSize + ChunkSize - 1) by lia.
    apply Tiles_cons; [rewrite ChunkSize_val; lia|].
    replace (k * ChunkSize + ChunkSize - 1 + 1) with ((k + 1) * ChunkSize) by lia.
    replace (Z.succ k) with (k + 1) by lia.
    replace (Z.pred (Z.of_nat (Datatypes.S (Datatypes.S m))))
      with (Z.of_nat (Datatypes.S m)) by lia.
    apply IH; lia.
Qed.

Lemma chunk_ranges_Tiles S : 0 < S -> Tiles 0 S (chunk_ranges S).
Proof.
  intros HS. unfold chunk_ranges.
  assert (Hn : 0 < chunk_count S) by (apply chunk_index_lt; lia).
  destruct (Z.to_nat (chunk_count S)) as [|m] eqn:Hm; [lia|].
  replace (chunk_count S) with (Z.of_nat (Datatypes.S m)) at 1 by lia.
  change 0 with (0 * ChunkSize) at 1.
  apply chunk_ranges_Tiles_from; lia.
Qed.

(** C6, as the code has it.  A file of [S] bytes, [0 < S <= INT32_MAX]
    (the sizes the int32 [TotalSize] of a task can hold), whose HEAD succeeded and whose chunk requests are each answered
    with exactly the requested bytes: the GET requests of the whole run
    carry the ranges [k*C .. min(k*C + C - 1, S - 1)] for
    [k = 0 .. ceil(S/C) - 1], that is [ceil(S/C)] of them, which tile
    [[0, S)] in increasing order without gap or overlap and end at byte
    [S - 1]; after the last one the task has left the downloading state
    with a completion or error event. *)
Theorem chunk_sequencing (E : Engine) (x : FDownloadTask.t) (resp : FHttpResponse)
    (ha : HeadAnswers) (a : ChunkAnswers) (S : Z) (fuel : nat) :
  FString.IsEmpty (GetEncodedURL E x) = false ->
  0 < S <= INT32_MAX ->
  bad_status (ResponseCode resp) = false ->
  ContentLength resp = S ->
  DirectoryExists ha = true -> OpenWrite ha = true -> WriteOk a = true ->
  (Z.to_nat (chunk_count S) <= fuel)%nat ->
  let h := RetGetHead E (Some resp) true ha x in
  let s := serve E fuel a h.1 h.2 in
  ranges (h.2 ++ s.2) = chunk_ranges S
  /\ Z.of_nat (length (ranges (h.2 ++ s.2))) = chunk_count S
  /\ Tiles 0 S (ranges (h.2 ++ s.2))
  /\ bIsDownLoading s.1 = false
  /\ raised END_DOWNLOAD s.2 || raised ERROR s.2 = true.
Proof.
  intros Hurl [HS Hmax] Hst Hlen Hdir Hopen Hw Hfuel.
  assert (Hr : let h := RetGetHead E (Some resp) true ha x in
               let s := serve E fuel a h.1 h.2 in
               ranges (h.2 ++ s.2) = chunk_ranges S
               /\ bIsDownLoading s.1 = false
               /\ raised END_DOWNLOAD s.2 || raised ERROR s.2 = true).
  { unfold RetGetHead. cbn [negb]. rewrite Hst, Hdir, Hopen. cbn [negb TempFileHandle set_TempFileHandle].
    set (x1 := set_TempFileHandle true _).
    assert (Hu1 : FString.IsEmpty (GetEncodedURL E x1) = false).
    { rewrite (GetEncodedURL_URL E x1 x); [exact Hurl | reflexivity]. }
    assert (Ht1 : TotalSize (TaskInfo x1) = S).
    { subst x1. cbn. rewrite Hlen. apply int32_id. lia. }
    assert (Hc1 : CurrentSize (TaskInfo x1) = 0 * ChunkSize) by reflexivity.
    rewrite (ReqGetChunk_eq E x1 S 0) by (try done; lia).
    set (r1 := get_request E x1 _ _). set (x2 := set_Request (Some r1) x1).
    cbn [fst snd].
    set (e := [Execute RET_HEAD _] ++ _).
    assert (Hu2 : FString.IsEmpty (GetEncodedURL E x2) = false).
    { rewrite (GetEncodedURL_URL E x2 x); [exact Hurl | reflexivity]. }
    assert (Hp2 : pending e = Some (get_request E x2 (chunk_range S 0).1 (chunk_range S 0).2))
      by reflexivity.
    destruct (serve_chunks E a fuel x2 e S 0 Hw Hu2 eq_refl Ht1 Hmax ltac:(lia)
                ltac:(rewrite ChunkSize_val; lia) Hc1 Hp2 ltac:(lia)) as (Hr & Hd & He).
    split; [|by split].
    rewrite ranges_app, Hr. subst e r1. unfold chunk_ranges.
    assert (0 < chunk_count S) by (apply chunk_index_lt; lia).
    rewrite (seqZ_cons 0) by lia.
    cbn -[chunk_range seqZ]. f_equal. }
  cbv zeta in Hr |- *. destruct Hr as (Hr & Hd & He).
  rewrite Hr. repeat split; auto using chunk_ranges_length, chunk_ranges_Tiles.
Qed.

Lemma chunk_sequencing_witness :
  let S := 10485760 in
  let x := (Start Demo.engine Demo.task_a).1 in
  let h := RetGetHead Demo.engine (Some (Demo.response 200 S 0)) true Demo.head_ok x in
  let s := serve Demo.engine 3 Demo.chunk_ok h.1 h.2 in
  ranges (h.2 ++ s.2) = chunk_ranges S
  /\ Z.of_nat (length (ranges (h.2 ++ s.2))) = chunk_count S
  /\ Tiles 0 S (ranges (h.2 ++ s.2))
  /\ bIsDownLoading s.1 = false
  /\ raised END_DOWNLOAD s.2 || raised ERROR s.2 = true.
Proof.
  apply (chunk_sequencing Demo.engine (Start Demo.engine Demo.task_a).1
           (Demo.response 200 10485760 0) Demo.head_ok Demo.chunk_ok 10485760 3).
  - reflexivity.
  - unfold INT32_MAX. lia.
  - reflexivity.
  - reflexivity.
  - reflexivity.
  - reflexivity.
  - reflexivity.
  - vm_compute. lia.
Defined.

(** The scenario of the specification: 10 MiB in three requests. *)
Example chunk_sequencing_10MiB :
  chunk_ranges 10485760 = [(0, 4194303); (4194304, 8388607); (8388608, 10485759)].
Proof. reflexivity. Qed.

(** C6 as stated fails for the sizes an int32 cannot hold.  A file of
    4 GiB and one byte: the length the HEAD answer announces is read into
    the int32 [TotalSize] as 1, so the task asks for the one byte [0-0],
    receives it and ends the download: one request where [ceil(S / C)] is
    1025, and the ranges do not tile [[0, S)]. *)
Lemma chunk_sequencing_fails_beyond_int32 :
  let S := 4294967297 in
  let x := (Start Demo.engine Demo.task_a).1 in
  let h := RetGetHead Demo.engine (Some (Demo.response 200 S 0)) true Demo.head_ok x in
  let s := serve Demo.engine 1025 Demo.chunk_ok h.1 h.2 in
  0 < S
  /\ FString.IsEmpty (GetEncodedURL Demo.engine x) = false
  /\ chunk_count S = 1025
  /\ TotalSize (TaskInfo h.1) = 1
  /\ ranges (h.2 ++ s.2) = [(0, 0)]
  /\ ranges (h.2 ++ s.2) <> chunk_ranges S
  /\ ~ Tiles 0 S (ranges (h.2 ++ s.2))
  /\ events (h.2 ++ s.2) = [RET_HEAD; BEGIN_DOWNLOAD; UPDATE_DOWNLOAD; END_DOWNLOAD].
Proof.
  cbv zeta.
  assert (Hr : ranges
            ((RetGetHead Demo.engine (Some (Demo.response 200 4294967297 0)) true Demo.head_ok
                (Start Demo.engine Demo.task_a).1).2
             ++ (serve Demo.engine 1025 Demo.chunk_ok
                   (RetGetHead Demo.engine (Some (Demo.response 200 4294967297 0)) true
                      Demo.head_ok (Start Demo.engine Demo.task_a).1).1
                   (RetGetHead Demo.engine (Some (Demo.response 200 4294967297 0)) true
                      Demo.head_ok (Start Demo.engine Demo.task_a).1).2).2)
            = [(0, 0)]) by (vm_compute; reflexivity).
  rewrite Hr.
  split; [lia|]. split; [vm_compute; reflexivity|]. split; [vm_compute; reflexivity|].
  split; [vm_compute; reflexivity|]. split; [reflexivity|].
  split; [intros H; apply (f_equal length) in H; vm_compute in H; discriminate|].
  split; [|vm_compute; reflexivity].
  intros H. inversion H as [|lo e hi rs Hle Ht]; subst. inversion Ht.
Qed.

(** The bound of [chunk_sequencing] is sharp.  At 2 GiB, the first size
    past it, [TotalSize] is the least int32; with the wrap-around of the
    int32 arithmetic the one request asks for [0-2147483647]. *)
Example chunk_sequencing_at_2GiB :
  let S := 2147483648 in
  let x := (Start Demo.engine Demo.task_a).1 in
  let h := RetGetHead Demo.engine (Some (Demo.response 200 S 0)) true Demo.head_ok x in
  let s := serve Demo.engine 512 Demo.chunk_ok h.1 h.2 in
  S = INT32_MAX + 1 /\ chunk_count S = 512
  /\ TotalSize (TaskInfo h.1) = - 2147483648
  /\ ranges (h.2 ++ s.2) = [(0, 2147483647)].
Proof. vm_compute. repeat split. Qed.

(** ** The HEAD phase *)

(** The trace of [RetGetHead], case by case. *)
Lemma RetGetHead_trace (E : Engine) (x : FDownloadTask.t)
    (Response : option FHttpResponse) (bConnectedSuccessfully : bool) (ha : HeadAnswers) :
  let h := RetGetHead E Response bConnectedSuccessfully ha x in
  if head_accepted Response bConnectedSuccessfully then
    events h.2
      = RET_HEAD ::
        (if DirectoryExists ha && OpenWrite ha
         then (if FString.IsEmpty (GetEncodedURL E x) then [] else [BEGIN_DOWNLOAD])
         else [ERROR])
    /\ Verb <$> requests h.2
       = (if DirectoryExists ha && OpenWrite ha && negb (FString.IsEmpty (GetEncodedURL E x))
          then [GET] else [])
  else h.2 = [Execute ERROR (TaskInfo x)].
Proof.
  unfold head_accepted, RetGetHead.
  destruct Response as [resp|]; [|reflexivity].
  destruct bConnectedSuccessfully; [|reflexivity]. cbn [negb andb].
  unfold bad_status.
  destruct (Z.leb_spec 400 (ResponseCode resp)), (Z.ltb_spec (ResponseCode resp) 200),
    (Z.leb_spec 200 (ResponseCode resp)), (Z.ltb_spec (ResponseCode resp) 400);
    try lia; cbn [orb andb]; try reflexivity.
  destruct (DirectoryExists ha); cbn [negb andb]; [|by split].
  destruct (OpenWrite ha); cbn [negb andb TempFileHandle set_TempFileHandle]; [|by split].
  unfold ReqGetChunk.
  match goal with
  | |- context [FString.IsEmpty (GetEncodedURL E ?y)] =>
      rewrite (GetEncodedURL_URL E y x) by reflexivity
  end.
  destruct (FString.IsEmpty (GetEncodedURL E x)); by split.
Qed.

(** C5, as the code has it.  [RetGetHead] rejects a missing response, a
    failed connection and every status below 200 or from 400 up: the task
    then raises ERROR alone and issues nothing.  Every status in
    [[200, 400)], the 3xx range included, is accepted: the task raises
    RET_HEAD, and goes on to the first ranged GET (BEGIN_DOWNLOAD) when the
    temp directory and the temp file could be made, to ERROR otherwise.
    So RET_HEAD is raised exactly on an accepted answer; the download
    begins exactly when the answer is accepted, the temp directory is
    there or could be made, the temp file could be opened and the encoded
    URL is not empty; and ERROR is raised exactly when the answer is
    rejected or the directory or the file could not be made. *)
Theorem head_phase_status (E : Engine) (x : FDownloadTask.t)
    (Response : option FHttpResponse) (bConnectedSuccessfully : bool) (ha : HeadAnswers) :
  let h := RetGetHead E Response bConnectedSuccessfully ha x in
  (if head_accepted Response bConnectedSuccessfully then
     events h.2
       = RET_HEAD ::
         (if DirectoryExists ha && OpenWrite ha
          then (if FString.IsEmpty (GetEncodedURL E x) then [] else [BEGIN_DOWNLOAD])
          else [ERROR])
     /\ Verb <$> requests h.2
        = (if DirectoryExists ha && OpenWrite ha && negb (FString.IsEmpty (GetEncodedURL E x))
           then [GET] else [])
   else h.2 = [Execute ERROR (TaskInfo x)])
  /\ raised RET_HEAD h.2 = head_accepted Response bConnectedSuccessfully
  /\ raised BEGIN_DOWNLOAD h.2
     = head_accepted Response bConnectedSuccessfully
       && DirectoryExists ha && OpenWrite ha && negb (FString.IsEmpty (GetEncodedURL E x))
  /\ raised ERROR h.2
     = negb (head_accepted Response bConnectedSuccessfully
             && DirectoryExists ha && OpenWrite ha).
Proof.
  intros h. pose proof (RetGetHead_trace E x Response bConnectedSuccessfully ha) as H.
  cbv zeta in H. fold h in H. split; [exact H|].
  unfold raised.
  destruct (head_accepted Response bConnectedSuccessfully).
  - destruct H as [-> _].
    destruct (DirectoryExists ha), (OpenWrite ha), (FString.IsEmpty (GetEncodedURL E x));
      repeat split; reflexivity.
  - rewrite H. repeat split; reflexivity.
Qed.

(** C5 as stated fails: a 304 answer is not rejected. *)
Lemma head_phase_304_accepted :
  let x := (Start Demo.engine Demo.task_a).1 in
  let h := RetGetHead Demo.engine (Some (Demo.response 304 10485760 0)) true Demo.head_ok x in
  events h.2 = [RET_HEAD; BEGIN_DOWNLOAD]
  /\ raised ERROR h.2 = false
  /\ ranges h.2 = [(0, 4194303)]
  /\ TempFileHandle h.1 = true.
Proof. vm_compute. repeat split. Qed.

(** ** Starting a task whose URL has no path *)

Lemma index_from_Some c s : forall n i,
  FString.index_from n c s = Some i -> (n <= i)%nat /\ String.get i s = Some c.
Proof.
  induction s as [|d r IH]; intros n i H; [discriminate|].
  cbn [FString.index_from] in H. destruct n as [|n].
  - destruct (Ascii.eqb_spec d c) as [->|Hne].
    + injection H as <-. split; [lia | reflexivity].
    + apply fmap_Some in H as (j & Hj & ->). apply IH in Hj as [_ Hj].
      split; [lia | exact Hj].
  - apply fmap_Some in H as (j & Hj & ->). apply IH in Hj as [Hle Hj].
    split; [lia | exact Hj].
Qed.

Lemma Find_none (s : string) (c : ascii) :
  (forall i, String.get i s = Some c -> (i < 14)%nat /\ (S i < String.length s)%nat) ->
  FString.Find s c 14 = INDEX_NONE.
Proof.
  intros H. unfold FString.Find. destruct (FString.IsEmpty s); [reflexivity|].
  destruct (FString.index_from _ c s) as [i|] eqn:Hi; [|reflexivity].
  apply index_from_Some in Hi as [Hle Hget]. apply H in Hget as [H14 Hlen].
  exfalso. revert Hle. unfold FString.Clamp, FString.Len.
  destruct (Z.ltb_spec 14 0); [lia|].
  destruct (Z.ltb_spec 14 (Z.of_nat (String.length s) - 1)); lia.
Qed.

Lemma GetEncodedURL_no_path (E : Engine) (x : FDownloadTask.t) :
  no_path_slash (URL (TaskInfo x)) -> GetEncodedURL E x = EmptyString.
Proof.
  intros H. unfold GetEncodedURL. rewrite (Find_none _ _ H). reflexivity.
Qed.

(** What [Start] leaves behind when nothing could be requested. *)
Lemma Start_no_path (E : Engine) (x : FDownloadTask.t) :
  FString.IsEmpty (URL (TaskInfo x)) = false ->
  FString.IsEmpty (FileName (TaskInfo (name_fallback E x))) = false ->
  no_path_slash (URL (TaskInfo x)) ->
  Start E x = (set_bIsDownLoading true (name_fallback E x), []).
Proof.
  intros Hu Hn Hs. unfold Start. fold (name_fallback E x).
  assert (Hu' : URL (TaskInfo (name_fallback E x)) = URL (TaskInfo x)).
  { unfold name_fallback. by destruct (FString.IsEmpty (FileName (TaskInfo x))). }
  rewrite Hu', Hu, Hn. cbn [orb].
  destruct (bIsDownLoading (name_fallback E x)) eqn:Hd.
  - f_equal. destruct (name_fallback E x). cbn in *. by subst.
  - unfold ReqGetHead.
    rewrite (GetEncodedURL_URL E _ x) by (cbn; exact Hu').
    rewrite (GetEncodedURL_no_path E x Hs). reflexivity.
Qed.

(** ** The archive validator *)

Import FFilePakManager.

(** C7.  [IsPakValid] answers true exactly when the file at the archive
    path exists, its size on disk is the expected one, and the hex digest
    of its contents equals the expected hash up to the case of letters; in
    every other case (no file, another size, no digest, another digest) it
    answers false. *)
Theorem IsPakValid_iff (E : Engine) (fs : FileSystem) (PakInfo : FPakFileProperty) :
  let PakPath := Combine E (PakSaveRoot E) (PakName PakInfo) in
  IsPakValid E fs PakInfo = true <->
    FileExists fs PakPath = true
    /\ FileSizeOf fs PakPath = PakSize PakInfo
    /\ exists bytes, HashFile fs PakPath = Some bytes
         /\ FString.ToLower (FString.BytesToHex bytes) = FString.ToLower (MD5 PakInfo).
Proof.
  cbv zeta. unfold IsPakValid.
  destruct (FileExists fs _); cbn [negb]; [|split; [discriminate | intros [? _]; discriminate]].
  destruct (Z.eqb_spec (FileSizeOf fs (Combine E (PakSaveRoot E) (PakName PakInfo)))
              (PakSize PakInfo)) as [Hs|Hs]; cbn [negb];
    [|split; [discriminate | intros (_ & ? & _); contradiction]].
  destruct (HashFile fs _) as [bytes|];
    [|split; [discriminate | intros (_ & _ & b & ? & _); discriminate]].
  unfold FString.eq. rewrite String.eqb_eq. split.
  - intros H. repeat split; auto. by exists bytes.
  - intros (_ & _ & b & Hb & H). by injection Hb as ->.
Qed.

Example IsPakValid_upper_case_hash :
  IsPakValid Demo.engine Demo.disk
    {| PakName := "a.pak"; PakSize := 1; MD5 := "0CC175B9C0F1B6A831C399E269772661" |} = true
  /\ IsPakValid Demo.engine Demo.disk
    {| PakName := "a.pak"; PakSize := 2; MD5 := "0cc175b9c0f1b6a831c399e269772661" |} = false
  /\ IsPakValid Demo.engine Demo.disk
    {| PakName := "b.pak"; PakSize := 1; MD5 := "0cc175b9c0f1b6a831c399e269772661" |} = false.
Proof. vm_compute. repeat split. Qed.

(** ** The mount stage *)

Section MountFacts.
Context (E : Engine).

Lemma StartUp_loop_walk rest : forall done fs failed out fuel,
  (length rest <= fuel)%nat ->
  StartUp_loop E fuel (Z.of_nat (length done)) fs
    {| PakFiles := done ++ rest; FailedPakList := failed; Out := out |}
  = walk E rest done fs failed out.
Proof.
  induction rest as [|p rest IH]; intros done fs failed out fuel Hfuel.
  - rewrite app_nil_r. destruct fuel; [reflexivity|].
    cbn [StartUp_loop PakFiles]. rewrite Z.ltb_irrefl. reflexivity.
  - destruct fuel as [|fuel]; [cbn in Hfuel; lia|].
    cbn [length] in Hfuel.
    cbn [StartUp_loop walk PakFiles].
    rewrite length_app. cbn [length].
    destruct (Z.ltb_spec (Z.of_nat (length done)) (Z.of_nat (length done + S (length rest))));
      [|lia].
    rewrite Nat2Z.id.
    rewrite (list_lookup_middle done rest p (length done) eq_refl).
    assert (Hnext : Z.of_nat (length done) + 1 = Z.of_nat (length (done ++ [p]))).
    { rewrite length_app. cbn. lia. }
    assert (Happ : done ++ p :: rest = (done ++ [p]) ++ rest) by by rewrite <- app_assoc.
    destruct (FString.ne (GetExtension E (PakName p)) "pak").
    { rewrite Hnext, Happ. apply IH. lia. }
    destruct (IsPakValid E fs p); cbn [negb].
    + destruct (Mount E fs (Combine E (PakSaveRoot E) (PakName p))) as [fs' bRet].
      destruct bRet; cbn [negb].
      * unfold UpdateMountProgress, emit. cbn [PakFiles FailedPakList Out].
        rewrite length_app. cbn [length].
        destruct (Z.leb_spec 0 (Z.of_nat (length done))); [|lia].
        destruct (Z.ltb_spec (Z.of_nat (length done))
                    (Z.of_nat (length done + S (length rest)))); [|lia].
        cbn [andb]. rewrite Nat2Z.id.
        rewrite (list_lookup_middle done rest p (length done) eq_refl).
        rewrite Hnext. rewrite Happ at 1.
        rewrite IH by lia. rewrite <- Hnext. reflexivity.
      * unfold set_FailedPakList, emit. cbn [PakFiles FailedPakList Out].
        rewrite Hnext, Happ. apply IH. lia.
    + unfold set_FailedPakList, set_PakFiles, emit. cbn [PakFiles FailedPakList Out].
      rewrite delete_middle.
      replace (Z.of_nat (length done) - 1 + 1) with (Z.of_nat (length done)) by lia.
      apply IH. lia.
Qed.

(** The number of queued entries is fuel enough; more changes nothing. *)
Lemma StartUp_loop_fuel (fs : FileSystem) (pm : FFilePakManager.t) (fuel : nat) :
  (length (PakFiles pm) <= fuel)%nat ->
  StartUp_loop E fuel 0 fs pm = StartUp E fs pm.
Proof.
  intros H. unfold StartUp. destruct pm as [files failed out]. cbn [PakFiles] in *.
  pose proof (StartUp_loop_walk files [] fs failed out fuel H) as H1.
  pose proof (StartUp_loop_walk files [] fs failed out (length files) (le_n _)) as H2.
  change (Z.of_nat (length [])) with 0 in H1, H2. cbn [app] in H1, H2.
  by rewrite H1, H2.
Qed.

Lemma StartUp_walk (fs : FileSystem) (pm : FFilePakManager.t) :
  StartUp E fs pm = walk E (PakFiles pm) [] fs (FailedPakList pm) (Out pm).
Proof.
  unfold StartUp. destruct pm as [files failed out]. cbn [PakFiles FailedPakList Out].
  by apply (StartUp_loop_walk files [] fs failed out (length files) (le_n _)).
Qed.

Lemma calls_app o1 o2 : calls (o1 ++ o2) = calls o1 ++ calls o2.
Proof. unfold calls. apply List.filter_app. Qed.

Lemma walk_filter rest : forall done done' fs failed out out',
  calls out = calls out' ->
  let r := walk E rest done fs failed out in
  let r' := walk E (List.filter (is_pak E) rest) done' fs failed out' in
  r.1 = r'.1
  /\ FailedPakList r.2 = FailedPakList r'.2
  /\ calls (Out r.2) = calls (Out r'.2).
Proof.
  induction rest as [|p rest IH]; intros done done' fs failed out out' Hc; cbv zeta.
  - by cbn.
  - cbn [walk List.filter].
    assert (Hp : is_pak E p = negb (FString.ne (GetExtension E (PakName p)) "pak"))
      by reflexivity.
    rewrite Hp.
    destruct (FString.ne (GetExtension E (PakName p)) "pak") eqn:Hne; cbn [negb].
    { by apply IH. }
    cbn [walk]. rewrite Hne.
    destruct (IsPakValid E fs p); cbn [negb].
    + destruct (Mount E fs (Combine E (PakSaveRoot E) (PakName p))) as [fs' bRet].
      destruct bRet; cbn [negb]; apply IH; rewrite !calls_app, Hc; reflexivity.
    + apply IH; rewrite !calls_app, Hc; reflexivity.
Qed.

Lemma walk_keeps_skipped rest : forall done fs failed out,
  List.filter (fun p => negb (is_pak E p)) (PakFiles (walk E rest done fs failed out).2)
  = List.filter (fun p => negb (is_pak E p)) (done ++ rest).
Proof.
  induction rest as [|p rest IH]; intros done fs failed out.
  - cbn. by rewrite app_nil_r.
  - cbn [walk].
    assert (Happ : done ++ p :: rest = (done ++ [p]) ++ rest) by by rewrite <- app_assoc.
    destruct (FString.ne (GetExtension E (PakName p)) "pak") eqn:Hne.
    { rewrite IH. by rewrite Happ. }
    destruct (IsPakValid E fs p); cbn [negb].
    + destruct (Mount E fs (Combine E (PakSaveRoot E) (PakName p))) as [fs' bRet].
      destruct bRet; cbn [negb]; rewrite IH; by rewrite Happ.
    + rewrite IH. rewrite !List.filter_app. cbn [List.filter].
      assert (Hp : negb (is_pak E p) = false) by (unfold is_pak; by rewrite Hne).
      by rewrite Hp.
Qed.

Lemma walk_all_skipped rest : forall done fs failed out,
  forallb (fun p => negb (is_pak E p)) rest = true ->
  walk E rest done fs failed out
  = (fs, {| PakFiles := done ++ rest; FailedPakList := failed; Out := out |}).
Proof.
  induction rest as [|p rest IH]; intros done fs failed out H.
  - cbn. by rewrite app_nil_r.
  - cbn [forallb] in H. apply andb_true_iff in H as [Hp Hr].
    cbn [walk]. unfold is_pak in Hp. rewrite negb_involutive in Hp. rewrite Hp.
    rewrite IH by exact Hr. by rewrite <- app_assoc.
Qed.

End MountFacts.

(** C9.  The mount stage passes over every queued entry whose extension
    is not pak (by FString's comparison, which ignores case).  Run on the
    whole queue or on the queue without those entries, [StartUp] leaves the
    same file system, the same failed list, hence the same verdict, and
    makes the same validations and mounts in the same order; the entries
    passed over stay queued; and when no entry has the pak extension
    nothing happens at all: no validation, no mount, the failed list and
    the verdict as before. *)
Theorem mount_skips_other_extensions (E : Engine) (fs : FileSystem) (pm : FFilePakManager.t) :
  let r := StartUp E fs pm in
  let r' := StartUp E fs (set_PakFiles (List.filter (is_pak E) (PakFiles pm)) pm) in
  (r.1 = r'.1
   /\ FailedPakList r.2 = FailedPakList r'.2
   /\ FFilePakManager.IsSuccessful r.2 = FFilePakManager.IsSuccessful r'.2
   /\ calls (Out r.2) = calls (Out r'.2))
  /\ List.filter (fun p => negb (is_pak E p)) (PakFiles r.2)
     = List.filter (fun p => negb (is_pak E p)) (PakFiles pm)
  /\ (if forallb (fun p => negb (is_pak E p)) (PakFiles pm)
      then r = (fs, pm) /\ mounts (Out r.2) = mounts (Out pm)
      else True).
Proof.
  cbv zeta. rewrite !StartUp_walk. cbn [PakFiles FailedPakList Out set_PakFiles].
  split; [|split].
  - destruct (walk_filter E (PakFiles pm) [] [] fs (FailedPakList pm) (Out pm) (Out pm) eq_refl)
      as (H1 & H2 & H3).
    unfold FFilePakManager.IsSuccessful. rewrite H2. auto.
  - apply (walk_keeps_skipped E (PakFiles pm) []).
  - destruct (forallb _ (PakFiles pm)) eqn:Hall; [|exact I].
    rewrite (walk_all_skipped E _ [] fs _ _ Hall). cbn. by destruct pm.
Qed.

Example mount_skips_txt :
  let pm := {| PakFiles := [ {| PakName := "notes.txt"; PakSize := 3; MD5 := "00" |} ];
               FailedPakList := []; Out := [] |} in
  StartUp Demo.engine Demo.no_disk pm = (Demo.no_disk, pm)
  /\ FFilePakManager.IsSuccessful (StartUp Demo.engine Demo.no_disk pm).2 = true.
Proof. vm_compute. split; reflexivity. Qed.

(** ** The transfer manager *)

Import FFileDownloadManager.

Section ManagerFacts.
Context (E : Engine).

(** *** What the task methods raise *)

Lemma Start_parked (x : FDownloadTask.t) : parked x -> Start E x = (x, []).
Proof.
  intros (Hu & Hn & Hd & _). unfold Start, name_fallback.
  rewrite Hn. cbv beta iota zeta. by rewrite Hu, Hn, Hd.
Qed.

Lemma name_fallback_GUID (x : FDownloadTask.t) :
  GUID (TaskInfo (name_fallback E x)) = GUID (TaskInfo x).
Proof. unfold name_fallback. by destruct (FString.IsEmpty _). Qed.

Lemma Start_shape (x : FDownloadTask.t) :
  GUID (TaskInfo (Start E x).1) = GUID (TaskInfo x)
  /\ ((Start E x).2 = []
      \/ ((Start E x).2 = [Execute ERROR (TaskInfo (Start E x).1)] /\ ~ parked (Start E x).1)
      \/ (exists r, (Start E x).2 = [ProcessRequest r; Execute REQ_HEAD (TaskInfo (Start E x).1)]
                    /\ ~ parked (Start E x).1)).
Proof.
  unfold Start. pose proof (name_fallback_GUID x) as HG.
  destruct (FString.IsEmpty (URL (TaskInfo (name_fallback E x))) ||
            FString.IsEmpty (FileName (TaskInfo (name_fallback E x)))) eqn:Hc.
  - cbn. split; [exact HG|]. right; left. split; [reflexivity|].
    intros (Hu & Hn & _). rewrite Hu, Hn in Hc. discriminate.
  - destruct (bIsDownLoading (name_fallback E x)); [cbn; auto|].
    unfold ReqGetHead. destruct (FString.IsEmpty (GetEncodedURL E _)); cbn; [auto|].
    split; [exact HG|]. right; right. eexists. split; [reflexivity|].
    intros (_ & _ & _ & Hr). discriminate.
Qed.

Lemma ReqGetChunk_own (x : FDownloadTask.t) : own_events x (ReqGetChunk E x).
Proof.
  unfold ReqGetChunk, own_events.
  destruct (FString.IsEmpty _); cbn; repeat constructor.
Qed.

Lemma OnTaskCompleted_own a (x : FDownloadTask.t) : own_events x (OnTaskCompleted a x).
Proof.
  unfold OnTaskCompleted, own_events.
  destruct (IsFileExistAnswer a); cbn [negb].
  - match goal with |- context [if negb ?c then _ else _] => destruct c end;
      cbn; repeat constructor.
  - destruct (MoveOk a); cbn; repeat constructor.
Qed.

Lemma own_events_trans (x y : FDownloadTask.t) r :
  GUID (TaskInfo y) = GUID (TaskInfo x) -> own_events y r -> own_events x r.
Proof. unfold own_events. intros ->. auto. Qed.

Lemma run_callback_own cb (x : FDownloadTask.t) : own_events x (run_callback E cb x).
Proof.
  destruct cb as [resp c a|resp c a|n]; cbn [run_callback].
  - unfold RetGetHead.
    destruct resp as [resp|]; [|split; cbn; repeat constructor].
    destruct c; cbn [negb]; [|split; cbn; repeat constructor].
    destruct (bad_status _); [split; cbn; repeat constructor|].
    destruct (DirectoryExists a); cbn [negb]; [|split; cbn; repeat constructor].
    destruct (OpenWrite a); cbn [negb TempFileHandle set_TempFileHandle];
      [|split; cbn; repeat constructor].
    match goal with
    | |- context [ReqGetChunk E ?y] =>
        destruct (ReqGetChunk_own y) as [H1 H2]; destruct (ReqGetChunk E y) as [y' e']
    end.
    cbn in *. split; [exact H1|]. constructor; [reflexivity | exact H2].
  - unfold RetGetChunk.
    destruct resp as [resp|]; [|split; cbn; repeat constructor].
    destruct c; cbn [negb]; [|split; cbn; repeat constructor].
    destruct (bad_status _); [split; cbn; repeat constructor|].
    destruct (TempFileHandle x); [|split; cbn; repeat constructor].
    destruct (WriteOk a); [|split; cbn; repeat constructor].
    unfold OnWriteChunkEnd.
    match goal with
    | |- context [if ?c then ReqGetChunk E ?y else OnTaskCompleted ?a ?y] =>
        assert (H : own_events y (if c then ReqGetChunk E y else OnTaskCompleted a y))
          by (destruct c; [apply ReqGetChunk_own | apply OnTaskCompleted_own]);
        destruct (if c then ReqGetChunk E y else OnTaskCompleted a y) as [y' e']
    end.
    destruct H as [H1 H2]. cbn in *. split; [exact H1|].
    constructor; [exact I|]. constructor; [reflexivity | exact H2].
  - unfold GetChunkProgress. destruct (_ <? _); split; cbn; repeat constructor.
Qed.

Lemma run_callback_Request cb (x : FDownloadTask.t) :
  Request x <> None -> Request (run_callback E cb x).1 <> None.
Proof.
  intros Hx.
  assert (Hc : forall y, Request y <> None -> Request (ReqGetChunk E y).1 <> None).
  { intros y Hy. unfold ReqGetChunk. by destruct (FString.IsEmpty _). }
  assert (Ht : forall a y, Request y <> None -> Request (OnTaskCompleted a y).1 <> None).
  { intros a y Hy. unfold OnTaskCompleted.
    destruct (IsFileExistAnswer a); cbn [negb].
    - match goal with |- context [if negb ?c then _ else _] => by destruct c end.
    - by destruct (MoveOk a). }
  destruct cb as [resp c a|resp c a|n]; cbn [run_callback].
  - unfold RetGetHead.
    destruct resp as [resp|]; [|done]. destruct c; cbn [negb]; [|done].
    destruct (bad_status _); [done|].
    destruct (DirectoryExists a); cbn [negb]; [|done].
    destruct (OpenWrite a); cbn [negb TempFileHandle set_TempFileHandle]; [|done].
    match goal with
    | |- context [ReqGetChunk E ?y] =>
        specialize (Hc y Hx); destruct (ReqGetChunk E y)
    end. exact Hc.
  - unfold RetGetChunk.
    destruct resp as [resp|]; [|done]. destruct c; cbn [negb]; [|done].
    destruct (bad_status _); [done|].
    destruct (TempFileHandle x); [|done]. destruct (WriteOk a); [|done].
    unfold OnWriteChunkEnd.
    match goal with
    | |- context [if ?c then ReqGetChunk E ?y else OnTaskCompleted ?a ?y] =>
        assert (H : Request (if c then ReqGetChunk E y else OnTaskCompleted a y).1 <> None)
          by (destruct c; [apply Hc | apply Ht]; exact Hx);
        destruct (if c then ReqGetChunk E y else OnTaskCompleted a y)
    end. exact H.
  - unfold GetChunkProgress. by destruct (_ <? _).
Qed.

End ManagerFacts.

Section ManagerInduction.
Context (E : Engine).

Lemma all_done_app o1 o2 : all_done (o1 ++ o2) = (all_done o1 + all_done o2)%nat.
Proof. unfold all_done. by rewrite List.filter_app, length_app. Qed.

Lemma all_done_emit_other o m :
  match o with OnDownloadEvent DS_END_DOWNLOAD _ => False | _ => True end ->
  all_done (Out (emit o m)) = all_done (Out m).
Proof.
  intros Ho. unfold emit. cbn [Out]. rewrite all_done_app.
  destruct o as [[] ?|]; cbn in *; try lia; contradiction.
Qed.

Lemma keeps_refl m : keeps m m.
Proof. unfold keeps. repeat split; auto. Qed.

Lemma keeps_trans m1 m2 m3 : keeps m1 m2 -> keeps m2 m3 -> keeps m1 m3.
Proof.
  intros (S1 & P1 & N1 & D1 & W1) (S2 & P2 & N2 & D2 & W2).
  unfold keeps. repeat split.
  - lia.
  - by etrans.
  - auto.
  - congruence.
  - apply W2, W1. assumption.
  - intros g x Hp Hx. destruct (W1 H) as [Hw Hk]. destruct (W2 Hw) as [_ Hk2]. auto.
Qed.

(** Changes that leave the task map and the failed list alone. *)
Lemma keeps_same m m' :
  Tasks m' = Tasks m -> FailedTasks m' = FailedTasks m ->
  all_done (Out m') = all_done (Out m) -> keeps m m'.
Proof.
  intros HT HF HD. unfold keeps, wf. rewrite HT, HF, HD. repeat split; auto.
Qed.

(** Writing back the task that [Start] returned. *)
Lemma keeps_store_Start m k x :
  Tasks m !! k = Some x ->
  keeps m (set_Tasks (insert k (Start E x).1) m).
Proof.
  intros Hk. unfold keeps. cbn [Tasks FailedTasks Out set_Tasks].
  split; [|split; [|split; [|split]]].
  - rewrite map_size_insert_Some by eauto. lia.
  - done.
  - intros k' Hk'. rewrite lookup_insert_ne; [done | congruence].
  - reflexivity.
  - intros Hw. split.
    + unfold wf in *. cbn [Tasks set_Tasks]. intros k' y.
      destruct (decide (k = k')) as [<-|Hne].
      * rewrite lookup_insert_eq. intros [= <-].
        rewrite (proj1 (Start_shape E x)). eauto.
      * rewrite lookup_insert_ne by done. eauto.
    + intros g y Hp Hg. destruct (decide (k = g)) as [<-|Hne].
      * rewrite lookup_insert_eq. rewrite Hk in Hg. injection Hg as ->.
        by rewrite (Start_parked E y Hp).
      * by rewrite lookup_insert_ne.
Qed.

Lemma handled_keeps ev info m m' :
  ev <> END_DOWNLOAD -> subject_free info m -> handled ev info m m' -> keeps m m'.
Proof.
  intros Hev Hfree (S1 & P1 & N1 & D1 & W1 & K1 & _).
  unfold keeps. split; [|split; [|split; [|split]]]; auto.
  rewrite D1. destruct (decide (ev = END_DOWNLOAD)); [done | lia].
Qed.

Section WithHandler.
Context (rec : EDownloadTaskEvent -> FTaskInfo -> FFileDownloadManager.t
               -> option FFileDownloadManager.t).
Context (rec_ok : forall ev info m m', rec ev info m = Some m' -> handled ev info m m').

Lemma call_Start_keeps k m m' :
  call rec k (Start E) m = Some m' -> keeps m m'.
Proof.
  unfold call. destruct (Tasks m !! k) as [x|] eqn:Hk;
    [|intros [= <-]; apply keeps_refl].
  pose proof (keeps_store_Start m k x Hk) as Hstore.
  pose proof (Start_shape E x) as [HG Hshape].
  destruct (Start E x) as [x' effs]. cbn [fst snd] in *.
  set (m1 := set_Tasks (insert k x') m) in *.
  assert (Hfree : ~ parked x' -> subject_free (TaskInfo x') m1).
  { intros Hnp Hw y Hy. unfold wf in Hw.
    assert (Hx' : Tasks m1 !! k = Some x') by (subst m1; cbn; apply lookup_insert_eq).
    rewrite (Hw _ _ Hx') in Hy. rewrite Hx' in Hy. by injection Hy as <-. }
  destruct Hshape as [->|[[-> Hnp]|(r & -> & Hnp)]].
  - intros [= <-]. exact Hstore.
  - cbn [deliver]. destruct (rec ERROR (TaskInfo x') m1) as [m2|] eqn:Hrec; [|done].
    cbn. intros [= <-]. eapply keeps_trans; [exact Hstore|].
    eapply handled_keeps; [| |by apply rec_ok]; [done | by apply Hfree].
  - cbn [deliver]. cbn [mbind option_bind].
    destruct (rec REQ_HEAD (TaskInfo x') (emit (Http k r) m1)) as [m2|] eqn:Hrec; [|done].
    cbn. intros [= <-]. eapply keeps_trans; [exact Hstore|].
    eapply keeps_trans;
      [apply (keeps_same m1 (emit (Http k r) m1)); try done;
       by apply all_done_emit_other|].
    eapply handled_keeps; [| |by apply rec_ok]; [done|].
    intros Hw. apply (Hfree Hnp). exact Hw.
Qed.

Lemma restart_keeps ks : forall m m', restart E rec ks m = Some m' -> keeps m m'.
Proof.
  induction ks as [|k ks IH]; intros m m'; cbn [restart].
  - intros [= <-]. apply keeps_refl.
  - destruct (Tasks m !! k) as [x|] eqn:Hk.
    + destruct (IsDownloading x).
      * cbn. apply IH.
      * destruct (call rec k (Start E) m) as [m1|] eqn:Hc; [|done]. cbn.
        intros H. eapply keeps_trans; [by eapply call_Start_keeps | by apply IH].
    + cbn. apply IH.
Qed.

Lemma start_all_keeps ks : forall m m', start_all E rec ks m = Some m' -> keeps m m'.
Proof.
  induction ks as [|k ks IH]; intros m m'; cbn [start_all].
  - intros [= <-]. apply keeps_refl.
  - destruct (call rec k (Start E) m) as [m1|] eqn:Hc; [|done]. cbn.
    intros H. eapply keeps_trans; [by eapply call_Start_keeps | by apply IH].
Qed.

(** [OnTaskFinish]: the subject leaves the map (for the failed list when
    it failed), nothing else changes but by restarts. *)
Lemma OnTaskFinish_spec Info bIsSuccess m m' :
  OnTaskFinish E rec Info bIsSuccess m = Some m' ->
  handled ERROR Info m m'
  /\ (forall x, Tasks m !! GUID Info = Some x ->
      Tasks m' !! GUID Info = None
      /\ (bIsSuccess = false -> x ∈ FailedTasks m')).
Proof.
  unfold OnTaskFinish. cbn [Tasks set_CurrentDownloadSize].
  destruct (Tasks m !! GUID Info) as [x|] eqn:Hx.
  2:{ intros [= <-]. split; [|done]. unfold handled. cbn. rewrite Hx.
      repeat split; auto; try lia. }
  set (m0 := set_CurrentDownloadSize _ m).
  set (m1 := set_Tasks (delete (GUID Info)) m0).
  set (m2 := if bIsSuccess then m1 else set_FailedTasks (FailedTasks m1 ++ [x]) m1).
  intros Hr. apply restart_keeps in Hr. destruct Hr as (S2 & P2 & N2 & D2 & W2).
  assert (HT2 : Tasks m2 = delete (GUID Info) (Tasks m)) by (subst m2; by destruct bIsSuccess).
  assert (HO2 : Out m2 = Out m) by (subst m2; by destruct bIsSuccess).
  assert (HF2 : FailedTasks m `prefix_of` FailedTasks m2).
  { subst m2. destruct bIsSuccess; cbn; [done | by apply prefix_app_r]. }
  assert (Hw2 : wf m -> wf m2).
  { unfold wf. rewrite HT2. intros Hw k y Hy.
    apply lookup_delete_Some in Hy as [_ Hy]. eauto. }
  assert (Hgone : Tasks m' !! GUID Info = None).
  { apply N2. rewrite HT2. apply lookup_delete_eq. }
  split.
  - unfold handled. repeat split.
    + rewrite HT2 in S2. rewrite map_size_delete_Some in S2 by eauto. lia.
    + by etrans.
    + intros k Hk. apply N2. rewrite HT2. rewrite lookup_delete_None. auto.
    + rewrite D2, HO2. destruct (decide (ERROR = END_DOWNLOAD)); [done | lia].
    + intros Hw. by apply W2, Hw2.
    + intros Hw Hfree g y Hp Hg. apply W2; [by apply Hw2 | done |].
      assert (Hne : GUID Info <> g).
      { intros <-. rewrite Hx in Hg. injection Hg as <-. by apply (Hfree Hw x Hx). }
      rewrite HT2. by rewrite lookup_delete_ne.
    + by right.
  - intros y [= <-]. split; [exact Hgone|].
    intros ->. subst m2. cbn in P2.
    destruct P2 as [l Hl]. rewrite Hl, !elem_of_app. left. right. constructor.
Qed.

Lemma OnTaskEvent_body_handled InEvent InInfo m m' :
  OnTaskEvent_body E rec InEvent InInfo m = Some m' -> handled InEvent InInfo m m'.
Proof.
  assert (Hsame : forall ev m0, ev <> END_DOWNLOAD ->
            Tasks m0 = Tasks m -> FailedTasks m0 = FailedTasks m ->
            all_done (Out m0) = all_done (Out m) -> handled ev InInfo m m0).
  { intros ev m0 Hev HT HF HD. unfold handled, wf. rewrite HT, HF, HD.
    destruct (decide (ev = END_DOWNLOAD)); [done|].
    repeat split; auto; lia. }
  destruct InEvent; cbn [OnTaskEvent_body].
  - intros [= <-]. by apply Hsame.
  - intros [= <-]. by apply Hsame.
  - intros [= <-]. apply Hsame; try done. by apply all_done_emit_other.
  - destruct (Now m <=? LastUpdateTime m); intros [= <-]; apply Hsame; try done.
    by apply (all_done_emit_other _ (set_LastUpdateTime (Now m) m)).
  - set (m1 := emit _ m).
    destruct (OnTaskFinish E rec InInfo true m1) as [m2|] eqn:Hf; [|done].
    cbn. intros [= <-].
    apply OnTaskFinish_spec in Hf as [(S2 & P2 & N2 & D2 & W2 & K2 & T2) _].
    assert (HD1 : all_done (Out m1) = all_done (Out m)).
    { subst m1. by apply all_done_emit_other. }
    assert (Hfin : forall m3, Tasks m3 = Tasks m2 -> FailedTasks m3 = FailedTasks m2 ->
              all_done (Out m3)
              = (all_done (Out m2)
                 + if FFileDownloadManager.IsSuccessful m2 then 1 else 0)%nat ->
              handled END_DOWNLOAD InInfo m m3).
    { intros m3 HT HF HD. unfold handled.
      assert (Hs : FFileDownloadManager.IsSuccessful m3 = FFileDownloadManager.IsSuccessful m2).
      { unfold FFileDownloadManager.IsSuccessful. by rewrite HT, HF. }
      unfold wf, subject_free, wf in *. rewrite HT, HF, HD, Hs.
      cbn [Tasks FailedTasks emit] in *.
      destruct (decide (END_DOWNLOAD = END_DOWNLOAD)); [|done].
      assert (HD2 : all_done (Out m2) = all_done (Out m)).
      { rewrite D2, HD1. destruct (decide (ERROR = END_DOWNLOAD)); [done | lia]. }
      rewrite HD2. repeat split; auto. }
    destruct (FFileDownloadManager.IsSuccessful m2) eqn:Hs.
    + apply Hfin; try done. unfold OnAllTaskFinish. cbn -[all_done].
      rewrite all_done_app. cbn. lia.
    + apply Hfin; try done.
  - intros Hf. by apply OnTaskFinish_spec in Hf as [Hh _].
Qed.

End WithHandler.

(** Every event the manager handles is handled as [handled] says. *)
Lemma OnTaskEvent_handled fuel : forall ev info m m',
  OnTaskEvent E fuel ev info m = Some m' -> handled ev info m m'.
Proof.
  induction fuel as [|fuel IH]; intros ev info m m'; [done|].
  cbn [OnTaskEvent]. by apply OnTaskEvent_body_handled.
Qed.

End ManagerInduction.

Section ManagerTotal.
Context (E : Engine).

Section WithHandler.
Context (rec : EDownloadTaskEvent -> FTaskInfo -> FFileDownloadManager.t
               -> option FFileDownloadManager.t).
Context (rec_ok : forall ev info m m', rec ev info m = Some m' -> handled ev info m m').
Context (n : nat).
Context (rec_total : forall ev info m, (size (Tasks m) < n)%nat -> is_Some (rec ev info m)).

Lemma call_Start_total k m :
  (size (Tasks m) < n)%nat -> is_Some (call rec k (Start E) m).
Proof.
  intros Hn. unfold call. destruct (Tasks m !! k) as [x|] eqn:Hk; [|done].
  pose proof (Start_shape E x) as [_ Hshape].
  destruct (Start E x) as [x' effs]. cbn [fst snd] in *.
  assert (Hs : (size (Tasks (set_Tasks (insert k x') m)) < n)%nat).
  { cbn. rewrite map_size_insert_Some by eauto. exact Hn. }
  destruct Hshape as [->|[[-> _]|(r & -> & _)]]; cbn [deliver mbind option_bind].
  - done.
  - destruct (rec_total ERROR (TaskInfo x') _ Hs) as [m2 ->]. done.
  - destruct (rec_total REQ_HEAD (TaskInfo x') (emit (Http k r) (set_Tasks (insert k x') m)) Hs)
      as [m2 ->]. done.
Qed.

Lemma restart_total ks : forall m,
  (size (Tasks m) < n)%nat -> is_Some (restart E rec ks m).
Proof.
  induction ks as [|k ks IH]; intros m Hn; cbn [restart]; [done|].
  destruct (Tasks m !! k) as [x|] eqn:Hk; [destruct (IsDownloading x)|];
    cbn; try by apply IH.
  destruct (call_Start_total k m Hn) as [m1 Hc]. rewrite Hc. cbn.
  apply IH. apply (call_Start_keeps E rec rec_ok) in Hc as (? & _). lia.
Qed.

Lemma start_all_total ks : forall m,
  (size (Tasks m) < n)%nat -> is_Some (start_all E rec ks m).
Proof.
  induction ks as [|k ks IH]; intros m Hn; cbn [start_all]; [done|].
  destruct (call_Start_total k m Hn) as [m1 Hc]. rewrite Hc. cbn.
  apply IH. apply (call_Start_keeps E rec rec_ok) in Hc as (? & _). lia.
Qed.

Lemma OnTaskFinish_total Info bIsSuccess m :
  (size (Tasks m) <= n)%nat -> is_Some (OnTaskFinish E rec Info bIsSuccess m).
Proof.
  intros Hn. unfold OnTaskFinish. cbn [Tasks set_CurrentDownloadSize].
  destruct (Tasks m !! GUID Info) as [x|] eqn:Hx; [|done].
  apply restart_total. destruct bIsSuccess; cbn;
    rewrite map_size_delete_Some by eauto;
    assert (size (Tasks m) <> 0)%nat
      by (intros H0; apply map_size_empty_inv in H0; rewrite H0 in Hx; done);
    lia.
Qed.

Lemma OnTaskEvent_body_total ev info m :
  (size (Tasks m) <= n)%nat -> is_Some (OnTaskEvent_body E rec ev info m).
Proof.
  intros Hn. destruct ev; cbn [OnTaskEvent_body]; try done.
  - by destruct (Now m <=? LastUpdateTime m).
  - destruct (OnTaskFinish_total info true
                (emit (OnDownloadEvent DS_END_FILE_DOWNLOAD info) m) Hn) as [m2 ->].
    done.
  - by apply OnTaskFinish_total.
Qed.

(** Any trace of a task's own events is delivered. *)
Lemma deliver_total k effs : forall m,
  (size (Tasks m) < n)%nat -> is_Some (deliver rec k effs m).
Proof.
  induction effs as [|e effs IH]; intros m Hn; cbn [deliver]; [done|].
  destruct e as [q|ev info|o c]; cbn [mbind option_bind]; try by apply IH.
  destruct (rec_total ev info m Hn) as [m1 Hr]. rewrite Hr.
  apply IH. apply rec_ok in Hr as (? & _). lia.
Qed.

End WithHandler.

(** More fuel than tasks in the map is enough for any event. *)
Lemma OnTaskEvent_total fuel : forall ev info m,
  (size (Tasks m) < fuel)%nat -> is_Some (OnTaskEvent E fuel ev info m).
Proof.
  induction fuel as [|fuel IH]; intros ev info m Hn; [lia|].
  cbn [OnTaskEvent].
  apply (OnTaskEvent_body_total _ (OnTaskEvent_handled E fuel) fuel IH). lia.
Qed.

End ManagerTotal.

Lemma AddTask_fresh (E : Engine) (URL_ Name : string) (Size : Z)
    (m : FFileDownloadManager.t) :
  Tasks m !! NewGuid E (Guids m) = None ->
  AddTask E URL_ Name Size m
  = set_Tasks (insert (NewGuid E (Guids m))
                 (FDownloadTask.new (NewGuid E (Guids m)) URL_ (TempPakSaveRoot E) Name Size))
      (set_Guids (S (Guids m)) m).
Proof.
  intros H. unfold AddTask. cbn.
  destruct (decide (is_Some (Tasks m !! NewGuid E (Guids m)))) as [[? Hs]|_]; [congruence|].
  reflexivity.
Qed.

Lemma AddTask_taken (E : Engine) (URL_ Name : string) (Size : Z)
    (m : FFileDownloadManager.t) :
  is_Some (Tasks m !! NewGuid E (Guids m)) ->
  AddTask E URL_ Name Size m = set_Guids (S (Guids m)) m.
Proof.
  intros H. unfold AddTask. cbn.
  destruct (decide (is_Some (Tasks m !! NewGuid E (Guids m)))) as [_|Hn]; [reflexivity|].
  contradiction.
Qed.

(** C1, as the code has it.  [AddTask] looks the new task up under the
    GUID it has just drawn.  When the generator hands out GUIDs that are
    new to the map, as it is meant to, the test never fires: asking twice
    for the same URL, file name and size stores two tasks, both with that
    URL and file name. *)
Theorem AddTask_same_request_twice (E : Engine) (URL_ Name : string) (Size : Z)
    (m : FFileDownloadManager.t) :
  let g1 := NewGuid E (Guids m) in
  let g2 := NewGuid E (S (Guids m)) in
  Tasks m !! g1 = None -> Tasks m !! g2 = None -> g1 <> g2 ->
  let m2 := AddTask E URL_ Name Size (AddTask E URL_ Name Size m) in
  size (Tasks m2) = S (S (size (Tasks m)))
  /\ (exists x1 x2,
        Tasks m2 !! g1 = Some x1 /\ Tasks m2 !! g2 = Some x2
        /\ URL (TaskInfo x1) = URL_ /\ URL (TaskInfo x2) = URL_
        /\ FileName (TaskInfo x1) = Name /\ FileName (TaskInfo x2) = Name).
Proof.
  intros g1 g2 H1 H2 Hne. cbv zeta.
  rewrite (AddTask_fresh E URL_ Name Size m H1). fold g1.
  rewrite AddTask_fresh; cbn [Tasks Guids set_Tasks set_Guids]; fold g2;
    [|by rewrite lookup_insert_ne].
  split.
  - rewrite map_size_insert_None by (by rewrite lookup_insert_ne).
    by rewrite map_size_insert_None.
  - eexists _, _. rewrite lookup_insert_ne by done.
    rewrite !lookup_insert_eq. repeat split; reflexivity.
Qed.

Lemma AddTask_same_request_twice_witness :
  size (Tasks (AddTask Demo.engine Demo.url_a "a.pak" 1
                 (AddTask Demo.engine Demo.url_a "a.pak" 1 FFileDownloadManager.empty)))
  = 2%nat.
Proof.
  exact (proj1 (AddTask_same_request_twice Demo.engine Demo.url_a "a.pak" 1
                  FFileDownloadManager.empty eq_refl eq_refl ltac:(discriminate))).
Defined.

(** C2, as the code has it.  With fuel for the nested events, the manager
    answers a task's END_DOWNLOAD and ERROR as follows.  On END_DOWNLOAD it
    raises the aggregate END_DOWNLOAD once exactly when it is then
    successful, that is when the task map and the failed list are both
    empty, and not at all otherwise; in particular never once a task has
    failed.  On ERROR it never raises it: the failing task leaves the map
    for the failed list and the manager is unsuccessful from then on.  The
    aggregate event itself carries no verdict. *)
Theorem all_done_needs_full_success (E : Engine) (fuel : nat) (info : FTaskInfo)
    (m : FFileDownloadManager.t) :
  (size (Tasks m) < fuel)%nat ->
  (exists m', OnTaskEvent E fuel END_DOWNLOAD info m = Some m'
      /\ all_done (Out m')
         = (all_done (Out m) + if FFileDownloadManager.IsSuccessful m' then 1 else 0)%nat
      /\ (FailedTasks m <> [] -> all_done (Out m') = all_done (Out m)))
  /\ (exists m', OnTaskEvent E fuel ERROR info m = Some m'
      /\ all_done (Out m') = all_done (Out m)
      /\ forall x, Tasks m !! GUID info = Some x ->
           Tasks m' !! GUID info = None
           /\ x ∈ FailedTasks m'
           /\ FFileDownloadManager.IsSuccessful m' = false).
Proof.
  intros Hfuel. split.
  - destruct (OnTaskEvent_total E fuel END_DOWNLOAD info m Hfuel) as [m' Hm].
    exists m'. split; [exact Hm|].
    apply OnTaskEvent_handled in Hm as (_ & P & _ & D & _).
    destruct (decide (END_DOWNLOAD = END_DOWNLOAD)); [|done].
    split; [exact D|]. intros Hne. rewrite D.
    unfold FFileDownloadManager.IsSuccessful.
    destruct P as [l Hl]. rewrite Hl.
    destruct (FailedTasks m) as [|y t]; [done|].
    assert (Hz : (Z.of_nat (length ((y :: t) ++ l)) <=? 0) = false)
      by (apply Z.leb_gt; cbn [app length]; lia).
    rewrite Hz, andb_false_r. lia.
  - destruct (OnTaskEvent_total E fuel ERROR info m Hfuel) as [m' Hm].
    exists m'. split; [exact Hm|].
    pose proof (OnTaskEvent_handled E fuel _ _ _ _ Hm) as (_ & _ & _ & D & _).
    destruct (decide (ERROR = END_DOWNLOAD)); [done|].
    split; [lia|]. intros x Hx.
    destruct fuel as [|fuel]; [done|]. cbn [OnTaskEvent OnTaskEvent_body] in Hm.
    apply (OnTaskFinish_spec E _ (OnTaskEvent_handled E fuel)) in Hm as [_ Hf].
    destruct (Hf x Hx) as [Hgone Hin]. specialize (Hin eq_refl).
    repeat split; auto.
    unfold FFileDownloadManager.IsSuccessful.
    destruct (FailedTasks m') as [|y t]; [by apply elem_of_nil in Hin|].
    assert (Hz : (Z.of_nat (length (y :: t)) <=? 0) = false)
      by (apply Z.leb_gt; cbn [length]; lia).
    by rewrite Hz, andb_false_r.
Qed.

Lemma all_done_needs_full_success_witness :
  exists m', OnTaskEvent Demo.engine 3 ERROR (TaskInfo Demo.task_a) Demo.two_tasks = Some m'
    /\ all_done (Out m') = all_done (Out Demo.two_tasks).
Proof.
  destruct (all_done_needs_full_success Demo.engine 3 (TaskInfo Demo.task_a) Demo.two_tasks)
    as [_ (m' & Hm & Hd & _)].
  - vm_compute. lia.
  - exists m'. split; assumption.
Defined.

(** C2 as stated fails: one file fails, the other arrives, the task map
    is empty, and no aggregate END_DOWNLOAD has been raised, in either
    order of the two outcomes. *)
Lemma partial_failure_never_all_done :
  (exists m, Demo.a_fails_then_b_succeeds = Some m
     /\ Tasks m = ∅
     /\ (FileName <$> (TaskInfo <$> FailedTasks m)) = ["a.pak"%string]
     /\ Demo.download_states m
        = [DS_BEGIN_DOWNLOAD; DS_BEGIN_FILE_DOWNLOAD; DS_UPDATE_DOWNLOAD; DS_END_FILE_DOWNLOAD]
     /\ all_done (Out m) = 0%nat)
  /\ (exists m, Demo.b_succeeds_then_a_fails = Some m
     /\ Tasks m = ∅
     /\ (FileName <$> (TaskInfo <$> FailedTasks m)) = ["a.pak"%string]
     /\ Demo.download_states m
        = [DS_BEGIN_DOWNLOAD; DS_BEGIN_FILE_DOWNLOAD; DS_UPDATE_DOWNLOAD; DS_END_FILE_DOWNLOAD]
     /\ all_done (Out m) = 0%nat).
Proof.
  split.
  - destruct Demo.a_fails_then_b_succeeds as [m|] eqn:Hm; [|by vm_compute in Hm].
    exists m. split; [reflexivity|]. vm_compute in Hm. injection Hm as <-.
    vm_compute. repeat split.
  - destruct Demo.b_succeeds_then_a_fails as [m|] eqn:Hm; [|by vm_compute in Hm].
    exists m. split; [reflexivity|]. vm_compute in Hm. injection Hm as <-.
    vm_compute. repeat split.
Qed.

(** ** A parked task stays in the map *)

Section Parked.
Context (E : Engine).

Lemma deliver_own rec
    (rec_ok : forall ev info m m', rec ev info m = Some m' -> handled ev info m m')
    k effs : forall m m',
  Forall (fun e => match e with Execute _ info => GUID info = k | _ => True end) effs ->
  wf m -> (forall y, Tasks m !! k = Some y -> ~ parked y) ->
  deliver rec k effs m = Some m' ->
  wf m' /\ forall g x, parked x -> Tasks m !! g = Some x -> Tasks m' !! g = Some x.
Proof.
  induction effs as [|e effs IH]; intros m m' Hown Hw Hk; cbn [deliver].
  { intros [= <-]. auto. }
  apply Forall_cons in Hown as [He Hown].
  destruct e as [q|ev info|o c]; cbn [mbind option_bind].
  - intros Hd. apply (IH (emit (Http k q) m)) in Hd; auto.
  - destruct (rec ev info m) as [m1|] eqn:Hr; [|done]. intros Hd.
    apply rec_ok in Hr as (_ & _ & _ & _ & W & K & T).
    assert (Hfree : subject_free info m) by (intros _ y; rewrite He; apply Hk).
    assert (Hk1 : forall y, Tasks m1 !! k = Some y -> ~ parked y).
    { intros y Hy. destruct T as [T|T].
      - rewrite T in Hy. by apply Hk in Hy.
      - rewrite He in T. congruence. }
    destruct (IH m1 m' Hown (W Hw) Hk1 Hd) as [Hw' Hk'].
    split; [exact Hw'|]. intros g x Hp Hg. apply Hk'; [exact Hp|]. by apply K.
  - intros Hd. apply IH in Hd; auto.
Qed.

Lemma bound_Request cb (x : FDownloadTask.t) : bound cb x = true -> Request x <> None.
Proof. unfold bound. by destruct (Request x). Qed.

Lemma step_keeps_parked m m' g x :
  step E m m' -> wf m -> parked x -> Tasks m !! g = Some x ->
  wf m' /\ Tasks m' !! g = Some x.
Proof.
  intros Hstep Hw Hp Hg. destruct Hstep as [fuel now g' cb m m' Hc|U N S m|fuel m m' Hs].
  - unfold OnCallback in Hc.
    destruct (Tasks m !! g') as [x0|] eqn:Hg'; [|done].
    destruct (bound cb x0) eqn:Hb; [|done]. apply bound_Request in Hb.
    unfold call in Hc. cbn [Tasks set_Now] in Hc. rewrite Hg' in Hc.
    pose proof (run_callback_own E cb x0) as [HG Hown].
    pose proof (run_callback_Request E cb x0 Hb) as Hreq.
    destruct (run_callback E cb x0) as [x0' effs]. cbn [fst snd] in *.
    assert (Hne : g' <> g).
    { intros ->. rewrite Hg in Hg'. injection Hg' as <-.
      destruct Hp as (_ & _ & _ & Hr). contradiction. }
    apply (deliver_own _ (OnTaskEvent_handled E fuel)) in Hc.
    + destruct Hc as [Hw' Hk]. split; [exact Hw'|]. apply Hk; [exact Hp|].
      cbn. by rewrite lookup_insert_ne.
    + rewrite <- (Hw _ _ Hg'). exact Hown.
    + unfold wf in *. cbn. intros k y. destruct (decide (g' = k)) as [<-|Hk].
      * rewrite lookup_insert_eq. intros [= <-]. rewrite HG. eauto.
      * rewrite lookup_insert_ne by done. eauto.
    + cbn. rewrite lookup_insert_eq. intros y [= <-] (_ & _ & _ & Hr). contradiction.
  - destruct (Tasks m !! NewGuid E (Guids m)) as [y|] eqn:Hy.
    + rewrite AddTask_taken by eauto. auto.
    + rewrite AddTask_fresh by done. split.
      * unfold wf in *. cbn. intros k z.
        destruct (decide (NewGuid E (Guids m) = k)) as [<-|Hk].
        -- rewrite lookup_insert_eq. by intros [= <-].
        -- rewrite lookup_insert_ne by done. eauto.
      * cbn. rewrite lookup_insert_ne; [done | congruence].
  - unfold StartUp in Hs.
    destruct (0 <? Z.of_nat (size (Tasks m))).
    + cbn -[start_all keys] in Hs.
      apply (start_all_keeps E _ (OnTaskEvent_handled E fuel)) in Hs
        as (_ & _ & _ & _ & W).
      destruct (W Hw) as [Hw' Hk]. split; [exact Hw'|]. by apply Hk.
    + cbn in Hs. injection Hs as <-. auto.
Qed.

Lemma run_keeps_parked m m' g x :
  rtc (step E) m m' -> wf m -> parked x -> Tasks m !! g = Some x ->
  wf m' /\ Tasks m' !! g = Some x.
Proof.
  induction 1 as [m|m m1 m' Hs _ IH]; intros Hw Hp Hg; [auto|].
  destruct (step_keeps_parked m m1 g x Hs Hw Hp Hg) as [Hw1 Hg1]. by apply IH.
Qed.

End Parked.

(** ** Requests go to the URLs of the tasks *)

Section Traces.
Context (E : Engine).

Lemma traces_refl m : traces E m m.
Proof.
  split; [eauto|]. exists []. rewrite app_nil_r. split; [done|].
  intros g q H. by apply elem_of_nil in H.
Qed.

Lemma traces_trans m1 m2 m3 : traces E m1 m2 -> traces E m2 m3 -> traces E m1 m3.
Proof.
  intros [T1 (n1 & O1 & H1)] [T2 (n2 & O2 & H2)]. split.
  - intros g x3 Hx3. destruct (T2 g x3 Hx3) as (x2 & Hx2 & Hu2).
    destruct (T1 g x2 Hx2) as (x1 & Hx1 & Hu1). exists x1. split; [done | congruence].
  - exists (n1 ++ n2). split; [by rewrite O2, O1, app_assoc|].
    intros g q Hq. apply elem_of_app in Hq as [Hq|Hq]; [by apply H1|].
    destruct (H2 g q Hq) as (x2 & Hx2 & Hr). destruct (T1 g x2 Hx2) as (x1 & Hx1 & Hu).
    exists x1. split; [done|]. rewrite Hr. by apply GetEncodedURL_URL.
Qed.

(** Changes that leave the task map and the trace alone. *)
Lemma traces_same m m' :
  Tasks m' = Tasks m -> Out m' = Out m -> traces E m m'.
Proof.
  intros HT HO. split; [rewrite HT; eauto|]. exists []. rewrite app_nil_r.
  split; [done|]. intros g q H. by apply elem_of_nil in H.
Qed.

Lemma traces_emit_event st info m : traces E m (emit (OnDownloadEvent st info) m).
Proof.
  split; [eauto|]. eexists. split; [reflexivity|].
  intros g q H. apply list_elem_of_singleton in H. discriminate.
Qed.

Lemma ReqGetChunk_requests (x : FDownloadTask.t) : own_requests E x (ReqGetChunk E x).
Proof.
  unfold ReqGetChunk, own_requests.
  destruct (FString.IsEmpty _); cbn; repeat constructor.
Qed.

Lemma OnTaskCompleted_requests a (x : FDownloadTask.t) :
  own_requests E x (OnTaskCompleted a x).
Proof.
  unfold OnTaskCompleted, own_requests.
  destruct (IsFileExistAnswer a); cbn [negb].
  - match goal with |- context [if negb ?c then _ else _] => destruct c end;
      cbn; repeat constructor.
  - destruct (MoveOk a); cbn; repeat constructor.
Qed.

Lemma own_requests_from (x y : FDownloadTask.t) r :
  URL (TaskInfo y) = URL (TaskInfo x) -> own_requests E y r -> own_requests E x r.
Proof.
  unfold own_requests. intros Hu [H1 H2].
  rewrite (GetEncodedURL_URL E x y) by done. split; [congruence | exact H2].
Qed.

Lemma Start_requests (x : FDownloadTask.t) : own_requests E x (Start E x).
Proof.
  unfold Start.
  assert (Hu : URL (TaskInfo (name_fallback E x)) = URL (TaskInfo x)).
  { unfold name_fallback. by destruct (FString.IsEmpty _). }
  destruct (_ || _); [split; cbn; [done | repeat constructor]|].
  destruct (bIsDownLoading _); [split; cbn; [done | repeat constructor]|].
  unfold ReqGetHead.
  rewrite (GetEncodedURL_URL E _ x) by (cbn; exact Hu).
  destruct (FString.IsEmpty _); split; cbn; try done; repeat constructor.
Qed.

Lemma run_callback_requests cb (x : FDownloadTask.t) :
  own_requests E x (run_callback E cb x).
Proof.
  destruct cb as [resp c a|resp c a|n]; cbn [run_callback].
  - unfold RetGetHead.
    destruct resp as [resp|]; [|split; cbn; repeat constructor].
    destruct c; cbn [negb]; [|split; cbn; repeat constructor].
    destruct (bad_status _); [split; cbn; repeat constructor|].
    destruct (DirectoryExists a); cbn [negb]; [|split; cbn; repeat constructor].
    destruct (OpenWrite a); cbn [negb TempFileHandle set_TempFileHandle];
      [|split; cbn; repeat constructor].
    match goal with
    | |- context [ReqGetChunk E ?y] =>
        pose proof (own_requests_from x y _ eq_refl (ReqGetChunk_requests y)) as [H1 H2];
        destruct (ReqGetChunk E y) as [y' e']
    end.
    cbn in *. split; [exact H1|]. constructor; [exact I | exact H2].
  - unfold RetGetChunk.
    destruct resp as [resp|]; [|split; cbn; repeat constructor].
    destruct c; cbn [negb]; [|split; cbn; repeat constructor].
    destruct (bad_status _); [split; cbn; repeat constructor|].
    destruct (TempFileHandle x); [|split; cbn; repeat constructor].
    destruct (WriteOk a); [|split; cbn; repeat constructor].
    unfold OnWriteChunkEnd.
    match goal with
    | |- context [if ?c then ReqGetChunk E ?y else OnTaskCompleted ?a ?y] =>
        assert (H : own_requests E x (if c then ReqGetChunk E y else OnTaskCompleted a y))
          by (apply (own_requests_from x y); [reflexivity|];
              destruct c; [apply ReqGetChunk_requests | apply OnTaskCompleted_requests]);
        destruct (if c then ReqGetChunk E y else OnTaskCompleted a y) as [y' e']
    end.
    destruct H as [H1 H2]. cbn in *. split; [exact H1|].
    constructor; [exact I|]. constructor; [exact I | exact H2].
  - unfold GetChunkProgress. destruct (_ <? _); split; cbn; repeat constructor.
Qed.

Section WithHandler.
Context (rec : EDownloadTaskEvent -> FTaskInfo -> FFileDownloadManager.t
               -> option FFileDownloadManager.t).
Context (rec_tr : forall ev info m m', rec ev info m = Some m' -> traces E m m').

Lemma deliver_traces m0 k x0 effs : forall m m',
  Tasks m0 !! k = Some x0 ->
  Forall (fun e => match e with
                   | ProcessRequest q => ReqURL q = GetEncodedURL E x0
                   | _ => True
                   end) effs ->
  traces E m0 m -> deliver rec k effs m = Some m' -> traces E m0 m'.
Proof.
  induction effs as [|e effs IH]; intros m m' Hk Hown Htr; cbn [deliver].
  { by intros [= <-]. }
  apply Forall_cons in Hown as [He Hown].
  destruct e as [q|ev info|o c]; cbn [mbind option_bind].
  - apply IH; [done | done |]. destruct Htr as [T (news & HO & HN)]. split; [exact T|].
    exists (news ++ [Http k q]). split; [cbn; by rewrite HO, app_assoc|].
    intros g r Hr. apply elem_of_app in Hr as [Hr|Hr]; [by apply HN|].
    apply list_elem_of_singleton in Hr. injection Hr as -> ->. eauto.
  - destruct (rec ev info m) as [m1|] eqn:Hr; [|done].
    apply IH; [done | done |]. eapply traces_trans; [exact Htr | exact (rec_tr _ _ _ _ Hr)].
  - by apply IH.
Qed.

Lemma call_traces k method m m' :
  (forall x, own_requests E x (method x)) ->
  call rec k method m = Some m' -> traces E m m'.
Proof.
  intros Hm. unfold call. destruct (Tasks m !! k) as [x|] eqn:Hk;
    [|intros [= <-]; apply traces_refl].
  destruct (Hm x) as [Hu Hown]. destruct (method x) as [x' effs]. cbn [fst snd] in *.
  apply (deliver_traces m k x); [done | done |].
  split.
  - cbn. intros g y. destruct (decide (k = g)) as [<-|Hne].
    + rewrite lookup_insert_eq. intros [= <-]. eauto.
    + rewrite lookup_insert_ne by done. eauto.
  - exists []. rewrite app_nil_r. split; [done|]. intros g q H. by apply elem_of_nil in H.
Qed.

Lemma restart_traces ks : forall m m', restart E rec ks m = Some m' -> traces E m m'.
Proof.
  induction ks as [|k ks IH]; intros m m'; cbn [restart].
  - intros [= <-]. apply traces_refl.
  - destruct (Tasks m !! k) as [x|] eqn:Hk.
    + destruct (IsDownloading x).
      * cbn. apply IH.
      * destruct (call rec k (Start E) m) as [m1|] eqn:Hc; [|done]. cbn.
        intros H. eapply traces_trans; [|by apply IH].
        eapply call_traces; [apply Start_requests | exact Hc].
    + cbn. apply IH.
Qed.

Lemma start_all_traces ks : forall m m', start_all E rec ks m = Some m' -> traces E m m'.
Proof.
  induction ks as [|k ks IH]; intros m m'; cbn [start_all].
  - intros [= <-]. apply traces_refl.
  - destruct (call rec k (Start E) m) as [m1|] eqn:Hc; [|done]. cbn.
    intros H. eapply traces_trans; [|by apply IH].
    eapply call_traces; [apply Start_requests | exact Hc].
Qed.

Lemma OnTaskFinish_traces Info bIsSuccess m m' :
  OnTaskFinish E rec Info bIsSuccess m = Some m' -> traces E m m'.
Proof.
  unfold OnTaskFinish. cbn [Tasks set_CurrentDownloadSize].
  destruct (Tasks m !! GUID Info) as [x|] eqn:Hx.
  2:{ intros [= <-]. by apply traces_same. }
  intros Hr. apply restart_traces in Hr.
  eapply traces_trans; [|exact Hr]. split.
  - intros g y Hy.
    assert (Hy' : delete (GUID Info) (Tasks m) !! g = Some y)
      by (by destruct bIsSuccess).
    apply lookup_delete_Some in Hy' as [_ Hy']. eauto.
  - exists []. rewrite app_nil_r. split; [by destruct bIsSuccess|].
    intros g q H. by apply elem_of_nil in H.
Qed.

Lemma OnTaskEvent_body_traces InEvent InInfo m m' :
  OnTaskEvent_body E rec InEvent InInfo m = Some m' -> traces E m m'.
Proof.
  destruct InEvent; cbn [OnTaskEvent_body].
  - intros [= <-]. apply traces_refl.
  - intros [= <-]. apply traces_refl.
  - intros [= <-]. apply traces_emit_event.
  - destruct (Now m <=? LastUpdateTime m); intros [= <-]; [apply traces_refl|].
    eapply traces_trans; [|apply traces_emit_event]. by apply traces_same.
  - destruct (OnTaskFinish E rec InInfo true _) as [m2|] eqn:Hf; [|done].
    cbn. intros [= <-]. apply OnTaskFinish_traces in Hf.
    eapply traces_trans; [apply traces_emit_event|].
    eapply traces_trans; [exact Hf|].
    destruct (FFileDownloadManager.IsSuccessful m2); [|apply traces_refl].
    unfold OnAllTaskFinish. cbn.
    eapply traces_trans; [|apply traces_emit_event]. by apply traces_same.
  - apply OnTaskFinish_traces.
Qed.

End WithHandler.

Lemma OnTaskEvent_traces fuel : forall ev info m m',
  OnTaskEvent E fuel ev info m = Some m' -> traces E m m'.
Proof.
  induction fuel as [|fuel IH]; intros ev info m m'; [done|].
  cbn [OnTaskEvent]. by apply OnTaskEvent_body_traces.
Qed.

Lemma transfer_traces m m' : transfer E m m' -> traces E m m'.
Proof.
  intros [fuel now g cb m0 m1 Hc|fuel m0 m1 Hs].
  - unfold OnCallback in Hc. destruct (Tasks m0 !! g) as [x|]; [|done].
    destruct (bound cb x); [|done].
    apply (call_traces _ (OnTaskEvent_traces fuel)) in Hc;
      [|apply run_callback_requests].
    eapply traces_trans; [|exact Hc]. by apply traces_same.
  - unfold StartUp in Hs. destruct (0 <? Z.of_nat (size (Tasks m0))).
    + cbn -[start_all keys] in Hs.
      apply (start_all_traces _ (OnTaskEvent_traces fuel)) in Hs.
      eapply traces_trans; [|exact Hs].
      eapply traces_trans; [|apply traces_emit_event]. by apply traces_same.
    + cbn in Hs. injection Hs as <-.
      eapply traces_trans; [|apply traces_emit_event]. by apply traces_same.
Qed.

(** Through the whole transfer phase, requests go to tasks of the start. *)
Lemma transfers_traces m m' : rtc (transfer E) m m' -> traces E m m'.
Proof.
  induction 1 as [m|m m1 m' Hs _ IH]; [apply traces_refl|].
  eapply traces_trans; [by apply transfer_traces | exact IH].
Qed.

End Traces.

(** C10, as the code has it.  Take a task that holds no request, whose
    URL is not empty, whose file name (given, or else the clean file name
    of the URL) is not empty, and whose URL has no slash at index 14 or
    later nor in its last position, so that its encoding is empty.  [Start]
    marks it as downloading, issues no request and raises no event.  The
    task is then parked: a further [Start] changes nothing and is silent,
    no request is in flight to call it back, and through every run of the
    manager (callbacks of other tasks, additions, the start of the run) it
    stays in the task map as it is. *)
Theorem Start_without_path_parks (E : Engine) (x : FDownloadTask.t) :
  FString.IsEmpty (URL (TaskInfo x)) = false ->
  FString.IsEmpty (FileName (TaskInfo (name_fallback E x))) = false ->
  no_path_slash (URL (TaskInfo x)) ->
  Request x = None ->
  let x' := (Start E x).1 in
  (Start E x).2 = []
  /\ bIsDownLoading x' = true
  /\ Request x' = None
  /\ Start E x' = (x', [])
  /\ forall m g m',
       wf m -> Tasks m !! g = Some x' -> rtc (step E) m m' -> Tasks m' !! g = Some x'.
Proof.
  intros Hu Hn Hs Hr. cbv zeta. rewrite (Start_no_path E x Hu Hn Hs). cbn [fst snd].
  assert (Hp : parked (set_bIsDownLoading true (name_fallback E x))).
  { unfold parked. cbn. repeat split; auto.
    - unfold name_fallback. by destruct (FString.IsEmpty (FileName (TaskInfo x))).
    - unfold name_fallback. by destruct (FString.IsEmpty (FileName (TaskInfo x))). }
  repeat split.
  - apply Hp.
  - by apply Start_parked.
  - intros m g m' Hw Hg Hrun. by apply (run_keeps_parked E m m' g _ Hrun Hw Hp Hg).
Qed.

Lemma Start_without_path_parks_witness :
  (Start Demo.engine Demo.task_no_path).2 = []
  /\ bIsDownLoading (Start Demo.engine Demo.task_no_path).1 = true
  /\ Request (Start Demo.engine Demo.task_no_path).1 = None.
Proof.
  destruct (Start_without_path_parks Demo.engine Demo.task_no_path) as (H1 & H2 & H3 & _).
  - reflexivity.
  - reflexivity.
  - intros i H. do 14 (destruct i as [|i]; [discriminate H|]). discriminate H.
  - reflexivity.
  - repeat split; assumption.
Defined.

(** C10 as stated fails: the empty URL has no slash at index 14 or
    later, yet [Start] raises ERROR for it and does not mark the task. *)
Lemma Start_without_url_raises_ERROR :
  (forall i, (14 <= i)%nat -> String.get i (URL (TaskInfo Demo.task_no_url)) <> Some "/"%char)
  /\ GetEncodedURL Demo.engine Demo.task_no_url = EmptyString
  /\ events (Start Demo.engine Demo.task_no_url).2 = [ERROR]
  /\ bIsDownLoading (Start Demo.engine Demo.task_no_url).1 = false.
Proof. repeat split. intros i _. by destruct i. Qed.

(** The clamped search: a short URL that ends in a slash is requested. *)
Example Start_short_url_with_final_slash :
  requests (Start Demo.engine (FDownloadTask.new 7%N "http://abc/" "Saved/Paks/Temp" "a.pak" 1)).2
  = [{| Verb := HEAD; ReqURL := "http://abc/"; Range := None |}].
Proof. reflexivity. Qed.

(** ** The coordinator *)

Import UHotUpdateSubsystem.

Section CoordinatorFacts.
Context (E : Engine).

(** A state event without a handler of its own is only logged. *)
Lemma OnHotUpdateState_logged fuel State Message fs s :
  (0 < fuel)%nat ->
  State = HU_BEGIN_GETVERSION \/ State = HU_ERROR ->
  OnHotUpdateState E fuel State Message (fs, s)
  = Some (fs, emit (StateEvent State Message) s).
Proof.
  intros Hf Hs. destruct fuel as [|fuel]; [lia|].
  by destruct Hs as [-> | ->].
Qed.

Lemma ReqGetVersion_eq fuel fs s :
  (0 < fuel)%nat ->
  ReqGetVersion E fuel (fs, s)
  = Some (fs, set_TimerSet true
                (emit PostVersion
                   (set_RequestBound true
                      (emit (StateEvent HU_BEGIN_GETVERSION "Begin to get version") s)))).
Proof.
  intros Hf. unfold ReqGetVersion. by rewrite OnHotUpdateState_logged by auto.
Qed.

Lemma uint32_id z : 0 <= z <= UINT32_MAX -> uint32 z = z.
Proof. unfold uint32, UINT32_MAX. intros H. apply Z.mod_small. lia. Qed.

(** A timeout below the bound asks again. *)
Lemma timeout_retries fuel fs s :
  (0 < fuel)%nat ->
  0 <= CurrentTimeRetry s -> CurrentTimeRetry s + 1 <= MaxRetryTime E ->
  MaxRetryTime E <= UINT32_MAX ->
  exists s', OnReqGetVersionTimeOut E fuel (fs, s) = Some (fs, s')
    /\ CurrentTimeRetry s' = CurrentTimeRetry s + 1
    /\ Log s' = Log s ++ request_entry
    /\ TimerSet s' = true
    /\ DownloadManager s' = DownloadManager s /\ PakManager s' = PakManager s.
Proof.
  intros Hf H0 H1 Hmax. unfold OnReqGetVersionTimeOut.
  cbn [CurrentTimeRetry set_CurrentTimeRetry set_RequestBound].
  rewrite uint32_id by lia.
  destruct (Z.leb_spec (CurrentTimeRetry s + 1) (MaxRetryTime E)); [|lia].
  rewrite ReqGetVersion_eq by exact Hf.
  eexists. split; [reflexivity|]. cbn. rewrite <- app_assoc. auto.
Qed.

(** The timeout past the bound gives up. *)
Lemma timeout_gives_up fuel fs s :
  (0 < fuel)%nat ->
  CurrentTimeRetry s = MaxRetryTime E -> 0 <= MaxRetryTime E < UINT32_MAX ->
  exists s', OnReqGetVersionTimeOut E fuel (fs, s) = Some (fs, s')
    /\ CurrentTimeRetry s' = 0
    /\ Log s' = Log s ++ [StateEvent HU_ERROR "Error: Failed to req version"]
    /\ TimerSet s' = false
    /\ DownloadManager s' = DownloadManager s /\ PakManager s' = PakManager s.
Proof.
  intros Hf Hc Hmax. unfold OnReqGetVersionTimeOut.
  cbn [CurrentTimeRetry set_CurrentTimeRetry set_RequestBound].
  rewrite uint32_id by lia.
  destruct (Z.leb_spec (CurrentTimeRetry s + 1) (MaxRetryTime E)); [lia|].
  rewrite OnHotUpdateState_logged by auto.
  eexists. split; [reflexivity|]. cbn. auto.
Qed.

Lemma after_timeouts_S fuel k w :
  after_timeouts E fuel (S k) w
  = after_timeouts E fuel k w ≫= OnReqGetVersionTimeOut E fuel.
Proof. reflexivity. Qed.

Lemma after_timeouts_retrying fuel fs s0 (k : nat) :
  (0 < fuel)%nat -> MaxRetryTime E <= UINT32_MAX ->
  CurrentTimeRetry s0 = 0 -> Z.of_nat k <= MaxRetryTime E ->
  exists sk, after_timeouts E fuel k (fs, s0) = Some (fs, sk)
    /\ CurrentTimeRetry sk = Z.of_nat k
    /\ Log sk = Log s0 ++ concat (replicate k request_entry)
    /\ (TimerSet s0 = true -> TimerSet sk = true)
    /\ DownloadManager sk = DownloadManager s0 /\ PakManager sk = PakManager s0.
Proof.
  intros Hf Hmax Hc. induction k as [|k IH]; intros Hk.
  - exists s0. cbn. rewrite app_nil_r. repeat split; auto.
  - destruct IH as (sk & Hrun & Hck & Hlog & Ht & Hd & Hp); [lia|].
    destruct (timeout_retries fuel fs sk Hf) as (s' & Hto & Hc' & Hl' & Ht' & Hd' & Hp');
      try lia.
    exists s'. rewrite after_timeouts_S, Hrun. cbn [mbind option_bind].
    split; [exact Hto|]. rewrite Hc', Hl', Hlog, Hck, Hd', Hp'.
    repeat split; auto; [lia|].
    rewrite <- app_assoc. f_equal.
    replace (S k) with (k + 1)%nat by lia.
    rewrite replicate_add, concat_app. reflexivity.
Qed.

(** The same from any value of the counter: the timeouts that are left
    before the bound all ask again. *)
Lemma after_timeouts_retrying_from fuel fs s0 (k : nat) :
  (0 < fuel)%nat -> MaxRetryTime E <= UINT32_MAX ->
  0 <= CurrentTimeRetry s0 -> CurrentTimeRetry s0 + Z.of_nat k <= MaxRetryTime E ->
  exists sk, after_timeouts E fuel k (fs, s0) = Some (fs, sk)
    /\ CurrentTimeRetry sk = CurrentTimeRetry s0 + Z.of_nat k
    /\ Log sk = Log s0 ++ concat (replicate k request_entry)
    /\ (TimerSet s0 = true -> TimerSet sk = true)
    /\ DownloadManager sk = DownloadManager s0 /\ PakManager sk = PakManager s0.
Proof.
  intros Hf Hmax Hc. induction k as [|k IH]; intros Hk.
  - exists s0. cbn. rewrite app_nil_r, Z.add_0_r. repeat split; auto.
  - destruct IH as (sk & Hrun & Hck & Hlog & Ht & Hd & Hp); [lia|].
    destruct (timeout_retries fuel fs sk Hf) as (s' & Hto & Hc' & Hl' & Ht' & Hd' & Hp');
      try lia.
    exists s'. rewrite after_timeouts_S, Hrun. cbn [mbind option_bind].
    split; [exact Hto|]. rewrite Hc', Hl', Hlog, Hck, Hd', Hp'.
    repeat split; auto; [lia|].
    rewrite <- app_assoc. f_equal.
    replace (S k) with (k + 1)%nat by lia.
    rewrite replicate_add, concat_app. reflexivity.
Qed.

(** *** Who writes the retry counter *)

Lemma emits_CurrentTimeRetry os : forall s,
  CurrentTimeRetry (emits os s) = CurrentTimeRetry s.
Proof.
  unfold emits. induction os as [|o os IH]; intros s; cbn [foldl]; [done|].
  by rewrite IH.
Qed.

Lemma forward_CurrentTimeRetry rec
    (rec_ok : forall State Message w w',
       rec State Message w = Some w' -> CurrentTimeRetry w'.2 = CurrentTimeRetry w.2)
    os : forall w w',
  forward rec os w = Some w' -> CurrentTimeRetry w'.2 = CurrentTimeRetry w.2.
Proof.
  induction os as [|o os IH]; intros w w'; cbn [forward]; [by intros [= <-]|].
  destruct o as [st info|g q]; cbn [mbind option_bind].
  - destruct st; cbn [OnDownloadEvent]; try (intros H; by apply IH in H).
    destruct (rec HU_END_DOWNLOAD _ _) as [w1|] eqn:Hr; [|done]. cbn.
    intros H. apply IH in H. apply rec_ok in Hr. by rewrite H, Hr.
  - intros H. by apply IH in H.
Qed.

(** No state handler touches the counter. *)
Lemma OnHotUpdateState_CurrentTimeRetry fuel : forall State Message w w',
  OnHotUpdateState E fuel State Message w = Some w' ->
  CurrentTimeRetry w'.2 = CurrentTimeRetry w.2.
Proof.
  induction fuel as [|fuel IH]; intros State Message [fs s] w'; [done|].
  cbn [OnHotUpdateState OnHotUpdateState_body fst snd].
  set (s1 := emit (StateEvent State Message) s).
  assert (Hs1 : CurrentTimeRetry s1 = CurrentTimeRetry s) by reflexivity.
  destruct State; try (intros [= <-]; exact Hs1).
  - destruct (DownloadManager s1) as [dm|]; [|intros [= <-]; exact Hs1].
    destruct (FFileDownloadManager.StartUp E fuel dm) as [dm'|]; [|done]. cbn.
    intros H. apply (forward_CurrentTimeRetry _ (IH)) in H. by rewrite H.
  - intros H. apply IH in H. by rewrite H.
  - destruct (PakManager s1) as [pm|]; [|intros [= <-]; exact Hs1].
    destruct (FFilePakManager.StartUp E fs pm) as [fs' pm'].
    destruct (FFilePakManager.IsSuccessful pm'); intros H; apply IH in H; rewrite H;
      cbn [snd CurrentTimeRetry set_PakManager]; by rewrite emits_CurrentTimeRetry.
  - intros H. apply IH in H. by rewrite H.
  - destruct (IsSuccessful s1).
    + intros [= <-]. exact Hs1.
    + intros H. apply IH in H. by rewrite H.
Qed.

(** Nor does an answer to the manifest request, whatever it is. *)
Lemma RetGetVersion_CurrentTimeRetry fuel Response bConnectedSuccessfully w w' :
  RetGetVersion E fuel Response bConnectedSuccessfully w = Some w' ->
  CurrentTimeRetry w'.2 = CurrentTimeRetry w.2.
Proof.
  destruct w as [fs s]. unfold RetGetVersion. cbn [snd].
  set (s0 := if TimerSet s then set_TimerSet false s else s).
  assert (Hs0 : CurrentTimeRetry s0 = CurrentTimeRetry s) by (subst s0; by destruct (TimerSet s)).
  assert (Herr : forall Message,
            OnHotUpdateState E fuel HU_ERROR Message (fs, s0) = Some w' ->
            CurrentTimeRetry w'.2 = CurrentTimeRetry s).
  { intros Message H. apply OnHotUpdateState_CurrentTimeRetry in H. by rewrite H. }
  destruct Response as [resp|]; [|apply Herr].
  destruct (negb bConnectedSuccessfully); [apply Herr|].
  destruct (bad_status (ResponseCode resp)); [apply Herr|].
  destruct (DownloadManager s0) as [dm|]; [|by intros [= <-]].
  destruct (PakManager s0) as [pm|]; [|by intros [= <-]].
  destruct (Deserialize E (ContentAsString resp)) as [Values|]; [|apply Herr].
  destruct (register_files E fs (manifest_files E Values) (dm, pm)) as [dm1 pm1].
  intros H. apply OnHotUpdateState_CurrentTimeRetry in H. by rewrite H.
Qed.

End CoordinatorFacts.

(** C3, as the code has it.  The retry counter counts the timeouts since
    the coordinator was created or last gave up: only a timeout writes it,
    [StartUp] and the answers to the manifest request leave it as it is.
    With [MaxRetryTime = N] (below the largest uint32) and the counter at
    [c <= N] when [StartUp] is called, the manifest request is issued once
    by [StartUp] and once more by each of the first [N - c] consecutive
    timeouts, with the timer running again and no ERROR raised; the timeout
    after those, the [(N - c + 1)]-th, resets the counter, stops the timer
    and raises ERROR with the message [Error: Failed to req version].
    Nothing but those requests and that ERROR is logged, and the download
    manager is as it was: no download has been started.  On a coordinator
    whose counter is at zero this is the [(N + 1)]-th timeout. *)
Theorem manifest_retry_bound (E : Engine) (fuel : nat) (fs : FileSystem)
    (s : UHotUpdateSubsystem.t) :
  (0 < fuel)%nat ->
  0 <= MaxRetryTime E < UINT32_MAX ->
  0 <= CurrentTimeRetry s <= MaxRetryTime E ->
  let R := Z.to_nat (MaxRetryTime E - CurrentTimeRetry s) in
  (exists s0, StartUp E fuel (fs, s) = Some (fs, s0)
     /\ CurrentTimeRetry s0 = CurrentTimeRetry s
     /\ (forall k, (k <= R)%nat ->
          exists sk, after_timeouts E fuel k (fs, s0) = Some (fs, sk)
            /\ Log sk = Log s ++ concat (replicate (S k) request_entry)
            /\ TimerSet sk = true
            /\ CurrentTimeRetry sk = CurrentTimeRetry s + Z.of_nat k
            /\ DownloadManager sk = DownloadManager s)
     /\ (exists se, after_timeouts E fuel (S R) (fs, s0) = Some (fs, se)
            /\ Log se = Log s ++ concat (replicate (S R) request_entry)
                          ++ [StateEvent HU_ERROR "Error: Failed to req version"]
            /\ TimerSet se = false /\ CurrentTimeRetry se = 0
            /\ DownloadManager se = DownloadManager s /\ PakManager se = PakManager s))
  /\ (forall fuel' Response bConnectedSuccessfully w w',
        RetGetVersion E fuel' Response bConnectedSuccessfully w = Some w' ->
        CurrentTimeRetry w'.2 = CurrentTimeRetry w.2).
Proof.
  intros Hf Hmax Hc R. split; [|intros fuel' Response b w w'; apply RetGetVersion_CurrentTimeRetry].
  unfold StartUp. rewrite ReqGetVersion_eq by exact Hf.
  eexists. split; [reflexivity|].
  set (s0 := set_TimerSet true _).
  assert (Hl0 : Log s0 = Log s ++ request_entry) by (subst s0; cbn; by rewrite <- app_assoc).
  assert (Hc0 : CurrentTimeRetry s0 = CurrentTimeRetry s) by reflexivity.
  assert (Hlog : forall k l, Log s0 ++ concat (replicate k request_entry) ++ l
                   = Log s ++ concat (replicate (S k) request_entry) ++ l).
  { intros k l. rewrite Hl0, <- app_assoc. reflexivity. }
  split; [exact Hc0|]. split.
  - intros k Hk.
    destruct (after_timeouts_retrying_from E fuel fs s0 k Hf)
      as (sk & Hrun & Hck & Hlk & Ht & Hd & _); try lia.
    exists sk. split; [exact Hrun|].
    split; [|split; [by apply Ht | split; [by rewrite Hck, Hc0 | exact Hd]]].
    rewrite Hlk. pose proof (Hlog k []) as Hk0. rewrite !app_nil_r in Hk0. exact Hk0.
  - destruct (after_timeouts_retrying_from E fuel fs s0 R Hf)
      as (sN & Hrun & HcN & HlN & _ & Hd & Hp); try lia.
    destruct (timeout_gives_up E fuel fs sN Hf) as (se & Hto & Hce & Hle & Hte & Hde & Hpe);
      try lia.
    exists se. rewrite after_timeouts_S, Hrun. cbn [mbind option_bind].
    split; [exact Hto|]. rewrite Hle, HlN, Hde, Hpe, Hd, Hp.
    repeat split; auto. rewrite <- app_assoc. apply Hlog.
Qed.

Lemma manifest_retry_bound_witness :
  exists se,
    (StartUp Demo.engine 1 (Demo.world Demo.disk) ≫= after_timeouts Demo.engine 1 4)
      = Some (Demo.disk, se)
    /\ states (Log se)
       = replicate 4 (HU_BEGIN_GETVERSION, "Begin to get version"%string)
         ++ [(HU_ERROR, "Error: Failed to req version"%string)].
Proof.
  destruct (manifest_retry_bound Demo.engine 1 Demo.disk Initialize)
    as [(s0 & Hs & _ & _ & (se & Hrun & Hlog & _)) _].
  - lia.
  - cbn. unfold UINT32_MAX. lia.
  - cbn. lia.
  - exists se. change (Demo.world Demo.disk) with (Demo.disk, Initialize).
    rewrite Hs. cbn [mbind option_bind]. split; [exact Hrun|].
    rewrite Hlog. reflexivity.
Defined.

(** The counter is not the count of the timeouts of the present run.
    Two timeouts, then an answer with status 404: the run ends in ERROR and
    the counter stays at two.  The run started next is given up at its
    second timeout, after one retry. *)
Example stale_counter_gives_up_early :
  (fun w => (UHotUpdateSubsystem.states (Log w.2), CurrentTimeRetry w.2))
  <$> (w1 ← StartUp Demo.engine 1 (Demo.world Demo.disk);
       w2 ← after_timeouts Demo.engine 1 2 w1;
       w3 ← RetGetVersion Demo.engine 1 (Some (Demo.response 404 0 0)) true w2;
       w4 ← StartUp Demo.engine 1 w3;
       after_timeouts Demo.engine 1 2 w4)
  = Some ([(HU_BEGIN_GETVERSION, "Begin to get version"%string);
           (HU_BEGIN_GETVERSION, "Begin to get version"%string);
           (HU_BEGIN_GETVERSION, "Begin to get version"%string);
           (HU_ERROR, "Error: Failed to get version"%string);
           (HU_BEGIN_GETVERSION, "Begin to get version"%string);
           (HU_BEGIN_GETVERSION, "Begin to get version"%string);
           (HU_ERROR, "Error: Failed to req version"%string)], 0).
Proof. vm_compute. reflexivity. Qed.

(** C3 as stated fails: with three retries allowed, the third timeout in
    a row still asks again; the run is not in the error state. *)
Lemma three_timeouts_still_retrying :
  MaxRetryTime Demo.engine = 3
  /\ exists w,
       (StartUp Demo.engine 1 (Demo.world Demo.disk) ≫= after_timeouts Demo.engine 1 3) = Some w
       /\ Demo.hot_update_states w
          = [HU_BEGIN_GETVERSION; HU_BEGIN_GETVERSION; HU_BEGIN_GETVERSION; HU_BEGIN_GETVERSION]
       /\ posts (Log w.2) = 4%nat
       /\ TimerSet w.2 = true
       /\ CurrentTimeRetry w.2 = 3.
Proof.
  split; [reflexivity|]. eexists. split; [vm_compute; reflexivity|].
  vm_compute. repeat split.
Qed.

(** ** The manifest answer *)

Section ManifestFacts.
Context (E : Engine).

Lemma Deserialize_not_object text :
  (forall Values, ReadJson E text <> Some (JObject Values)) -> Deserialize E text = None.
Proof.
  intros H. unfold Deserialize.
  destruct (ReadJson E text) as [[| | | | |Values]|]; try reflexivity.
  by destruct (H Values).
Qed.

Lemma register_files_PakFiles fs Files : forall dm pm,
  FFilePakManager.PakFiles (register_files E fs Files (dm, pm)).2
  = FFilePakManager.PakFiles pm ++ (PakFileProperty_of E <$> Files).
Proof.
  unfold register_files.
  induction Files as [|File Files IH]; intros dm pm; cbn [foldl fmap list_fmap].
  - by rewrite app_nil_r.
  - unfold register_file at 2. rewrite IH. cbn. by rewrite <- app_assoc.
Qed.

Lemma register_files_downloads fs Files : forall dm pm,
  (register_files E fs Files (dm, pm)).1
  = foldl (add_download E) dm
      (List.filter (fun p => negb (FFilePakManager.IsPakValid E fs p))
         (PakFileProperty_of E <$> Files)).
Proof.
  unfold register_files.
  induction Files as [|File Files IH]; intros dm pm; cbn [foldl fmap list_fmap List.filter].
  - reflexivity.
  - unfold register_file at 2. rewrite IH.
    destruct (FFilePakManager.IsPakValid E fs (PakFileProperty_of E File)); reflexivity.
Qed.

Lemma add_download_Out dm p : FFileDownloadManager.Out (add_download E dm p) = FFileDownloadManager.Out dm.
Proof.
  unfold add_download.
  destruct (FFileDownloadManager.Tasks dm !! NewGuid E (FFileDownloadManager.Guids dm)) eqn:Hg.
  - by rewrite AddTask_taken by eauto.
  - by rewrite AddTask_fresh.
Qed.

Lemma foldl_add_download_Out ps : forall dm,
  FFileDownloadManager.Out (foldl (add_download E) dm ps) = FFileDownloadManager.Out dm.
Proof.
  induction ps as [|p ps IH]; intros dm; cbn [foldl]; [reflexivity|].
  by rewrite IH, add_download_Out.
Qed.

(** Every task in the map after the calls was there before or was asked
    for by one of them. *)
Lemma foldl_add_download_tasks ps : forall dm g x,
  FFileDownloadManager.Tasks (foldl (add_download E) dm ps) !! g = Some x ->
  FFileDownloadManager.Tasks dm !! g = Some x
  \/ exists p, p ∈ ps
       /\ FileName (FDownloadTask.TaskInfo x) = PakName p
       /\ URL (FDownloadTask.TaskInfo x) = String.append (VersionURL E) (PakName p).
Proof.
  induction ps as [|p ps IH]; intros dm g x; cbn [foldl]; [auto|].
  intros H. apply IH in H as [H|(q & Hq & Hn & Hu)].
  - unfold add_download in H.
    destruct (FFileDownloadManager.Tasks dm !! NewGuid E (FFileDownloadManager.Guids dm)) eqn:Hg.
    + rewrite AddTask_taken in H by eauto. by left.
    + rewrite AddTask_fresh in H by done. cbn in H.
      destruct (decide (NewGuid E (FFileDownloadManager.Guids dm) = g)) as [<-|Hne].
      * rewrite lookup_insert_eq in H. injection H as <-.
        right. exists p. split; [constructor | by split].
      * rewrite lookup_insert_ne in H by done. by left.
  - right. exists q. split; [by constructor | by split].
Qed.

(** With a generator that never repeats and a map that holds none of the
    GUIDs to come, each call stores a task of its own. *)
Lemma foldl_add_download_size ps : forall dm,
  (forall i j, NewGuid E i = NewGuid E j -> i = j) ->
  (forall n, (FFileDownloadManager.Guids dm <= n)%nat ->
             FFileDownloadManager.Tasks dm !! NewGuid E n = None) ->
  size (FFileDownloadManager.Tasks (foldl (add_download E) dm ps))
  = (size (FFileDownloadManager.Tasks dm) + length ps)%nat.
Proof.
  induction ps as [|p ps IH]; intros dm Hinj Hfresh; cbn [foldl length]; [lia|].
  rewrite IH; [|exact Hinj|].
  - unfold add_download. rewrite AddTask_fresh by (apply Hfresh; lia). cbn.
    rewrite map_size_insert_None by (apply Hfresh; lia). lia.
  - intros n Hn. unfold add_download in *.
    rewrite AddTask_fresh in * by (apply Hfresh; lia). cbn in *.
    rewrite lookup_insert_ne; [apply Hfresh; lia|].
    intros Heq. apply Hinj in Heq. lia.
Qed.

End ManifestFacts.

(** C4, as the code has it.  A well-received answer whose text is the
    empty JSON string does not deserialize into a JSON object; the
    coordinator stops the timer, raises ERROR with the message
    [Error: Failed to deserialize json], leaves both managers as they were
    and raises no END_GETVERSION: version resolution does not complete. *)
Theorem empty_json_string_is_an_error (E : Engine) (fuel : nat) (fs : FileSystem)
    (s : UHotUpdateSubsystem.t) (resp : FHttpResponse)
    (dm : FFileDownloadManager.t) (pm : FFilePakManager.t) :
  (0 < fuel)%nat ->
  DownloadManager s = Some dm -> PakManager s = Some pm ->
  bad_status (ResponseCode resp) = false ->
  ReadJson E (ContentAsString resp) = Some (JString EmptyString) ->
  exists s', RetGetVersion E fuel (Some resp) true (fs, s) = Some (fs, s')
    /\ Log s' = Log s ++ [StateEvent HU_ERROR "Error: Failed to deserialize json"]
    /\ DownloadManager s' = Some dm /\ PakManager s' = Some pm
    /\ TimerSet s' = false.
Proof.
  intros Hf Hd Hp Hst Hj. unfold RetGetVersion. cbn [negb]. rewrite Hst.
  assert (Hm : forall s0, DownloadManager s0 = Some dm -> PakManager s0 = Some pm ->
             TimerSet s0 = false -> Log s0 = Log s ->
             exists s', match DownloadManager s0, PakManager s0 with
                        | Some dm0, Some pm0 =>
                            match Deserialize E (ContentAsString resp) with
                            | Some Values =>
                                let '(dm1, pm1) :=
                                  register_files E fs (manifest_files E Values) (dm0, pm0) in
                                OnHotUpdateState E fuel HU_END_GETVERSION "End to get version"
                                  (fs, set_PakManager (Some pm1) (set_DownloadManager (Some dm1) s0))
                            | None =>
                                OnHotUpdateState E fuel HU_ERROR
                                  "Error: Failed to deserialize json" (fs, s0)
                            end
                        | _, _ => Some (fs, s0)
                        end = Some (fs, s')
               /\ Log s' = Log s ++ [StateEvent HU_ERROR "Error: Failed to deserialize json"]
               /\ DownloadManager s' = Some dm /\ PakManager s' = Some pm
               /\ TimerSet s' = false).
  { intros s0 Hd0 Hp0 Ht0 Hl0. rewrite Hd0, Hp0.
    rewrite Deserialize_not_object by (intros Values; rewrite Hj; discriminate).
    rewrite OnHotUpdateState_logged by auto.
    eexists. split; [reflexivity|]. cbn. rewrite Hl0. auto. }
  destruct (TimerSet s) eqn:Ht; apply Hm; auto.
Qed.

Lemma empty_json_string_is_an_error_witness :
  exists s',
    RetGetVersion Demo.engine 1 (Some (Demo.answer Demo.empty_json_string)) true
      (Demo.world Demo.disk) = Some (Demo.disk, s')
    /\ Log s' = [StateEvent HU_ERROR "Error: Failed to deserialize json"].
Proof.
  destruct (empty_json_string_is_an_error Demo.engine 1 Demo.disk Initialize
              (Demo.answer Demo.empty_json_string)
              FFileDownloadManager.empty FFilePakManager.empty)
    as (s' & Hr & Hl & _).
  - lia.
  - reflexivity.
  - reflexivity.
  - reflexivity.
  - reflexivity.
  - exists s'. split; [exact Hr | exact Hl].
Defined.

(** C4 as stated fails: the server's answer for a missing version file
    ends the run in ERROR; no END_GETVERSION follows. *)
Lemma empty_json_string_ends_in_ERROR :
  ContentAsString (Demo.answer Demo.empty_json_string) = String "034" (String "034" EmptyString)
  /\ exists w,
       (StartUp Demo.engine 9 (Demo.world Demo.disk)
          ≫= RetGetVersion Demo.engine 9 (Some (Demo.answer Demo.empty_json_string)) true)
       = Some w
       /\ states (Log w.2)
          = [(HU_BEGIN_GETVERSION, "Begin to get version"%string);
             (HU_ERROR, "Error: Failed to deserialize json"%string)].
Proof.
  split; [reflexivity|]. eexists. split; [vm_compute; reflexivity|]. reflexivity.
Qed.

(** An empty JSON object, on the other hand, is a manifest without
    entries: the run goes through to the end. *)
Example empty_object_completes :
  Demo.hot_update_states
  <$> (StartUp Demo.engine 9 (Demo.world Demo.disk)
         ≫= RetGetVersion Demo.engine 9 (Some (Demo.answer "{}")) true)
  = Some [HU_BEGIN_GETVERSION; HU_END_GETVERSION; HU_END_DOWNLOAD; HU_BEGIN_MOUNT;
          HU_END_MOUNT; HU_END_HOTUPDATE].
Proof. vm_compute. reflexivity. Qed.

(** C8, as the code has it.  For a well-received manifest that
    deserializes, [RetGetVersion]
    hands to END_GETVERSION the managers that the registration loop leaves,
    and that loop: queues every entry for mounting, valid or not, in
    manifest order; calls [AddTask] for exactly the entries that fail
    validation, in manifest order, with the entry's URL, name and size;
    issues no request of its own; stores no task but those asked for by a
    failing entry, so that an entry that validates has no task unless a
    failing entry bears its name; when the GUID generator never repeats,
    stores one task for each failing entry; and in the transfer phase that
    follows (the start of the run and every callback), each HEAD or GET goes
    to the encoded URL of a task that was there before the manifest or was
    asked for by a failing entry.  So no HEAD or GET goes to the address of
    an entry, valid or not, unless a task that was there before or a
    failing entry has that address: none is issued on behalf of an entry
    that validates, and its file is requested only when the manifest lists
    it once more with a hash or a size that fails. *)
Theorem manifest_registration (E : Engine) (fuel : nat) (fs : FileSystem)
    (s : UHotUpdateSubsystem.t) (resp : FHttpResponse)
    (dm : FFileDownloadManager.t) (pm : FFilePakManager.t)
    (Values : list (string * FJsonValue)) :
  DownloadManager s = Some dm -> PakManager s = Some pm ->
  bad_status (ResponseCode resp) = false ->
  Deserialize E (ContentAsString resp) = Some Values ->
  let entries := PakFileProperty_of E <$> manifest_files E Values in
  let failing := List.filter (fun p => negb (FFilePakManager.IsPakValid E fs p)) entries in
  let r := register_files E fs (manifest_files E Values) (dm, pm) in
  RetGetVersion E fuel (Some resp) true (fs, s)
    = OnHotUpdateState E fuel HU_END_GETVERSION "End to get version"
        (fs, set_PakManager (Some r.2) (set_DownloadManager (Some r.1) (set_TimerSet false s)))
  /\ FFilePakManager.PakFiles r.2 = FFilePakManager.PakFiles pm ++ entries
  /\ r.1 = foldl (add_download E) dm failing
  /\ FFileDownloadManager.Out r.1 = FFileDownloadManager.Out dm
  /\ (forall g x, FFileDownloadManager.Tasks r.1 !! g = Some x ->
        FFileDownloadManager.Tasks dm !! g = Some x
        \/ exists p, p ∈ entries /\ FFilePakManager.IsPakValid E fs p = false
             /\ FileName (FDownloadTask.TaskInfo x) = PakName p
             /\ URL (FDownloadTask.TaskInfo x) = String.append (VersionURL E) (PakName p))
  /\ ((forall i j, NewGuid E i = NewGuid E j -> i = j) ->
      (forall n, (FFileDownloadManager.Guids dm <= n)%nat ->
                 FFileDownloadManager.Tasks dm !! NewGuid E n = None) ->
      size (FFileDownloadManager.Tasks r.1)
      = (size (FFileDownloadManager.Tasks dm) + length failing)%nat)
  /\ (forall m', rtc (FFileDownloadManager.transfer E) r.1 m' ->
      exists news, FFileDownloadManager.Out m' = FFileDownloadManager.Out dm ++ news
        /\ forall g q, FFileDownloadManager.Http g q ∈ news ->
             exists x, ReqURL q = GetEncodedURL E x
               /\ (FFileDownloadManager.Tasks dm !! g = Some x
                   \/ exists p, p ∈ entries /\ FFilePakManager.IsPakValid E fs p = false
                        /\ FileName (FDownloadTask.TaskInfo x) = PakName p
                        /\ URL (FDownloadTask.TaskInfo x)
                           = String.append (VersionURL E) (PakName p)))
  /\ (forall p,
        (forall g x, FFileDownloadManager.Tasks dm !! g = Some x ->
                     FDownloadTask.GetEncodedURL E x <> request_url E p) ->
        (forall p', p' ∈ failing -> request_url E p' <> request_url E p) ->
        forall m' news, rtc (FFileDownloadManager.transfer E) r.1 m' ->
          FFileDownloadManager.Out m' = FFileDownloadManager.Out dm ++ news ->
          forall g q, FFileDownloadManager.Http g q ∈ news -> ReqURL q <> request_url E p).
Proof.
  intros Hd Hp Hst Hj entries failing r.
  assert (Hr1 : r.1 = foldl (add_download E) dm failing)
    by apply register_files_downloads.
  assert (Htasks : forall g x, FFileDownloadManager.Tasks r.1 !! g = Some x ->
            FFileDownloadManager.Tasks dm !! g = Some x
            \/ exists p, p ∈ entries /\ FFilePakManager.IsPakValid E fs p = false
                 /\ FileName (FDownloadTask.TaskInfo x) = PakName p
                 /\ URL (FDownloadTask.TaskInfo x) = String.append (VersionURL E) (PakName p)).
  { intros g x Hx. rewrite Hr1 in Hx.
    apply foldl_add_download_tasks in Hx as [Hx|(p & Hin & Hn & Hu)]; [by left|].
    right. exists p. subst failing.
    apply list_elem_of_In, List.filter_In in Hin as [Hin Hv].
    apply negb_true_iff in Hv. apply list_elem_of_In in Hin. auto. }
  assert (Hout : FFileDownloadManager.Out r.1 = FFileDownloadManager.Out dm)
    by (rewrite Hr1; apply foldl_add_download_Out).
  assert (Hreq : forall m', rtc (FFileDownloadManager.transfer E) r.1 m' ->
            exists news, FFileDownloadManager.Out m' = FFileDownloadManager.Out dm ++ news
              /\ forall g q, FFileDownloadManager.Http g q ∈ news ->
                   exists x, ReqURL q = FDownloadTask.GetEncodedURL E x
                     /\ (FFileDownloadManager.Tasks dm !! g = Some x
                         \/ exists p, p ∈ entries
                              /\ FFilePakManager.IsPakValid E fs p = false
                              /\ FileName (FDownloadTask.TaskInfo x) = PakName p
                              /\ URL (FDownloadTask.TaskInfo x)
                                 = String.append (VersionURL E) (PakName p))).
  { intros m' Hrun. apply transfers_traces in Hrun as [_ (news & HO & HN)].
    exists news. split; [by rewrite HO, Hout|].
    intros g q Hq. destruct (HN g q Hq) as (x & Hx & Hu).
    exists x. split; [exact Hu | by apply Htasks]. }
  split; [|split; [|split; [|split; [|split; [|split; [|split]]]]]].
  - unfold RetGetVersion. cbn [negb]. rewrite Hst.
    assert (Hs : (if TimerSet s then set_TimerSet false s else s) = set_TimerSet false s).
    { destruct s as [? ? ? [] ? ? ?]; reflexivity. }
    rewrite Hs. cbn [DownloadManager PakManager set_TimerSet]. rewrite Hd, Hp, Hj.
    fold r. by destruct r.
  - apply register_files_PakFiles.
  - exact Hr1.
  - exact Hout.
  - exact Htasks.
  - intros Hinj Hfresh. rewrite Hr1. by apply foldl_add_download_size.
  - exact Hreq.
  - intros p Hold Hfail m' news Hrun HO g q Hq.
    destruct (Hreq m' Hrun) as (news0 & HO0 & HN).
    rewrite HO in HO0. apply app_inv_head in HO0 as <-.
    destruct (HN g q Hq) as (x & -> & [Hx|(p' & Hin & Hv & _ & Hu)]).
    + by apply (Hold g).
    + rewrite (GetEncodedURL_URL E x
                 (FDownloadTask.new 0%N (String.append (VersionURL E) (PakName p'))
                    (TempPakSaveRoot E) (PakName p') (PakSize p'))) by exact Hu.
      apply Hfail. subst failing.
      apply list_elem_of_In, List.filter_In. split; [by apply list_elem_of_In|].
      by rewrite Hv.
Qed.

Lemma manifest_registration_witness :
  let r := register_files Demo.engine Demo.disk
             (manifest_files Demo.engine
                [("0.1.0.0"%string, JArray []);
                 ("0.1.1.0"%string,
                   JArray [Demo.file_object "a.pak" "0cc175b9c0f1b6a831c399e269772661" 1;
                           Demo.file_object "b.pak" "92eb5ffee6ae2fec3ad71c777531578f" 1])])
             (FFileDownloadManager.empty, FFilePakManager.empty) in
  (PakName <$> FFilePakManager.PakFiles r.2) = ["a.pak"%string; "b.pak"%string]
  /\ size (FFileDownloadManager.Tasks r.1) = 1%nat.
Proof.
  destruct (manifest_registration Demo.engine 9 Demo.disk Initialize
              (Demo.answer Demo.manifest_text)
              FFileDownloadManager.empty FFilePakManager.empty
              [("0.1.0.0"%string, JArray []);
               ("0.1.1.0"%string,
                 JArray [Demo.file_object "a.pak" "0cc175b9c0f1b6a831c399e269772661" 1;
                         Demo.file_object "b.pak" "92eb5ffee6ae2fec3ad71c777531578f" 1])])
    as (_ & Hpak & _ & _ & _ & Hsize & _).
  - reflexivity.
  - reflexivity.
  - reflexivity.
  - reflexivity.
  - cbv zeta. split.
    + rewrite Hpak. reflexivity.
    + rewrite Hsize.
      * reflexivity.
      * intros i j H. by apply Nat2N.inj.
      * intros n _. reflexivity.
Defined.

(** The first end-to-end scenario with a second, missing file: a.pak is
    on disk and valid, b.pak is not there.  One HEAD request goes out, for
    b.pak; both files are queued for mounting. *)
Example manifest_run :
  (fun w => (Demo.hot_update_states w, Demo.download_requests w,
             (fun p => PakName <$> FFilePakManager.PakFiles p) <$> PakManager w.2))
  <$> (StartUp Demo.engine 9 (Demo.world Demo.disk)
         ≫= RetGetVersion Demo.engine 9 (Some (Demo.answer Demo.manifest_text)) true)
  = Some ([HU_BEGIN_GETVERSION; HU_END_GETVERSION],
          ["http://127.0.0.1/0.1.1.0/win/b.pak"%string],
          Some ["a.pak"%string; "b.pak"%string]).
Proof. vm_compute. reflexivity. Qed.

(** C8 as stated fails when the manifest lists a file more than once.
    a.pak is on disk with the hash the first version gives, so that entry
    validates; the second version gives another hash, its entry fails, and
    the task made for it is a task for the same name and the same URL: a
    HEAD request goes out for a.pak all the same. *)
Lemma valid_entry_is_requested :
  let E := Demo.versions_engine in
  let entries := PakFileProperty_of E <$> manifest_files E Demo.versions_fields in
  Deserialize E Demo.versions_text = Some Demo.versions_fields
  /\ (PakName <$> entries) = ["a.pak"%string; "a.pak"%string]
  /\ (FFilePakManager.IsPakValid E Demo.disk <$> entries) = [true; false]
  /\ (request_url E <$> entries) = [Demo.url_a; Demo.url_a]
  /\ ((fun w => (Demo.hot_update_states w,
                 (fun m => (FileName ∘ FDownloadTask.TaskInfo ∘ snd)
                           <$> map_to_list (FFileDownloadManager.Tasks m))
                 <$> DownloadManager w.2,
                 omap (fun d => match d with
                                | FFileDownloadManager.Http _ r => Some (Verb r, ReqURL r)
                                | _ => None
                                end) (downloads (Log w.2))))
      <$> (StartUp E 9 (Demo.world Demo.disk)
             ≫= RetGetVersion E 9 (Some (Demo.answer Demo.versions_text)) true))
     = Some ([HU_BEGIN_GETVERSION; HU_END_GETVERSION],
             Some ["a.pak"%string], [(HEAD, Demo.url_a)]).
Proof. vm_compute. repeat split. Qed.

(** * Further properties of the code *)

(** ** FileDownType.h *)

Lemma ToLowerChar_idem (c : ascii) :
  FString.ToLowerChar (FString.ToLowerChar c) = FString.ToLowerChar c.
Proof. destruct c as [[] [] [] [] [] [] [] []]; reflexivity. Qed.

Lemma ToLower_idem (s : string) : FString.ToLower (FString.ToLower s) = FString.ToLower s.
Proof. induction s as [|c s IH]; cbn; [done|]. by rewrite ToLowerChar_idem, IH. Qed.

Lemma FString_eq_ToLower (a b : string) :
  FString.eq a b = true <-> FString.ToLower a = FString.ToLower b.
Proof. unfold FString.eq. apply String.eqb_eq. Qed.

(** X1.  [FPakFileProperty::operator==] is an equivalence relation on
    manifest entries, and [IsPakValid] cannot tell two equal entries apart:
    entries that differ only in the case of their hash validate alike. *)
Theorem FPakFileProperty_equal_equivalence (E : Engine) (fs : FileSystem)
    (a b c : FPakFileProperty) :
  FPakFileProperty_equal a a = true
  /\ FPakFileProperty_equal a b = FPakFileProperty_equal b a
  /\ (FPakFileProperty_equal a b = true -> FPakFileProperty_equal b c = true ->
      FPakFileProperty_equal a c = true)
  /\ (FPakFileProperty_equal a b = true ->
      FFilePakManager.IsPakValid E fs a = FFilePakManager.IsPakValid E fs b)
  /\ FPakFileProperty_equal a
       {| PakName := PakName a; PakSize := PakSize a; MD5 := FString.ToLower (MD5 a) |} = true.
Proof.
  unfold FPakFileProperty_equal. split; [|split; [|split; [|split]]].
  - by rewrite !String.eqb_refl, Z.eqb_refl.
  - by rewrite (String.eqb_sym (PakName a)), (Z.eqb_sym (PakSize a)),
      (String.eqb_sym (FString.ToLower (MD5 a))).
  - rewrite !andb_true_iff, !String.eqb_eq, !Z.eqb_eq.
    intros [[-> ->] ->] [[-> ->] ->]. done.
  - rewrite !andb_true_iff, !String.eqb_eq, !Z.eqb_eq. intros [[Hn Hs] Hh].
    unfold FFilePakManager.IsPakValid, FString.eq. rewrite Hn, Hs.
    destruct (negb (FileExists fs _)); [done|].
    destruct (negb (_ =? _)); [done|].
    destruct (HashFile fs _); [|done]. by rewrite Hh.
  - cbn. by rewrite ToLower_idem, !String.eqb_refl, Z.eqb_refl.
Qed.

(** *** Reading the digest back *)

Lemma Hex_digit_ToLowerChar (c : ascii) : Hex.digit (FString.ToLowerChar c) = Hex.digit c.
Proof. destruct c as [[] [] [] [] [] [] [] []]; reflexivity. Qed.

Lemma Hex_decode_ToLower (s : string) :
  Hex.decode (FString.ToLower s) = Hex.decode s
  /\ forall c, Hex.decode (FString.ToLower (String c s)) = Hex.decode (String c s).
Proof.
  induction s as [|d s [IH1 IH2]]; [split; [done|]; intros c; reflexivity|].
  split; [apply IH2|].
  intros c. cbn [FString.ToLower Hex.decode].
  rewrite !Hex_digit_ToLowerChar.
  change (Hex.decode (FString.ToLower s)) with (Hex.decode (FString.ToLower s)).
  by rewrite IH1.
Qed.

Lemma Hex_decode_byte (b : Byte.byte) :
  let n := Byte.to_N b in
  Hex.digit (FString.NibbleToTChar (n / 16)) = Some (n / 16)%N
  /\ Hex.digit (FString.NibbleToTChar (n mod 16)) = Some (n mod 16)%N
  /\ Byte.of_N (16 * (n / 16) + n mod 16) = Some b.
Proof. destruct b; vm_compute; repeat split. Qed.

Lemma Hex_decode_BytesToHex (bs : list Byte.byte) :
  Hex.decode (FString.BytesToHex bs) = Some bs.
Proof.
  induction bs as [|b bs IH]; [done|].
  cbn [FString.BytesToHex]. cbv zeta. cbn [Hex.decode].
  destruct (Hex_decode_byte b) as (H1 & H2 & H3). cbv zeta in H1, H2, H3.
  rewrite H1. cbn [mbind option_bind]. rewrite H2. cbn [mbind option_bind].
  rewrite H3. cbn [mbind option_bind]. by rewrite IH.
Qed.

(** X2.  [IsPakValid] accepts an entry only when the manifest hash, read
    as hexadecimal text with letters of either case, is exactly the digest
    of the file on disk; in particular the hash has to be hexadecimal text
    of even length.  ([BytesToHex] loses nothing: what it prints reads back
    to the same bytes, see [Hex_decode_BytesToHex].) *)
Theorem IsPakValid_digest (E : Engine) (fs : FileSystem) (PakInfo : FPakFileProperty) :
  FFilePakManager.IsPakValid E fs PakInfo = true ->
  HashFile fs (Combine E (PakSaveRoot E) (PakName PakInfo)) = Hex.decode (MD5 PakInfo)
  /\ Hex.decode (MD5 PakInfo) <> None.
Proof.
  unfold FFilePakManager.IsPakValid.
  destruct (negb (FileExists fs _)); [done|].
  destruct (negb (_ =? _)); [done|].
  destruct (HashFile fs _) as [bytes|]; [|done].
  intros H. apply FString_eq_ToLower in H.
  assert (Hd : Hex.decode (MD5 PakInfo) = Some bytes).
  { rewrite <- (proj1 (Hex_decode_ToLower (MD5 PakInfo))), <- H.
    rewrite (proj1 (Hex_decode_ToLower _)). apply Hex_decode_BytesToHex. }
  rewrite Hd. done.
Qed.

Lemma IsPakValid_digest_witness :
  HashFile Demo.disk "Saved/Paks/a.pak" = Hex.decode "0CC175B9C0F1B6A831C399E269772661"
  /\ Hex.decode "0CC175B9C0F1B6A831C399E269772661" <> None.
Proof.
  apply (IsPakValid_digest Demo.engine Demo.disk
           {| PakName := "a.pak"; PakSize := 1; MD5 := "0CC175B9C0F1B6A831C399E269772661" |}).
  reflexivity.
Defined.

(** X3.  [FDownloadProgress::ConvertIntToSize], for sizes below 2^51
    (beyond, the megabyte count no longer fits the int32 that
    [FormatAsNumber] takes): the number shown is the size in the unit
    shown, rounded down; it is below 1024 under the units B and KB, and
    every size of 1024 * 1024 bytes or more is shown in MB. *)
Theorem ConvertIntToSize_rounds_down (Size : Z) :
  0 <= Size < 2 ^ 51 ->
  let n := (FDownloadProgress.ConvertIntToSize_parts Size).1 in
  let unit := (FDownloadProgress.ConvertIntToSize_parts Size).2 in
  n = Size / FDownloadProgress.unit_bytes unit
  /\ (unit = "B"%string /\ Size < 1024
      \/ unit = "KB"%string /\ 1024 <= Size < 1024 * 1024
      \/ unit = "MB"%string /\ 1024 * 1024 <= Size)
  /\ (unit <> "MB"%string -> n < 1024).
Proof.
  intros [H0 Hmax]. cbv zeta. unfold FDownloadProgress.ConvertIntToSize_parts.
  assert (Hd1 : 0 <= Size / 1024) by (apply Z.div_pos; lia).
  destruct (Z.ltb_spec Size 1024) as [H1|H1].
  - cbn [fst snd]. rewrite int32_id by (unfold INT32_MAX; lia).
    change (FDownloadProgress.unit_bytes "B") with 1. rewrite Z.div_1_r.
    split; [done|]. split; [left; done|]. intros _. lia.
  - destruct (Z.ltb_spec (Size / 1024) 1024) as [H2|H2]; cbn [fst snd].
    + rewrite int32_id by (unfold INT32_MAX; lia).
      change (FDownloadProgress.unit_bytes "KB") with 1024.
      split; [done|]. split; [|intros _; lia].
      right; left. split; [done|].
      pose proof (Z.div_mod Size 1024 ltac:(lia)).
      pose proof (Z.mod_pos_bound Size 1024 ltac:(lia)). lia.
    + change (FDownloadProgress.unit_bytes "MB") with (1024 * 1024).
      rewrite Z.div_div by lia.
      assert (Size / (1024 * 1024) < 2 ^ 31).
      { apply Z.div_lt_upper_bound; [lia|]. change (2 ^ 51) with (1024 * 1024 * 2 ^ 31) in Hmax.
        lia. }
      assert (0 <= Size / (1024 * 1024)) by (apply Z.div_pos; lia).
      rewrite int32_id by (unfold INT32_MAX; lia).
      split; [done|]. split; [|intros Hne; by destruct Hne].
      right; right. split; [done|].
      pose proof (Z.div_mod Size 1024 ltac:(lia)).
      pose proof (Z.mod_pos_bound Size 1024 ltac:(lia)). lia.
Qed.

Lemma ConvertIntToSize_rounds_down_witness :
  (FDownloadProgress.ConvertIntToSize_parts 5000000).1 = 4
  /\ (FDownloadProgress.ConvertIntToSize_parts 5000000).2 = "MB"%string.
Proof.
  destruct (ConvertIntToSize_rounds_down 5000000 ltac:(lia)) as (Hn & _ & _).
  split; [exact Hn | reflexivity].
Defined.

(** ** DownLoadTask.cpp *)

Section TaskShape.
Context (E : Engine).

Lemma IsEmpty_append (a b : string) :
  FString.IsEmpty (String.append a b) = FString.IsEmpty a && FString.IsEmpty b.
Proof. by destruct a. Qed.

Lemma get_Some_lt (s : string) : forall i c, String.get i s = Some c -> (i < String.length s)%nat.
Proof.
  induction s as [|d s IH]; intros i c; [by destruct i|].
  destruct i as [|i]; cbn; [lia|]. intros H. apply IH in H. lia.
Qed.

Lemma append_cons (d : ascii) (a b : string) :
  String.append (String d a) b = String d (String.append a b).
Proof. reflexivity. Qed.

Lemma take_drop (s : string) : forall n, String.append (FString.take n s) (FString.drop n s) = s.
Proof.
  induction s as [|d s IH]; intros [|n]; try done.
  cbn [FString.take FString.drop]. rewrite append_cons. f_equal. apply IH.
Qed.

Lemma Find_cases (s : string) (c : ascii) (p : Z) :
  FString.Find s c p = INDEX_NONE
  \/ exists k, FString.Find s c p = Z.of_nat k /\ (k < String.length s)%nat
               /\ String.get k s = Some c.
Proof.
  unfold FString.Find. destruct (FString.IsEmpty s); [by left|].
  destruct (FString.index_from _ c s) as [i|] eqn:Hi; [|by left].
  right. exists i. apply index_from_Some in Hi as [_ Hg].
  split; [done|]. split; [by eapply get_Some_lt | done].
Qed.

Lemma GetEncodedURL_found (x : FDownloadTask.t) (k : nat) :
  FString.Len (URL (TaskInfo x)) <= INT32_MAX ->
  FString.Find (URL (TaskInfo x)) "/"%char 14 = Z.of_nat k ->
  (k < String.length (URL (TaskInfo x)))%nat ->
  GetEncodedURL E x
  = String.append (FString.take (S k) (URL (TaskInfo x)))
      (encode_units E (FString.ParseIntoArray (FString.drop (S k) (URL (TaskInfo x))) "/"%char)).
Proof.
  intros Hlen Hf Hk. unfold GetEncodedURL. rewrite Hf.
  unfold FString.Len in Hlen.
  rewrite int32_id by (unfold INT32_MAX in *; lia).
  destruct (Z.ltb_spec 0 (Z.of_nat k + 1)); [|lia].
  unfold FString.Left, FString.Mid.
  replace (Z.to_nat (Z.of_nat k + 1)) with (S k) by lia. reflexivity.
Qed.

Lemma occurs_append (c : ascii) (a b : string) :
  FString.occurs c (String.append a b) = FString.occurs c a || FString.occurs c b.
Proof.
  induction a as [|d a IH]; [done|].
  rewrite append_cons. cbn [FString.occurs]. by rewrite IH, orb_assoc.
Qed.

Lemma split_on_free (c : ascii) (s : string) : forall cur,
  FString.occurs c cur = false ->
  Forall (fun u => FString.occurs c u = false) (FString.split_on c cur s).
Proof.
  induction s as [|d s IH]; intros cur Hcur; cbn [FString.split_on].
  - by constructor.
  - destruct (Ascii.eqb d c) eqn:Hd.
    + constructor; [done|]. by apply IH.
    + apply IH. rewrite occurs_append. cbn. by rewrite Hcur, Hd.
Qed.

Lemma ParseIntoArray_segments (c : ascii) (s : string) :
  Forall (fun u => FString.IsEmpty u = false /\ FString.occurs c u = false)
    (FString.ParseIntoArray s c).
Proof.
  unfold FString.ParseIntoArray.
  pose proof (split_on_free c s EmptyString eq_refl) as H.
  induction H as [|u l Hu _ IH]; cbn [List.filter]; [constructor|].
  destruct (FString.IsEmpty u) eqn:He; cbn [negb]; [exact IH|].
  constructor; [by split | exact IH].
Qed.

Lemma split_on_cons (c : ascii) (s : string) : forall cur,
  exists h t, FString.split_on c cur s = h :: t.
Proof.
  induction s as [|d s IH]; intros cur; cbn [FString.split_on]; [by eexists _, _|].
  destruct (Ascii.eqb d c); [by eexists _, _ | apply IH].
Qed.

Lemma append_nil_r (s : string) : String.append s EmptyString = s.
Proof. induction s as [|d s IH]; [done|]. by rewrite append_cons, IH. Qed.

Lemma append_assoc (a b c : string) :
  String.append (String.append a b) c = String.append a (String.append b c).
Proof. induction a as [|d a IH]; [done|]. by rewrite !append_cons, IH. Qed.

Lemma encode_units_cons (u h : string) (t : list string) :
  encode_units E (u :: h :: t)
  = String.append (UrlEncode E u) (String.append "/" (encode_units E (h :: t))).
Proof. reflexivity. Qed.

(** When the encoder changes none of the pieces of a text, the pieces put
    together again are the text that was split. *)
Lemma encode_units_split_on (s : string) : forall cur,
  Forall (fun u => UrlEncode E u = u) (FString.split_on "/"%char cur s) ->
  encode_units E (FString.split_on "/"%char cur s) = String.append cur s.
Proof.
  induction s as [|d s IH]; intros cur; cbn [FString.split_on].
  - intros Hid. apply Forall_cons_1 in Hid as [Hid _]. cbn. by rewrite Hid, append_nil_r.
  - destruct (Ascii.eqb_spec d "/"%char) as [->|Hd].
    + intros Hid. apply Forall_cons_1 in Hid as [Hcur Hid].
      destruct (split_on_cons "/"%char s EmptyString) as (h & t & Hs).
      pose proof (IH EmptyString Hid) as IH'. rewrite Hs in IH' |- *.
      rewrite encode_units_cons, IH', Hcur. reflexivity.
    + intros Hid. rewrite IH by exact Hid. by rewrite append_assoc.
Qed.

Lemma filter_all {A} (f : A -> bool) (l : list A) :
  Forall (fun a => f a = true) l -> List.filter f l = l.
Proof. induction 1 as [|a l Ha _ IH]; cbn; [done|]. by rewrite Ha, IH. Qed.

End TaskShape.

(** X4.  A task sends requests exactly when its URL has a slash at index
    14 or later (in a shorter URL: as its last character).  Otherwise the
    encoded URL is empty and [ReqGetHead] does nothing at all. *)
Theorem GetEncodedURL_empty_iff (E : Engine) (x : FDownloadTask.t) :
  FString.Len (URL (TaskInfo x)) <= INT32_MAX ->
  (FString.IsEmpty (GetEncodedURL E x) = true
   <-> FString.Find (URL (TaskInfo x)) "/"%char 14 = INDEX_NONE)
  /\ ((ReqGetHead E x).2 = []
      <-> FString.Find (URL (TaskInfo x)) "/"%char 14 = INDEX_NONE).
Proof.
  intros Hlen.
  assert (H : FString.IsEmpty (GetEncodedURL E x) = true
              <-> FString.Find (URL (TaskInfo x)) "/"%char 14 = INDEX_NONE).
  { destruct (Find_cases (URL (TaskInfo x)) "/"%char 14) as [Hn|(k & Hk & Hlt & Hg)].
    - split; [done|]. intros _. unfold GetEncodedURL. by rewrite Hn.
    - rewrite (GetEncodedURL_found E x k Hlen Hk Hlt), Hk.
      destruct (URL (TaskInfo x)) as [|d u]; [cbn in Hlt; lia|].
      cbn. unfold INDEX_NONE. split; [done | lia]. }
  split; [exact H|]. rewrite <- H. unfold ReqGetHead.
  destruct (FString.IsEmpty (GetEncodedURL E x)); split; done.
Qed.

Lemma GetEncodedURL_empty_iff_witness :
  FString.IsEmpty (GetEncodedURL Demo.engine Demo.task_no_path) = true
  <-> FString.Find (URL (TaskInfo Demo.task_no_path)) "/"%char 14 = INDEX_NONE.
Proof.
  apply (GetEncodedURL_empty_iff Demo.engine Demo.task_no_path).
  vm_compute. discriminate.
Defined.

(** X5.  When the slash is found at index [k], the encoded URL is the
    first [k + 1] characters of the URL, copied as they are, followed by
    the encoded path units with single slashes between them.  The units
    handed to [UrlEncode] are never empty and never contain a slash, so
    empty path segments are dropped and no slash is ever encoded. *)
Theorem GetEncodedURL_segments (E : Engine) (x : FDownloadTask.t) (k : nat) :
  FString.Len (URL (TaskInfo x)) <= INT32_MAX ->
  FString.Find (URL (TaskInfo x)) "/"%char 14 = Z.of_nat k ->
  let url := URL (TaskInfo x) in
  let units := FString.ParseIntoArray (FString.drop (S k) url) "/"%char in
  String.get k url = Some "/"%char
  /\ GetEncodedURL E x = String.append (FString.take (S k) url) (encode_units E units)
  /\ Forall (fun u => FString.IsEmpty u = false /\ FString.occurs "/"%char u = false) units.
Proof.
  intros Hlen Hf. cbv zeta.
  destruct (Find_cases (URL (TaskInfo x)) "/"%char 14) as [Hn|(k' & Hk & Hlt & Hg)].
  { rewrite Hn in Hf. unfold INDEX_NONE in Hf. lia. }
  assert (k' = k) as -> by lia.
  split; [exact Hg|]. split; [by apply GetEncodedURL_found|].
  apply ParseIntoArray_segments.
Qed.

Lemma GetEncodedURL_segments_witness :
  GetEncodedURL Demo.engine Demo.task_a
  = String.append "http://127.0.0.1/"
      (encode_units Demo.engine ["0.1.1.0"%string; "win"%string; "a.pak"%string]).
Proof.
  exact (proj1 (proj2 (GetEncodedURL_segments Demo.engine Demo.task_a 16
                         ltac:(vm_compute; discriminate) eq_refl))).
Defined.

(** X6.  A URL whose path has no empty segment (no doubled slash, no
    slash at its end) and whose path segments the encoder leaves as they
    are, each for itself, is requested exactly as it was given.  Nothing
    is asked of the encoder on other texts. *)
Theorem GetEncodedURL_unchanged (E : Engine) (x : FDownloadTask.t) (k : nat) :
  FString.Len (URL (TaskInfo x)) <= INT32_MAX ->
  FString.Find (URL (TaskInfo x)) "/"%char 14 = Z.of_nat k ->
  Forall (fun u => FString.IsEmpty u = false /\ UrlEncode E u = u)
    (FString.split_on "/"%char EmptyString (FString.drop (S k) (URL (TaskInfo x)))) ->
  GetEncodedURL E x = URL (TaskInfo x).
Proof.
  intros Hlen Hf Hne.
  destruct (Find_cases (URL (TaskInfo x)) "/"%char 14) as [Hn|(k' & Hk & Hlt & Hg)].
  { rewrite Hn in Hf. unfold INDEX_NONE in Hf. lia. }
  assert (k' = k) as -> by lia.
  rewrite (GetEncodedURL_found E x k Hlen Hf Hlt).
  unfold FString.ParseIntoArray. rewrite filter_all.
  - rewrite (encode_units_split_on E _ EmptyString).
    + cbn [String.append]. apply take_drop.
    + eapply Forall_impl; [exact Hne|]. cbn. by intros u [_ Hu].
  - eapply Forall_impl; [exact Hne|]. cbn. by intros u [-> _].
Qed.

Lemma GetEncodedURL_unchanged_witness :
  GetEncodedURL Demo.escaping_engine Demo.task_a = Demo.url_a.
Proof.
  apply (GetEncodedURL_unchanged Demo.escaping_engine Demo.task_a 16).
  - vm_compute. discriminate.
  - reflexivity.
  - vm_compute. repeat constructor.
Defined.

(** The same encoder does change a segment with a space in it, and the
    URL that is requested with it. *)
Example GetEncodedURL_escapes :
  UrlEncode Demo.escaping_engine "a b.pak" = "a%20b.pak"%string
  /\ GetEncodedURL Demo.escaping_engine Demo.task_spaced
     = "http://127.0.0.1/0.1.1.0/win/a%20b.pak"%string.
Proof. vm_compute. split; reflexivity. Qed.

(** *** The events that end a task *)

Ltac split_ifs :=
  repeat match goal with
         | |- context [if ?c then _ else _] => destruct c eqn:?
         | |- context [match ?c with Some _ => _ | None => _ end] => destruct c eqn:?
         end.

(** X7.  Whatever [Start] or a callback of the HTTP module does, an
    event that ends the task (END_DOWNLOAD or ERROR) is the last thing the
    method does, it is raised at most once, and it carries the task's
    final [TaskInfo]: the manager that removes the task on such an event
    never removes it under a method that still has work to do. *)
Theorem terminal_event_is_last (E : Engine) (x : FDownloadTask.t) :
  ends_last (TaskInfo (Start E x).1) (Start E x).2
  /\ forall cb, ends_last (TaskInfo (FFileDownloadManager.run_callback E cb x).1)
                  (FFileDownloadManager.run_callback E cb x).2.
Proof.
  split.
  - unfold Start, ReqGetHead. split_ifs; cbn; intuition discriminate.
  - intros [resp c a|resp c a|n]; cbn [FFileDownloadManager.run_callback].
    + unfold RetGetHead, ReqGetChunk. destruct resp as [resp|]; [|cbn; intuition discriminate].
      split_ifs; cbn; intuition discriminate.
    + unfold RetGetChunk, OnWriteChunkEnd, ReqGetChunk, OnTaskCompleted.
      destruct resp as [resp|]; [|cbn; intuition discriminate].
      split_ifs; cbn; intuition discriminate.
    + unfold GetChunkProgress. split_ifs; cbn; intuition discriminate.
Qed.

(** *** Answers of any size *)

Section AnySize.
Context (E : Engine) (a : ChunkAnswers).

Lemma feed_idle (sizes : list Z) (x : FDownloadTask.t) :
  bIsDownLoading x = false -> feed E a sizes x = (x, []).
Proof.
  intros H. destruct sizes as [|n rest]; [done|]. cbn [feed].
  destruct (Request x) as [r|]; [|done]. destruct (Verb r); try done. by rewrite H.
Qed.

Lemma writes_app e1 e2 : writes (e1 ++ e2) = writes e1 ++ writes e2.
Proof. unfold writes. by rewrite omap_app. Qed.

(** One answer of [n] bytes: they are written at [CurrentSize]; then
    either the next range is asked for, beginning behind them, or the task
    is over. *)
Lemma RetGetChunk_step (x : FDownloadTask.t) (resp : FHttpResponse) :
  bad_status (ResponseCode resp) = false ->
  WriteOk a = true -> TempFileHandle x = true ->
  FString.IsEmpty (GetEncodedURL E x) = false ->
  -2147483648 <= CurrentSize (TaskInfo x) + ContentNum resp <= INT32_MAX ->
  let cur := CurrentSize (TaskInfo x) in
  let n := ContentNum resp in
  let r := RetGetChunk E (Some resp) true a x in
  writes r.2 = [(cur, cur + n - 1)]
  /\ (if cur + n <? TotalSize (TaskInfo x)
      then r = ((ReqGetChunk E (set_info (with_CurrentSize (cur + n)) x)).1,
                SeekWrite cur n
                  :: Execute UPDATE_DOWNLOAD (with_CurrentSize (cur + n) (TaskInfo x))
                  :: (ReqGetChunk E (set_info (with_CurrentSize (cur + n)) x)).2)
           /\ exists e, ranges r.2 = [(cur + n, e)]
      else ranges r.2 = [] /\ bIsDownLoading r.1 = false
           /\ (raised END_DOWNLOAD r.2 || raised ERROR r.2 = true)).
Proof.
  intros Hst Hw Hh Hurl Hrange. cbv zeta.
  unfold RetGetChunk. cbn [negb]. rewrite Hst, Hh, Hw.
  unfold OnWriteChunkEnd. rewrite (int32_id _ Hrange).
  set (x1 := set_info _ x).
  change (CurrentSize (TaskInfo x1)) with (CurrentSize (TaskInfo x) + ContentNum resp).
  change (TotalSize (TaskInfo x1)) with (TotalSize (TaskInfo x)).
  destruct (_ <? _) eqn:Hlt.
  - assert (Hu1 : FString.IsEmpty (GetEncodedURL E x1) = false).
    { rewrite (GetEncodedURL_URL E x1 x); [exact Hurl | reflexivity]. }
    unfold ReqGetChunk. rewrite Hu1. cbn. split; [done|]. split; [done|]. by eexists.
  - unfold OnTaskCompleted.
    destruct (IsFileExistAnswer a); cbn [negb];
      [ match goal with
        | |- context [if negb ?c then _ else _] => destruct c; cbn [negb]
        end
      | destruct (MoveOk a) ]; cbn; auto.
Qed.

Lemma ReqGetChunk_state (x : FDownloadTask.t) :
  TaskInfo (ReqGetChunk E x).1 = TaskInfo x
  /\ TempFileHandle (ReqGetChunk E x).1 = TempFileHandle x
  /\ bIsDownLoading (ReqGetChunk E x).1 = bIsDownLoading x
  /\ (FString.IsEmpty (GetEncodedURL E x) = false ->
      exists r, Request (ReqGetChunk E x).1 = Some r /\ Verb r = GET).
Proof.
  unfold ReqGetChunk. destruct (FString.IsEmpty (GetEncodedURL E x)); cbn; [done|].
  repeat split. intros _. by eexists.
Qed.

End AnySize.

Lemma Tiles_hi_eq lo hi hi' rs : Tiles lo hi rs -> hi = hi' -> Tiles lo hi' rs.
Proof. by intros H <-. Qed.

(** X8.  A server may answer a range request with a body of any size.
    As long as the sizes are positive and the file stays within the int32
    range, the task writes each body directly behind the previous one: the
    intervals written tile the file from the first [CurrentSize] on,
    without gap or overlap, and every range request the task sends begins
    at the byte after the last one written. *)
Theorem writes_are_contiguous (E : Engine) (a : ChunkAnswers) (sizes : list Z) :
  forall x : FDownloadTask.t,
  WriteOk a = true -> TempFileHandle x = true ->
  FString.IsEmpty (GetEncodedURL E x) = false ->
  0 <= CurrentSize (TaskInfo x) ->
  Forall (fun n => 0 < n) sizes ->
  CurrentSize (TaskInfo x) + foldr Z.add 0 sizes <= INT32_MAX ->
  let r := feed E a sizes x in
  let used := take (length (writes r.2)) sizes in
  Tiles (CurrentSize (TaskInfo x)) (CurrentSize (TaskInfo x) + foldr Z.add 0 used) (writes r.2)
  /\ (ranges r.2).*1 = (fun w => w.2 + 1) <$> take (length (ranges r.2)) (writes r.2).
Proof.
  induction sizes as [|n rest IH]; intros x Hw Hh Hurl H0 Hpos Hmax; cbv zeta.
  { cbn. rewrite Z.add_0_r. split; [constructor | done]. }
  apply Forall_cons in Hpos as [Hn Hpos]. cbn [foldr] in Hmax.
  assert (Hsum : 0 <= foldr Z.add 0 rest).
  { clear -Hpos. induction Hpos; cbn; lia. }
  assert (Htriv : let r := (x, @nil Effect) in
            Tiles (CurrentSize (TaskInfo x))
              (CurrentSize (TaskInfo x)
               + foldr Z.add 0 (take (length (writes r.2)) (n :: rest))) (writes r.2)
            /\ (ranges r.2).*1 = (fun w => w.2 + 1) <$> take (length (ranges r.2)) (writes r.2)).
  { cbn. rewrite Z.add_0_r. split; [constructor | done]. }
  cbn [feed]. destruct (Request x) as [q|]; [|exact Htriv].
  destruct (Verb q); try exact Htriv.
  destruct (bIsDownLoading x) eqn:Hd; [|exact Htriv]. clear Htriv.
  pose proof (RetGetChunk_step E a x (body_reply n) eq_refl Hw Hh Hurl) as Hstep.
  cbn [ContentNum body_reply] in Hstep. cbv zeta in Hstep.
  destruct Hstep as [Hwr Hnext]; [unfold INT32_MAX in *; lia|].
  destruct (RetGetChunk E (Some (body_reply n)) true a x) as [x1 e1] eqn:Hr.
  cbn [fst snd] in Hwr, Hnext.
  destruct (_ <? _) eqn:Hlt.
  - destruct Hnext as [Heq (en & Hrg)]. injection Heq as Hx1 He1.
    set (x0 := set_info (with_CurrentSize (CurrentSize (TaskInfo x) + n)) x) in *.
    destruct (ReqGetChunk_state E x0) as (Hi & Hh1 & _ & _).
    rewrite <- Hx1 in Hi, Hh1.
    assert (Hc1 : CurrentSize (TaskInfo x1) = CurrentSize (TaskInfo x) + n)
      by (rewrite Hi; reflexivity).
    assert (Hu1 : FString.IsEmpty (GetEncodedURL E x1) = false).
    { rewrite (GetEncodedURL_URL E x1 x); [exact Hurl | by rewrite Hi]. }
    assert (Hh1' : TempFileHandle x1 = true) by (rewrite Hh1; exact Hh).
    destruct (IH x1 Hw Hh1' Hu1 ltac:(lia) Hpos ltac:(lia)) as [IHt IHr].
    destruct (feed E a rest x1) as [x2 e2]. cbn [fst snd] in *.
    rewrite writes_app, ranges_app, Hwr, Hrg. cbn [app length take foldr fmap list_fmap fst snd].
    split.
    + apply Tiles_cons; [lia|].
      eapply Tiles_hi_eq; [|reflexivity].
      replace (CurrentSize (TaskInfo x) + n - 1 + 1) with (CurrentSize (TaskInfo x1)) by lia.
      eapply Tiles_hi_eq; [exact IHt | lia].
    + rewrite IHr. f_equal. lia.
  - destruct Hnext as (Hrg & Hd1 & _).
    rewrite (feed_idle E a rest x1 Hd1). cbn [fst snd]. rewrite app_nil_r, Hwr, Hrg.
    cbn. split; [|done]. apply Tiles_cons; [lia|].
    eapply Tiles_hi_eq; [apply Tiles_nil | rewrite take_0; cbn [foldr]; lia].
Qed.

Lemma writes_are_contiguous_witness :
  let x := (RetGetHead Demo.engine (Some (Demo.response 200 10 0)) true Demo.head_ok
              (Start Demo.engine Demo.task_a).1).1 in
  let r := feed Demo.engine Demo.chunk_ok [3; 4; 5; 6] x in
  writes r.2 = [(0, 2); (3, 6); (7, 11)]
  /\ Tiles 0 12 (writes r.2)
  /\ (ranges r.2).*1 = [3; 7].
Proof.
  cbv zeta.
  destruct (writes_are_contiguous Demo.engine Demo.chunk_ok [3; 4; 5; 6]
              (RetGetHead Demo.engine (Some (Demo.response 200 10 0)) true Demo.head_ok
                 (Start Demo.engine Demo.task_a).1).1
              eq_refl eq_refl eq_refl ltac:(vm_compute; discriminate)
              ltac:(repeat constructor) ltac:(vm_compute; discriminate)) as [Ht Hr].
  split; [reflexivity|]. split; [exact Ht | exact Hr].
Defined.

(** X9.  An answer with a good status and an empty body makes no
    progress and ends nothing: the task asks again for the range it asked
    for, and stays in the downloading state however often this repeats.
    It raises neither END_DOWNLOAD nor ERROR, so the manager keeps waiting
    for it. *)
Theorem empty_body_repeats_request (E : Engine) (a : ChunkAnswers) (k : nat) :
  forall x : FDownloadTask.t,
  WriteOk a = true -> TempFileHandle x = true ->
  FString.IsEmpty (GetEncodedURL E x) = false ->
  bIsDownLoading x = true ->
  (exists q, Request x = Some q /\ Verb q = GET) ->
  -2147483648 <= CurrentSize (TaskInfo x) <= INT32_MAX ->
  CurrentSize (TaskInfo x) < TotalSize (TaskInfo x) ->
  let r := feed E a (replicate k 0) x in
  TaskInfo r.1 = TaskInfo x
  /\ bIsDownLoading r.1 = true
  /\ ranges r.2 = replicate k (ranges (ReqGetChunk E x).2 !!! 0%nat)
  /\ raised END_DOWNLOAD r.2 = false /\ raised ERROR r.2 = false.
Proof.
  induction k as [|k IH]; intros x Hw Hh Hurl Hd (q & Hq & Hv) Hrange Hlt; cbv zeta.
  { cbn. done. }
  cbn [replicate feed]. rewrite Hq, Hv, Hd.
  pose proof (RetGetChunk_step E a x (body_reply 0) eq_refl Hw Hh Hurl) as Hstep.
  cbn [ContentNum body_reply] in Hstep. cbv zeta in Hstep.
  destruct Hstep as [_ Hnext]; [lia|].
  rewrite Z.add_0_r in Hnext.
  destruct (Z.ltb_spec (CurrentSize (TaskInfo x)) (TotalSize (TaskInfo x))); [|lia].
  destruct Hnext as [Heq _].
  assert (Hx0 : set_info (with_CurrentSize (CurrentSize (TaskInfo x))) x = x).
  { destruct x as [[] ? ? ? ? ?]. reflexivity. }
  rewrite Hx0 in Heq. rewrite Heq.
  destruct (ReqGetChunk_state E x) as (Hi & Hh1 & Hd1 & Hq1).
  assert (Hx1 : (ReqGetChunk E x).1
                = set_Request (Some (get_request E x (CurrentSize (TaskInfo x))
                    (if TotalSize (TaskInfo x)
                        <=? int32 (int32 (CurrentSize (TaskInfo x) + ChunkSize) - 1)
                     then int32 (TotalSize (TaskInfo x) - 1)
                     else int32 (int32 (CurrentSize (TaskInfo x) + ChunkSize) - 1)))) x).
  { unfold ReqGetChunk. rewrite Hurl. reflexivity. }
  assert (He : (ReqGetChunk E x).2
               = [ProcessRequest (get_request E x (CurrentSize (TaskInfo x))
                    (if TotalSize (TaskInfo x)
                        <=? int32 (int32 (CurrentSize (TaskInfo x) + ChunkSize) - 1)
                     then int32 (TotalSize (TaskInfo x) - 1)
                     else int32 (int32 (CurrentSize (TaskInfo x) + ChunkSize) - 1)));
                  Execute BEGIN_DOWNLOAD (TaskInfo x)]).
  { unfold ReqGetChunk. rewrite Hurl. reflexivity. }
  set (x1 := (ReqGetChunk E x).1) in *.
  assert (Hu1 : FString.IsEmpty (GetEncodedURL E x1) = false).
  { rewrite (GetEncodedURL_URL E x1 x); [exact Hurl | by rewrite Hi]. }
  assert (Hsame : ReqGetChunk E x1 = ReqGetChunk E x).
  { unfold ReqGetChunk at 1. rewrite Hu1. unfold ReqGetChunk. rewrite Hurl.
    rewrite Hx1. reflexivity. }
  destruct (IH x1 Hw ltac:(congruence) Hu1 ltac:(congruence) (Hq1 Hurl)
              ltac:(by rewrite Hi) ltac:(by rewrite Hi)) as (I1 & I2 & I3 & I4 & I5).
  destruct (feed E a (replicate k 0) x1) as [x2 e2]. cbn [fst snd] in *.
  rewrite Hsame in I3.
  split; [congruence|]. split; [exact I2|].
  rewrite He in *. cbn [app].
  split; [|split].
  - change (ranges (?a :: ?b :: ?c :: ?d :: e2))
      with (ranges [a; b; c; d] ++ ranges e2) at 1.
    rewrite I3. reflexivity.
  - unfold raised in *. apply bool_decide_eq_false. apply bool_decide_eq_false in I4.
    cbn. rewrite !elem_of_cons. intros [?|[?|?]]; try done.
  - unfold raised in *. apply bool_decide_eq_false. apply bool_decide_eq_false in I5.
    cbn. rewrite !elem_of_cons. intros [?|[?|?]]; try done.
Qed.

Lemma empty_body_repeats_request_witness :
  let x := (RetGetHead Demo.engine (Some (Demo.response 200 10 0)) true Demo.head_ok
              (Start Demo.engine Demo.task_a).1).1 in
  let r := feed Demo.engine Demo.chunk_ok [0; 0; 0] x in
  bIsDownLoading r.1 = true /\ ranges r.2 = [(0, 9); (0, 9); (0, 9)].
Proof.
  cbv zeta.
  destruct (empty_body_repeats_request Demo.engine Demo.chunk_ok 3
              (RetGetHead Demo.engine (Some (Demo.response 200 10 0)) true Demo.head_ok
                 (Start Demo.engine Demo.task_a).1).1
              eq_refl eq_refl eq_refl eq_refl
              ltac:(eexists; split; reflexivity)
              ltac:(vm_compute; split; discriminate) eq_refl) as (_ & Hd & Hr & _).
  split; [exact Hd | exact Hr].
Defined.

(** ** FileDownloadManager.cpp *)

Section ManagerSettled.
Context (E : Engine).

Lemma calm_refl m : calm m m.
Proof. unfold calm. split; [done|]. split; [eauto | auto]. Qed.

Lemma calm_none m m' k : calm m m' -> Tasks m !! k = None -> Tasks m' !! k = None.
Proof.
  intros (_ & H & _) Hk. destruct (Tasks m' !! k) as [x'|] eqn:Hx'; [|done].
  destruct (H _ _ Hx') as (x & Hx & _). congruence.
Qed.

Lemma calm_trans m1 m2 m3 : calm m1 m2 -> calm m2 m3 -> calm m1 m3.
Proof.
  intros H12 H23.
  destruct H12 as (W1 & T1 & F1). pose proof H23 as (W2 & T2 & F2).
  unfold calm. split; [auto|]. split.
  - intros k x3 H3. destruct (T2 _ _ H3) as (x2 & H2 & B2).
    destruct (T1 _ _ H2) as (x1 & H1 & B1). eauto.
  - intros Hw y Hy. destruct (F2 (W1 Hw) y Hy) as [Hy2|Hg]; [|by right].
    destruct (F1 Hw y Hy2) as [Hy1|Hg]; [by left|]. right.
    by apply (calm_none m2 m3).
Qed.

(** Changes that leave the task map and the failed list alone. *)
Lemma calm_same m m' :
  Tasks m' = Tasks m -> FailedTasks m' = FailedTasks m -> calm m m'.
Proof.
  intros HT HF. unfold calm, wf. rewrite HT, HF. split; [done|]. split; [eauto | auto].
Qed.

Lemma name_fallback_busy (x : FDownloadTask.t) :
  bIsDownLoading (name_fallback E x) = bIsDownLoading x.
Proof. unfold name_fallback. by destruct (FString.IsEmpty _). Qed.

(** [Start] either raises ERROR alone or leaves the task transferring. *)
Lemma Start_cases (x : FDownloadTask.t) :
  (Start E x).2 = [Execute ERROR (TaskInfo (Start E x).1)]
  \/ (bIsDownLoading (Start E x).1 = true
      /\ ((Start E x).2 = []
          \/ exists r, (Start E x).2 = [ProcessRequest r; Execute REQ_HEAD (TaskInfo (Start E x).1)])).
Proof.
  unfold Start.
  destruct (FString.IsEmpty (URL (TaskInfo (name_fallback E x))) ||
            FString.IsEmpty (FileName (TaskInfo (name_fallback E x)))); [by left|].
  right. destruct (bIsDownLoading (name_fallback E x)) eqn:Hd; [cbn; auto|].
  unfold ReqGetHead. destruct (FString.IsEmpty (GetEncodedURL E _)); cbn; [auto|].
  split; [done|]. right. by eexists.
Qed.

Lemma Start_busy (x : FDownloadTask.t) :
  bIsDownLoading x = true -> bIsDownLoading (Start E x).1 = true.
Proof.
  intros Hx. unfold Start. rewrite name_fallback_busy, Hx.
  by destruct (_ || _); cbn; rewrite name_fallback_busy.
Qed.

(** Writing back the task that [Start] returned. *)
Lemma calm_store_Start m k x :
  Tasks m !! k = Some x -> calm m (set_Tasks (insert k (Start E x).1) m).
Proof.
  intros Hk. unfold calm. cbn [Tasks FailedTasks set_Tasks]. split; [|split].
  - unfold wf. cbn [Tasks set_Tasks]. intros Hw k' y.
    destruct (decide (k = k')) as [<-|Hne].
    + rewrite lookup_insert_eq. intros [= <-].
      rewrite (proj1 (Start_shape E x)). eauto.
    + rewrite lookup_insert_ne by done. eauto.
  - intros k' y. destruct (decide (k = k')) as [<-|Hne].
    + rewrite lookup_insert_eq. intros [= <-]. exists x. split; [done | apply Start_busy].
    + rewrite lookup_insert_ne by done. eauto.
  - auto.
Qed.

Lemma keys_elem m k x : Tasks m !! k = Some x -> k ∈ keys m.
Proof.
  intros H. unfold keys. apply list_elem_of_fmap. exists (k, x).
  split; [done|]. by apply elem_of_map_to_list.
Qed.

Section WithHandler.
Context (rec : EDownloadTaskEvent -> FTaskInfo -> FFileDownloadManager.t
               -> option FFileDownloadManager.t).
Context (rec_st : forall ev info m m', rec ev info m = Some m' -> settled ev info m m').

(** After [Start] ran on the task under [k], that task is transferring
    or gone. *)
Lemma call_Start_calm k m m' :
  call rec k (Start E) m = Some m' ->
  calm m m' /\ (wf m -> forall x', Tasks m' !! k = Some x' -> bIsDownLoading x' = true).
Proof.
  unfold call. destruct (Tasks m !! k) as [x|] eqn:Hk.
  2:{ intros [= <-]. split; [apply calm_refl|]. intros _ x' Hx'. congruence. }
  pose proof (calm_store_Start m k x Hk) as Hstore.
  pose proof (Start_cases x) as Hcases.
  pose proof (proj1 (Start_shape E x)) as HG.
  destruct (Start E x) as [x' effs]. cbn [fst snd] in *.
  set (m1 := set_Tasks (insert k x') m) in *.
  assert (Hx1 : Tasks m1 !! k = Some x') by (subst m1; cbn; apply lookup_insert_eq).
  destruct Hcases as [->|[Hb [->|(r & ->)]]]; cbn [deliver mbind option_bind].
  - destruct (rec ERROR (TaskInfo x') m1) as [m2|] eqn:Hrec; [|done].
    cbn. intros [= <-]. apply rec_st in Hrec as (Hc & Hgone & _).
    split; [by eapply calm_trans|].
    intros Hw y Hy. specialize (Hgone eq_refl).
    rewrite HG, (Hw _ _ Hk) in Hgone. congruence.
  - intros [= <-]. split; [exact Hstore|]. intros _ y Hy.
    rewrite Hx1 in Hy. by injection Hy as <-.
  - destruct (rec REQ_HEAD (TaskInfo x') (FFileDownloadManager.emit (Http k r) m1)) as [m2|] eqn:Hrec; [|done].
    cbn. intros [= <-]. apply rec_st in Hrec as (Hc & _).
    split.
    + eapply calm_trans; [exact Hstore|].
      eapply calm_trans; [|exact Hc]. by apply calm_same.
    + intros _ y Hy. destruct Hc as (_ & HT & _).
      destruct (HT _ _ Hy) as (x0 & Hx0 & Hb0). cbn [Tasks FFileDownloadManager.emit] in Hx0.
      rewrite Hx1 in Hx0. injection Hx0 as <-. auto.
Qed.

Lemma restart_calm ks : forall m m',
  restart E rec ks m = Some m' ->
  calm m m'
  /\ (wf m -> forall k x', k ∈ ks -> Tasks m' !! k = Some x' -> bIsDownLoading x' = true).
Proof.
  induction ks as [|g ks IH]; intros m m'; cbn [restart].
  { intros [= <-]. split; [apply calm_refl|]. intros _ k x' Hk. by apply elem_of_nil in Hk. }
  assert (Hstep : forall m1,
            calm m m1 ->
            (wf m -> forall x1, Tasks m1 !! g = Some x1 -> bIsDownLoading x1 = true) ->
            restart E rec ks m1 = Some m' ->
            calm m m'
            /\ (wf m -> forall k x', k ∈ g :: ks -> Tasks m' !! k = Some x' ->
                  bIsDownLoading x' = true)).
  { intros m1 Hc Hg Hr. apply IH in Hr as [Hc' Hks].
    split; [by eapply calm_trans|].
    intros Hw k x' Hin Hx'. apply elem_of_cons in Hin as [->|Hin].
    - destruct Hc' as (_ & HT & _). destruct (HT _ _ Hx') as (x1 & Hx1 & Hb).
      apply Hb. by eapply Hg.
    - apply (Hks (proj1 Hc Hw) k x' Hin Hx'). }
  destruct (Tasks m !! g) as [x|] eqn:Hg.
  - unfold IsDownloading. destruct (bIsDownLoading x) eqn:Hb.
    + cbn. apply Hstep; [apply calm_refl|]. intros _ x1 Hx1. congruence.
    + destruct (call rec g (Start E) m) as [m1|] eqn:Hc; [|done]. cbn.
      apply call_Start_calm in Hc as [Hc Hb1]. by apply Hstep.
  - cbn. apply Hstep; [apply calm_refl|]. intros _ x1 Hx1. congruence.
Qed.

Lemma start_all_calm ks : forall m m',
  start_all E rec ks m = Some m' ->
  calm m m'
  /\ (wf m -> forall k x', k ∈ ks -> Tasks m' !! k = Some x' -> bIsDownLoading x' = true).
Proof.
  induction ks as [|g ks IH]; intros m m'; cbn [start_all].
  { intros [= <-]. split; [apply calm_refl|]. intros _ k x' Hk. by apply elem_of_nil in Hk. }
  destruct (call rec g (Start E) m) as [m1|] eqn:Hc; [|done]. cbn.
  apply call_Start_calm in Hc as [Hc Hb1]. intros Hr. apply IH in Hr as [Hc' Hks].
  split; [by eapply calm_trans|].
  intros Hw k x' Hin Hx'. apply elem_of_cons in Hin as [->|Hin].
  - destruct Hc' as (_ & HT & _). destruct (HT _ _ Hx') as (x1 & Hx1 & Hb).
    apply Hb. by eapply Hb1.
  - apply (Hks (proj1 Hc Hw) k x' Hin Hx').
Qed.

Lemma OnTaskFinish_settled Info bIsSuccess m m' :
  OnTaskFinish E rec Info bIsSuccess m = Some m' -> settled ERROR Info m m'.
Proof.
  unfold OnTaskFinish. cbn [Tasks set_CurrentDownloadSize].
  destruct (Tasks m !! GUID Info) as [x|] eqn:Hx.
  2:{ intros [= <-]. split; [by apply calm_same|]. split; [done|].
      intros _ _ [? ?]. cbn in *. congruence. }
  set (m0 := set_CurrentDownloadSize _ m).
  set (m1 := set_Tasks (delete (GUID Info)) m0).
  set (m2 := if bIsSuccess then m1 else set_FailedTasks (FailedTasks m1 ++ [x]) m1).
  intros Hr. apply restart_calm in Hr as [Hc Hks].
  assert (HT2 : Tasks m2 = delete (GUID Info) (Tasks m)) by (subst m2; by destruct bIsSuccess).
  assert (Hw2 : wf m -> wf m2).
  { unfold wf. rewrite HT2. intros Hw k y Hy.
    apply lookup_delete_Some in Hy as [_ Hy]. eauto. }
  assert (Hgone : Tasks m' !! GUID Info = None).
  { apply (calm_none m2 m' _ Hc). rewrite HT2. apply lookup_delete_eq. }
  destruct Hc as (W & T & F).
  assert (Hbusy : wf m -> busy m').
  { intros Hw k x' Hx'. destruct (T _ _ Hx') as (x2 & Hx2 & _).
    apply (Hks (Hw2 Hw) k x' (keys_elem m2 k x2 Hx2) Hx'). }
  split; [|split; [done | auto]].
  unfold calm. split; [auto|]. split.
  - intros k x' Hx'. destruct (T _ _ Hx') as (x2 & Hx2 & Hb).
    rewrite HT2 in Hx2. apply lookup_delete_Some in Hx2 as [_ Hx2]. eauto.
  - intros Hw y Hy. destruct (F (Hw2 Hw) y Hy) as [Hy2|Hg]; [|by right].
    subst m2. destruct bIsSuccess; [by left|]. cbn [FailedTasks set_FailedTasks] in Hy2.
    apply elem_of_app in Hy2 as [Hy2|Hy2]; [by left|].
    apply list_elem_of_singleton in Hy2 as ->. right.
    by rewrite (Hw _ _ Hx).
Qed.

Lemma settled_ext ev info m0 m m1 m' :
  settled ERROR info m m1 ->
  Tasks m = Tasks m0 -> FailedTasks m = FailedTasks m0 ->
  Tasks m' = Tasks m1 -> FailedTasks m' = FailedTasks m1 ->
  settled ev info m0 m'.
Proof.
  intros ((W & T & F) & G & B) HT HF HT' HF'.
  specialize (G eq_refl). specialize (B eq_refl).
  unfold settled, calm, busy, wf in *. rewrite HT, HF in *. rewrite HT', HF'.
  split; [split; [exact W | split; [exact T | exact F]]|].
  split; [intros _; exact G | intros _; exact B].
Qed.

Lemma OnTaskEvent_body_settled InEvent InInfo m m' :
  OnTaskEvent_body E rec InEvent InInfo m = Some m' -> settled InEvent InInfo m m'.
Proof.
  assert (Hsame : forall ev m0, terminal ev = false ->
            Tasks m0 = Tasks m -> FailedTasks m0 = FailedTasks m -> settled ev InInfo m m0).
  { intros ev m0 Hev HT HF. split; [by apply calm_same|]. rewrite Hev. split; done. }
  destruct InEvent; cbn [OnTaskEvent_body].
  - intros [= <-]. by apply Hsame.
  - intros [= <-]. by apply Hsame.
  - intros [= <-]. by apply Hsame.
  - destruct (Now m <=? LastUpdateTime m); intros [= <-]; by apply Hsame.
  - set (m1 := FFileDownloadManager.emit _ m).
    destruct (OnTaskFinish E rec InInfo true m1) as [m2|] eqn:Hf; [|done].
    cbn. intros [= <-]. apply OnTaskFinish_settled in Hf.
    eapply settled_ext; [exact Hf | done | done | |];
      by destruct (FFileDownloadManager.IsSuccessful m2).
  - intros Hf. by apply OnTaskFinish_settled in Hf.
Qed.

Lemma deliver_calm k effs : forall m m',
  deliver rec k effs m = Some m' -> calm m m'.
Proof.
  induction effs as [|e effs IH]; intros m m'; cbn [deliver].
  { intros [= <-]. apply calm_refl. }
  destruct e as [q|ev info|o c]; cbn [mbind option_bind].
  - intros Hd. apply IH in Hd. eapply calm_trans; [|exact Hd]. by apply calm_same.
  - destruct (rec ev info m) as [m1|] eqn:Hr; [|done]. intros Hd.
    apply rec_st in Hr as [Hc _]. apply IH in Hd. by eapply calm_trans.
  - apply IH.
Qed.

End WithHandler.

Lemma OnTaskEvent_settled fuel : forall ev info m m',
  OnTaskEvent E fuel ev info m = Some m' -> settled ev info m m'.
Proof.
  induction fuel as [|fuel IH]; intros ev info m m'; [done|].
  cbn [OnTaskEvent]. by apply OnTaskEvent_body_settled.
Qed.

Lemma StartUp_total fuel m :
  (size (Tasks m) < fuel)%nat -> is_Some (FFileDownloadManager.StartUp E fuel m).
Proof.
  intros Hn. unfold FFileDownloadManager.StartUp. destruct (0 <? Z.of_nat (size (Tasks m))); [|done].
  cbn -[start_all keys].
  apply (start_all_total E _ (OnTaskEvent_handled E fuel) fuel (OnTaskEvent_total E fuel)).
  exact Hn.
Qed.

Lemma calm_failed_apart m m' : calm m m' -> wf m -> failed_apart m -> failed_apart m'.
Proof.
  intros Hc Hw Ha y Hy. pose proof Hc as (_ & _ & F).
  destruct (F Hw y Hy) as [Hy0|Hg]; [|exact Hg].
  apply (calm_none m m' _ Hc). by apply Ha.
Qed.

Lemma transfer_calm m m' : transfer E m m' -> wf m -> failed_apart m -> wf m' /\ failed_apart m'.
Proof.
  intros Hstep Hw Ha. destruct Hstep as [fuel now g cb m m' Hc|fuel m m' Hs].
  - unfold OnCallback in Hc.
    destruct (Tasks m !! g) as [x0|] eqn:Hg; [|done].
    destruct (bound cb x0); [|done].
    unfold call in Hc. cbn [Tasks set_Now] in Hc. rewrite Hg in Hc.
    pose proof (run_callback_own E cb x0) as [HG _].
    destruct (run_callback E cb x0) as [x0' effs]. cbn [fst snd] in *.
    apply (deliver_calm _ (OnTaskEvent_settled fuel)) in Hc.
    set (m1 := set_Tasks (insert g x0') (set_Now now m)) in *.
    assert (Hw1 : wf m1).
    { unfold wf in *. subst m1. cbn. intros k y. destruct (decide (g = k)) as [<-|Hk].
      - rewrite lookup_insert_eq. intros [= <-]. rewrite HG. eauto.
      - rewrite lookup_insert_ne by done. eauto. }
    assert (Ha1 : failed_apart m1).
    { intros y Hy. subst m1. cbn in *. rewrite lookup_insert_ne; [by apply Ha|].
      intros ->. apply Ha in Hy. congruence. }
    split; [by apply (proj1 Hc) | by eapply calm_failed_apart].
  - unfold FFileDownloadManager.StartUp in Hs. destruct (0 <? Z.of_nat (size (Tasks m))).
    + cbn -[start_all keys] in Hs.
      apply (start_all_calm _ (OnTaskEvent_settled fuel)) in Hs as [Hc _].
      set (m1 := FFileDownloadManager.emit _ _) in *.
      assert (Hc1 : calm m m1) by (by apply calm_same).
      pose proof (calm_trans _ _ _ Hc1 Hc) as Hc2.
      split; [by apply (proj1 Hc2) | by eapply calm_failed_apart].
    + cbn in Hs. injection Hs as <-. split; [exact Hw | exact Ha].
Qed.

Lemma AddTask_wf URL_ Name Size m : wf m -> wf (AddTask E URL_ Name Size m).
Proof.
  intros Hw. destruct (Tasks m !! NewGuid E (Guids m)) as [y|] eqn:Hy.
  - rewrite AddTask_taken by eauto. exact Hw.
  - rewrite AddTask_fresh by done. unfold wf in *. cbn. intros k z.
    destruct (decide (NewGuid E (Guids m) = k)) as [<-|Hk].
    + rewrite lookup_insert_eq. by intros [= <-].
    + rewrite lookup_insert_ne by done. eauto.
Qed.

Lemma wf_empty : wf FFileDownloadManager.empty.
Proof. intros k x H. cbn in H. by rewrite lookup_empty in H. Qed.

Lemma failed_apart_no_failures m : FailedTasks m = [] -> failed_apart m.
Proof. intros H y Hy. rewrite H in Hy. by apply elem_of_nil in Hy. Qed.

Lemma step_wf m m' : step E m m' -> wf m -> wf m'.
Proof.
  intros Hstep Hw. destruct Hstep as [fuel now g cb m m' Hc|U N S m|fuel m m' Hs].
  - unfold OnCallback in Hc.
    destruct (Tasks m !! g) as [x0|] eqn:Hg; [|done].
    destruct (bound cb x0); [|done].
    unfold call in Hc. cbn [Tasks set_Now] in Hc. rewrite Hg in Hc.
    pose proof (run_callback_own E cb x0) as [HG _].
    destruct (run_callback E cb x0) as [x0' effs]. cbn [fst snd] in *.
    apply (deliver_calm _ (OnTaskEvent_settled fuel)) in Hc.
    apply (proj1 Hc). unfold wf in *. cbn. intros k y.
    destruct (decide (g = k)) as [<-|Hk].
    + rewrite lookup_insert_eq. intros [= <-]. rewrite HG. eauto.
    + rewrite lookup_insert_ne by done. eauto.
  - by apply AddTask_wf.
  - unfold FFileDownloadManager.StartUp in Hs. destruct (0 <? Z.of_nat (size (Tasks m))).
    + cbn -[start_all keys] in Hs.
      apply (start_all_calm _ (OnTaskEvent_settled fuel)) in Hs as [Hc _].
      apply (proj1 Hc). exact Hw.
    + cbn in Hs. by injection Hs as <-.
Qed.

End ManagerSettled.

(** X10.  The manager leaves no stored task idle.  After [StartUp], and
    after every event that ends a stored task (END_DOWNLOAD or ERROR),
    every task still in the map is marked as downloading: the loops over
    the map have started each task, and a task whose [Start] failed has
    left the map.  The ended task itself is gone from the map. *)
Theorem no_task_left_idle (E : Engine) (fuel : nat) (m : FFileDownloadManager.t) :
  wf m -> (size (Tasks m) < fuel)%nat ->
  (exists m', FFileDownloadManager.StartUp E fuel m = Some m' /\ busy m')
  /\ (forall ev info, terminal ev = true -> is_Some (Tasks m !! GUID info) ->
        exists m', OnTaskEvent E fuel ev info m = Some m'
                   /\ busy m' /\ Tasks m' !! GUID info = None).
Proof.
  intros Hw Hfuel. split.
  - destruct (StartUp_total E fuel m Hfuel) as [m' Hm]. exists m'. split; [exact Hm|].
    unfold FFileDownloadManager.StartUp in Hm.
    destruct (Z.ltb_spec 0 (Z.of_nat (size (Tasks m)))) as [Hpos|Hzero].
    + cbn -[start_all keys] in Hm.
      apply (start_all_calm E _ (OnTaskEvent_settled E fuel)) in Hm as [(_ & T & _) Hks].
      intros k x' Hx'. destruct (T _ _ Hx') as (x & Hx & _).
      apply (Hks Hw k x'); [|exact Hx']. by eapply keys_elem.
    + cbn in Hm. injection Hm as <-. intros k x Hx. cbn in Hx.
      assert (Hsz : size (Tasks m) = 0%nat) by lia.
      apply map_size_empty_inv in Hsz. rewrite Hsz in Hx. by rewrite lookup_empty in Hx.
  - intros ev info Hev Hin.
    destruct (OnTaskEvent_total E fuel ev info m Hfuel) as [m' Hm]. exists m'.
    split; [exact Hm|]. apply OnTaskEvent_settled in Hm as (_ & G & B). auto.
Qed.

Lemma no_task_left_idle_witness :
  exists m', FFileDownloadManager.StartUp Demo.engine 3 Demo.two_tasks = Some m' /\ busy m'.
Proof.
  apply (no_task_left_idle Demo.engine 3 Demo.two_tasks).
  - unfold Demo.two_tasks. apply AddTask_wf, AddTask_wf, wf_empty.
  - vm_compute. lia.
Defined.

(** X11.  During the transfer phase a task is never both stored and
    failed: when every task is stored under its own GUID and no failed
    task is in the map, this stays so after any number of callbacks and
    starts of the run. *)
Theorem failed_tasks_leave_the_map (E : Engine) (m m' : FFileDownloadManager.t) :
  rtc (transfer E) m m' -> wf m -> failed_apart m -> wf m' /\ failed_apart m'.
Proof.
  induction 1 as [m|m m1 m' Hs _ IH]; intros Hw Ha; [auto|].
  destruct (transfer_calm E m m1 Hs Hw Ha) as [Hw1 Ha1]. by apply IH.
Qed.

Lemma failed_tasks_leave_the_map_witness :
  exists m1 m2,
    FFileDownloadManager.StartUp Demo.engine 3 Demo.two_tasks = Some m1
    /\ OnCallback Demo.engine 3 1 0%N Demo.a_fails m1 = Some m2
    /\ length (FailedTasks m2) = 1%nat
    /\ failed_apart m2.
Proof.
  destruct (FFileDownloadManager.StartUp Demo.engine 3 Demo.two_tasks) as [m1|] eqn:H1;
    [|by vm_compute in H1].
  pose proof H1 as H1'. vm_compute in H1'. injection H1' as <-.
  match type of H1 with _ = Some ?m => set (m1 := m) in * end.
  destruct (OnCallback Demo.engine 3 1 0%N Demo.a_fails m1) as [m2|] eqn:H2;
    [|by vm_compute in H2].
  exists m1, m2. split; [exact H1|]. split; [exact H2|].
  split.
  - pose proof H2 as H2'. vm_compute in H2'. injection H2' as <-. reflexivity.
  - apply (failed_tasks_leave_the_map Demo.engine Demo.two_tasks m2).
    + eapply rtc_l; [exact (transfer_StartUp _ _ _ _ H1)|].
      apply rtc_once. exact (transfer_callback _ _ _ _ _ _ _ H2).
    + unfold Demo.two_tasks. apply AddTask_wf, AddTask_wf, wf_empty.
    + by apply failed_apart_no_failures.
Defined.

(** X12.  Every state the manager can reach from the empty one, by
    adding tasks, starting the run and taking callbacks, stores each task
    under the GUID the task itself carries. *)
Theorem reachable_manager_wf (E : Engine) (m : FFileDownloadManager.t) :
  rtc (step E) FFileDownloadManager.empty m -> wf m.
Proof.
  assert (H : forall m0 m1, rtc (step E) m0 m1 -> wf m0 -> wf m1).
  { induction 1 as [|m0 m1 m2 Hs _ IH]; [auto|]. intros Hw. apply IH. by eapply step_wf. }
  intros Hr. apply (H _ _ Hr), wf_empty.
Qed.

Lemma reachable_manager_wf_witness : wf Demo.two_tasks.
Proof.
  apply (reachable_manager_wf Demo.engine). unfold Demo.two_tasks.
  eapply rtc_l; [apply step_AddTask|]. apply rtc_once. apply step_AddTask.
Defined.

(** X13.  [StartUp] of the manager, with fuel for the nested events, as
    far as the manager itself, its events and its requests go (the files
    it deletes from the temp directory beforehand are not modelled).  On
    an empty task map the aggregate END_DOWNLOAD is the one event it
    raises: no request is sent, and tasks, failures and sizes are as
    before.  On a map with tasks it raises BEGIN_DOWNLOAD first and never
    the aggregate END_DOWNLOAD, not even when every task fails at its
    start and the map ends up empty. *)
Theorem StartUp_dichotomy (E : Engine) (fuel : nat) (m : FFileDownloadManager.t) :
  (size (Tasks m) < fuel)%nat ->
  exists m', FFileDownloadManager.StartUp E fuel m = Some m'
    /\ (Tasks m = ∅ ->
        FFileDownloadManager.Out m'
        = FFileDownloadManager.Out m
          ++ [FFileDownloadManager.OnDownloadEvent DS_END_DOWNLOAD
                (FTaskInfo_new (NewGuid E (Guids m)))]
        /\ Tasks m' = ∅ /\ FailedTasks m' = FailedTasks m
        /\ CurrentDownloadSize m' = CurrentDownloadSize m
        /\ TotalDownloadSize m' = TotalDownloadSize m)
    /\ (Tasks m <> ∅ ->
        all_done (FFileDownloadManager.Out m') = all_done (FFileDownloadManager.Out m)
        /\ exists rest,
             FFileDownloadManager.Out m'
             = FFileDownloadManager.Out m
               ++ FFileDownloadManager.OnDownloadEvent DS_BEGIN_DOWNLOAD (FTaskInfo_new (NewGuid E (Guids m)))
                  :: rest).
Proof.
  intros Hfuel. destruct (StartUp_total E fuel m Hfuel) as [m' Hm]. exists m'.
  split; [exact Hm|]. unfold FFileDownloadManager.StartUp in Hm.
  destruct (Z.ltb_spec 0 (Z.of_nat (size (Tasks m)))) as [Hpos|Hzero].
  - split.
    { intros He. rewrite He, map_size_empty in Hpos. lia. }
    intros _. cbn -[start_all keys] in Hm.
    pose proof (start_all_keeps E _ (OnTaskEvent_handled E fuel) _ _ _ Hm)
      as (_ & _ & _ & D & _).
    pose proof (start_all_traces E _ (OnTaskEvent_traces E fuel) _ _ _ Hm)
      as (_ & news & Hn & _).
    split.
    + rewrite D. cbn -[all_done]. rewrite all_done_app. cbn. lia.
    + exists news. rewrite Hn. cbn. by rewrite <- app_assoc.
  - split.
    { intros He. cbn in Hm. injection Hm as <-. cbn. by rewrite He. }
    intros Hne. exfalso. apply Hne. apply map_size_empty_inv. lia.
Qed.

Lemma StartUp_dichotomy_witness :
  exists m', FFileDownloadManager.StartUp Demo.engine 3 Demo.two_tasks = Some m'
    /\ all_done (FFileDownloadManager.Out m') = 0%nat.
Proof.
  destruct (StartUp_dichotomy Demo.engine 3 Demo.two_tasks ltac:(vm_compute; lia))
    as (m' & Hm & _ & Hne).
  exists m'. split; [exact Hm|].
  destruct Hne as [Hd _]; [by vm_compute | exact Hd].
Defined.


(** ** FilePakManager.cpp *)

Section MountTrace.
Context (E : Engine).

Lemma verdicts_app o1 o2 : verdicts (o1 ++ o2) = verdicts o1 ++ verdicts o2.
Proof. unfold verdicts. by rewrite omap_app. Qed.

Lemma mount_results_app o1 o2 : mount_results (o1 ++ o2) = mount_results o1 ++ mount_results o2.
Proof. unfold mount_results. by rewrite omap_app. Qed.

Lemma progress_app o1 o2 : progress (o1 ++ o2) = progress o1 ++ progress o2.
Proof. unfold progress. by rewrite omap_app. Qed.

(** What one run of the loop adds to the trace and to the failed list. *)
Lemma walk_news rest : forall done fs failed out,
  exists news fails,
    FFilePakManager.Out (walk E rest done fs failed out).2 = out ++ news
    /\ FailedPakList (walk E rest done fs failed out).2 = failed ++ fails
    /\ length fails
       = (length (List.filter (fun v => negb v.2) (verdicts news))
          + length (List.filter (fun v => negb v.2) (mount_results news)))%nat
    /\ (verdicts news).*1 = List.filter (is_pak E) rest
    /\ (mount_results news).*1
       = (fun p => Combine E (PakSaveRoot E) (PakName p))
           <$> (List.filter snd (verdicts news)).*1
    /\ (length (PakFiles (walk E rest done fs failed out).2)
        + length (List.filter (fun v => negb v.2) (verdicts news))
        = length done + length rest)%nat
    /\ Forall (fun dt => Z.of_nat (length done) < dt.1 /\ dt.1 <= dt.2
                         /\ dt.2 <= Z.of_nat (length done + length rest))
         (progress news)
    /\ StronglySorted (fun a b => a.1 < b.1 /\ b.2 <= a.2) (progress news)
    /\ length (progress news) = length (List.filter snd (mount_results news)).
Proof.
  induction rest as [|p rest IH]; intros done fs failed out.
  { exists [], []. cbn. rewrite !app_nil_r. repeat split; try done; try constructor. }
  cbn [walk].
  assert (Hp : is_pak E p = negb (FString.ne (GetExtension E (PakName p)) "pak"))
    by reflexivity.
  cbn [List.filter]. rewrite Hp.
  destruct (FString.ne (GetExtension E (PakName p)) "pak") eqn:Hne; cbn [negb].
  { destruct (IH (done ++ [p]) fs failed out)
      as (news & fails & H1 & H2 & H3 & H4 & H5 & H6 & H7 & H8 & H9).
    exists news, fails. rewrite length_app in H6, H7. cbn [length] in *.
    repeat split; try done; try lia.
    eapply Forall_impl; [exact H7|]. cbn. intros dt ?. lia. }
  destruct (IsPakValid E fs p) eqn:Hv; cbn [negb].
  - destruct (Mount E fs (Combine E (PakSaveRoot E) (PakName p))) as [fs' bRet].
    destruct bRet; cbn [negb].
    + match goal with
      | |- context [walk E rest ?d ?f ?fl ?o] =>
          destruct (IH d f fl o)
            as (news & fails & H1 & H2 & H3 & H4 & H5 & H6 & H7 & H8 & H9)
      end.
      exists ([Verified p true; Mounted (Combine E (PakSaveRoot E) (PakName p)) true;
               OnMountUpdated (PakName p) (Z.of_nat (length done) + 1)
                 (Z.of_nat (length (done ++ p :: rest)))] ++ news), fails.
      rewrite H1, H2. rewrite !verdicts_app, !mount_results_app, !progress_app.
      cbn [verdicts mount_results progress omap list_omap app List.filter negb snd fst fmap
             list_fmap length].
      rewrite !length_app in *. cbn [length] in *.
      split; [by rewrite <- !app_assoc|]. split; [done|]. split; [lia|].
      split; [by rewrite <- H4|]. split; [by rewrite <- H5|]. split; [lia|].
      split; [|split; [|lia]].
      * constructor; [cbn; lia|].
        eapply Forall_impl; [exact H7|]. cbn. intros dt ?. lia.
      * constructor; [exact H8|].
        eapply Forall_impl; [exact H7|]. cbn. intros dt ?. lia.
    + match goal with
      | |- context [walk E rest ?d ?f ?fl ?o] =>
          destruct (IH d f fl o)
            as (news & fails & H1 & H2 & H3 & H4 & H5 & H6 & H7 & H8 & H9)
      end.
      exists ([Verified p true; Mounted (Combine E (PakSaveRoot E) (PakName p)) false]
              ++ news), (p :: fails).
      rewrite H1, H2. rewrite !verdicts_app, !mount_results_app, !progress_app.
      cbn [verdicts mount_results progress omap list_omap app List.filter negb snd fst fmap
             list_fmap length].
      rewrite !length_app in *. cbn [length] in *.
      split; [by rewrite <- !app_assoc|]. split; [by rewrite <- app_assoc|]. split; [lia|].
      split; [by rewrite <- H4|]. split; [by rewrite <- H5|]. split; [lia|].
      split; [|split; [exact H8 | exact H9]].
      eapply Forall_impl; [exact H7|]. cbn. intros dt ?. lia.
  - match goal with
    | |- context [walk E rest ?d ?f ?fl ?o] =>
        destruct (IH d f fl o)
          as (news & fails & H1 & H2 & H3 & H4 & H5 & H6 & H7 & H8 & H9)
    end.
    exists ([Verified p false] ++ news), (p :: fails).
    rewrite H1, H2. rewrite !verdicts_app, !mount_results_app, !progress_app.
    cbn [verdicts mount_results progress omap list_omap app List.filter negb snd fst fmap
           list_fmap length].
    split; [by rewrite <- !app_assoc|]. split; [by rewrite <- app_assoc|]. split; [lia|].
    split; [by rewrite <- H4|]. split; [exact H5|]. split; [lia|].
    split; [|split; [exact H8 | exact H9]].
    eapply Forall_impl; [exact H7|]. cbn. intros dt ?. lia.
Qed.

(** The queue the loop leaves: what it had passed, then the entries
    ahead without those that failed validation. *)
Lemma walk_kept rest : forall done fs failed out,
  exists news,
    FFilePakManager.Out (walk E rest done fs failed out).2 = out ++ news
    /\ PakFiles (walk E rest done fs failed out).2 = done ++ kept E rest (verdicts news).*2.
Proof.
  induction rest as [|p rest IH]; intros done fs failed out.
  { exists []. cbn. by rewrite !app_nil_r. }
  cbn [walk kept].
  assert (Hp : is_pak E p = negb (FString.ne (GetExtension E (PakName p)) "pak"))
    by reflexivity.
  rewrite Hp.
  destruct (FString.ne (GetExtension E (PakName p)) "pak") eqn:Hne; cbn [negb].
  { destruct (IH (done ++ [p]) fs failed out) as (news & H1 & H2).
    exists news. split; [exact H1|]. rewrite H2. by rewrite <- app_assoc. }
  destruct (IsPakValid E fs p) eqn:Hv; cbn [negb].
  - destruct (Mount E fs (Combine E (PakSaveRoot E) (PakName p))) as [fs' bRet].
    destruct bRet; cbn [negb];
      match goal with
      | |- context [walk E rest ?d ?f ?fl ?o] => destruct (IH d f fl o) as (news & H1 & H2)
      end.
    + exists ([Verified p true; Mounted (Combine E (PakSaveRoot E) (PakName p)) true;
               OnMountUpdated (PakName p) (Z.of_nat (length done) + 1)
                 (Z.of_nat (length (done ++ p :: rest)))] ++ news).
      rewrite H1, H2, verdicts_app.
      cbn [verdicts omap list_omap app fmap list_fmap snd].
      split; [by rewrite <- !app_assoc | by rewrite <- app_assoc].
    + exists ([Verified p true; Mounted (Combine E (PakSaveRoot E) (PakName p)) false]
              ++ news).
      rewrite H1, H2, verdicts_app.
      cbn [verdicts omap list_omap app fmap list_fmap snd].
      split; [by rewrite <- !app_assoc | by rewrite <- app_assoc].
  - destruct (IH done fs (failed ++ [p]) (out ++ [Verified p false])) as (news & H1 & H2).
    exists ([Verified p false] ++ news).
    rewrite H1, H2, verdicts_app.
    cbn [verdicts omap list_omap app fmap list_fmap snd].
    split; [by rewrite <- !app_assoc | done].
Qed.

Lemma filter_nil_Forall {A} (f : A -> bool) (l : list A) :
  length (List.filter (fun a => negb (f a)) l) = 0%nat <-> Forall (fun a => f a = true) l.
Proof.
  induction l as [|a l IH]; cbn; [split; [constructor | done]|].
  destruct (f a) eqn:Ha; cbn.
  - rewrite IH. split; [by constructor | by inversion 1].
  - split; [done | inversion 1; congruence].
Qed.

End MountTrace.

(** X15.  The verdict of the mount stage.  [StartUp] only adds to the
    failed list: one entry for each validation that failed and one for each
    mount that failed.  So the pak manager is successful afterwards exactly
    when it was successful before and every validation and every mount of
    this run succeeded; a failure recorded earlier is never repaired by
    running the stage again. *)
Theorem mount_verdict (E : Engine) (fs : FileSystem) (pm : FFilePakManager.t) :
  let r := FFilePakManager.StartUp E fs pm in
  exists news,
    FFilePakManager.Out r.2 = FFilePakManager.Out pm ++ news
    /\ FailedPakList pm `prefix_of` FailedPakList r.2
    /\ length (FailedPakList r.2)
       = (length (FailedPakList pm)
          + length (List.filter (fun v => negb v.2) (verdicts news))
          + length (List.filter (fun v => negb v.2) (mount_results news)))%nat
    /\ (FFilePakManager.IsSuccessful r.2 = true
        <-> FFilePakManager.IsSuccessful pm = true
            /\ Forall (fun v => v.2 = true) (verdicts news)
            /\ Forall (fun v => v.2 = true) (mount_results news)).
Proof.
  cbv zeta. rewrite StartUp_walk.
  destruct (walk_news E (PakFiles pm) [] fs (FailedPakList pm) (FFilePakManager.Out pm))
    as (news & fails & H1 & H2 & H3 & _).
  exists news. split; [exact H1|]. split; [rewrite H2; by apply prefix_app_r|].
  split; [rewrite H2, length_app; lia|].
  unfold FFilePakManager.IsSuccessful. rewrite H2, length_app, H3.
  rewrite <- !filter_nil_Forall, !Z.leb_le. lia.
Qed.

(** X16.  The order of the mount stage.  Every queued entry with the pak
    extension is validated exactly once, in queue order; a mount is
    attempted for exactly the entries whose validation succeeded, in the
    same order and at the entry's path under the pak root, so an archive
    that failed validation is never mounted.  The entries that failed
    validation, and only they, have left the queue, whose order is kept;
    an entry whose mount failed stays queued. *)
Theorem mount_order (E : Engine) (fs : FileSystem) (pm : FFilePakManager.t) :
  let r := FFilePakManager.StartUp E fs pm in
  exists news,
    FFilePakManager.Out r.2 = FFilePakManager.Out pm ++ news
    /\ (verdicts news).*1 = List.filter (is_pak E) (PakFiles pm)
    /\ (mount_results news).*1
       = (fun p => Combine E (PakSaveRoot E) (PakName p))
           <$> (List.filter snd (verdicts news)).*1
    /\ PakFiles r.2 = kept E (PakFiles pm) (verdicts news).*2
    /\ (length (PakFiles r.2) + length (List.filter (fun v => negb v.2) (verdicts news))
        = length (PakFiles pm))%nat.
Proof.
  cbv zeta. rewrite StartUp_walk.
  destruct (walk_news E (PakFiles pm) [] fs (FailedPakList pm) (FFilePakManager.Out pm))
    as (news & fails & H1 & _ & _ & H4 & H5 & H6 & _).
  destruct (walk_kept E (PakFiles pm) [] fs (FailedPakList pm) (FFilePakManager.Out pm))
    as (news' & H1' & Hk).
  assert (news' = news) as -> by (rewrite H1 in H1'; by apply app_inv_head in H1').
  exists news. cbn [length] in H6. auto.
Qed.

(** X17.  The progress reports of the mount stage.  There is one report
    for each successful mount.  A report gives [Done] of [Total] with
    [1 <= Done <= Total], so the fraction lies in (0, 1]; [Total] never
    exceeds the length of the queue at the start; and from one report to
    the next [Done] grows while [Total] does not, so the fraction only
    rises. *)
Theorem mount_progress (E : Engine) (fs : FileSystem) (pm : FFilePakManager.t) :
  let r := FFilePakManager.StartUp E fs pm in
  exists news,
    FFilePakManager.Out r.2 = FFilePakManager.Out pm ++ news
    /\ length (progress news) = length (List.filter snd (mount_results news))
    /\ Forall (fun dt => 1 <= dt.1 <= dt.2 /\ dt.2 <= Z.of_nat (length (PakFiles pm)))
         (progress news)
    /\ StronglySorted (fun a b => a.1 < b.1 /\ b.2 <= a.2) (progress news).
Proof.
  cbv zeta. rewrite StartUp_walk.
  destruct (walk_news E (PakFiles pm) [] fs (FailedPakList pm) (FFilePakManager.Out pm))
    as (news & fails & H1 & _ & _ & _ & _ & _ & H7 & H8 & H9).
  exists news. split; [exact H1|]. split; [exact H9|]. split; [|exact H8].
  eapply Forall_impl; [exact H7|]. cbn. intros dt ?. lia.
Qed.

(** ** HotUpdateSubsystem.cpp *)

Section CoordinatorStages.
Context (E : Engine).

Lemma emits_fields os : forall s,
  Log (emits os s) = Log s ++ os
  /\ DownloadManager (emits os s) = DownloadManager s
  /\ PakManager (emits os s) = PakManager s
  /\ RequestBound (emits os s) = RequestBound s
  /\ TimerSet (emits os s) = TimerSet s
  /\ CurrentTimeRetry (emits os s) = CurrentTimeRetry s
  /\ bIsUpdating (emits os s) = bIsUpdating s.
Proof.
  unfold emits. induction os as [|o os IH]; intros s; cbn [foldl].
  - by rewrite app_nil_r.
  - destruct (IH (UHotUpdateSubsystem.emit o s)) as (H1 & H2 & H3 & H4 & H5 & H6 & H7).
    rewrite H1, H2, H3, H4, H5, H6, H7. cbn. by rewrite <- app_assoc.
Qed.

Lemma states_app l1 l2 : states (l1 ++ l2) = states l1 ++ states l2.
Proof. unfold states. by rewrite omap_app. Qed.

Lemma states_MountOut os : states (MountOut <$> os) = [].
Proof. induction os as [|o os IH]; [done|]. exact IH. Qed.



(** From END_DOWNLOAD on: the mount stage and the end of the run. *)
Lemma mount_stage fuel fs s dm pm :
  (5 <= fuel)%nat ->
  DownloadManager s = Some dm -> PakManager s = Some pm ->
  let r := FFilePakManager.StartUp E fs pm in
  let s3 := mounted_state s pm r.2 in
  OnHotUpdateState E fuel HU_END_DOWNLOAD "EndDownload" (fs, s)
  = Some (r.1,
          if FFilePakManager.IsSuccessful r.2 then
            let s5 := UHotUpdateSubsystem.emit (StateEvent HU_END_HOTUPDATE "FinishUpdate")
                        (UHotUpdateSubsystem.emit (StateEvent HU_END_MOUNT "EndMount") s3) in
            if FFileDownloadManager.IsSuccessful dm
            then UHotUpdateSubsystem.emit HotUpdateFinished (UHotUpdateSubsystem.ShutDown s5)
            else UHotUpdateSubsystem.emit (StateEvent HU_ERROR "Is not successful") s5
          else UHotUpdateSubsystem.emit (StateEvent HU_ERROR "Mount failed") s3).
Proof.
  intros Hf Hd Hp. cbv zeta.
  do 5 (destruct fuel as [|fuel]; [lia|]).
  cbn [OnHotUpdateState OnHotUpdateState_body fst snd PakManager UHotUpdateSubsystem.emit].
  rewrite Hp.
  destruct (FFilePakManager.StartUp E fs pm) as [fs' pm'] eqn:Hs. cbn [fst snd].
  fold (mounted_state s pm pm').
  set (s3 := mounted_state s pm pm').
  assert (Hd3 : DownloadManager s3 = Some dm).
  { subst s3. unfold mounted_state. cbn [DownloadManager set_PakManager].
    rewrite (proj1 (proj2 (emits_fields _ _))). exact Hd. }
  assert (Hp3 : PakManager s3 = Some pm') by reflexivity.
  destruct (FFilePakManager.IsSuccessful pm') eqn:Hok.
  - cbn [OnHotUpdateState OnHotUpdateState_body fst snd].
    unfold UHotUpdateSubsystem.IsSuccessful.
    cbn [DownloadManager PakManager UHotUpdateSubsystem.emit].
    rewrite Hd3, Hp3, Hok.
    destruct (FFileDownloadManager.IsSuccessful dm); reflexivity.
  - reflexivity.
Qed.


End CoordinatorStages.

Lemma mounted_state_fields (s : UHotUpdateSubsystem.t) (pm pm' : FFilePakManager.t) :
  Log (mounted_state s pm pm')
  = Log s ++ [StateEvent HU_END_DOWNLOAD "EndDownload"; StateEvent HU_BEGIN_MOUNT "BeginMount"]
      ++ (MountOut <$> drop (length (FFilePakManager.Out pm)) (FFilePakManager.Out pm'))
  /\ DownloadManager (mounted_state s pm pm') = DownloadManager s
  /\ PakManager (mounted_state s pm pm') = Some pm'
  /\ bIsUpdating (mounted_state s pm pm') = bIsUpdating s.
Proof.
  unfold mounted_state. cbn [Log DownloadManager PakManager bIsUpdating set_PakManager].
  match goal with
  | |- context [emits ?os ?s0] =>
      destruct (emits_fields os s0) as (H1 & H2 & _ & _ & _ & _ & H7)
  end.
  rewrite H1, H2, H7. cbn. rewrite <- !app_assoc. done.
Qed.

Lemma not_finished (l : list UHotUpdateSubsystem.Output) :
  Forall (fun o => o <> HotUpdateFinished) l -> HotUpdateFinished ∉ l.
Proof. intros H Hin. rewrite Forall_forall in H. by apply (H _ Hin). Qed.

Lemma MountOut_not_finished (os : list FFilePakManager.Output) :
  Forall (fun o => o <> HotUpdateFinished) (MountOut <$> os).
Proof. apply Forall_fmap, Forall_true. done. Qed.

(** X18.  An answer to the manifest request that is missing, came over
    a failed connection, or has a status below 200 or from 400 up, ends
    the attempt at once: the timer is stopped, ERROR is raised with the
    message [Error: Failed to get version], and nothing else happens.  No
    new request is posted, the retry counter is not touched and the
    managers stay as they were: only a timeout leads to a retry. *)
Theorem RetGetVersion_failure_is_final (E : Engine) (fuel : nat) (fs : FileSystem)
    (s : UHotUpdateSubsystem.t) (Response : option FHttpResponse)
    (bConnectedSuccessfully : bool) :
  (0 < fuel)%nat ->
  head_accepted Response bConnectedSuccessfully = false ->
  exists s', RetGetVersion E fuel Response bConnectedSuccessfully (fs, s) = Some (fs, s')
    /\ Log s' = Log s ++ [StateEvent HU_ERROR "Error: Failed to get version"]
    /\ posts (Log s') = posts (Log s)
    /\ TimerSet s' = false
    /\ CurrentTimeRetry s' = CurrentTimeRetry s
    /\ DownloadManager s' = DownloadManager s /\ PakManager s' = PakManager s
    /\ bIsUpdating s' = bIsUpdating s.
Proof.
  intros Hf Hacc.
  assert (Hrun : RetGetVersion E fuel Response bConnectedSuccessfully (fs, s)
                 = OnHotUpdateState E fuel HU_ERROR "Error: Failed to get version"
                     (fs, if TimerSet s then set_TimerSet false s else s)).
  { unfold RetGetVersion. destruct Response as [resp|]; [|done].
    destruct bConnectedSuccessfully; cbn [negb]; [|done].
    cbn [head_accepted andb] in Hacc. unfold bad_status.
    destruct (Z.leb_spec 400 (ResponseCode resp)), (Z.ltb_spec (ResponseCode resp) 200),
      (Z.leb_spec 200 (ResponseCode resp)), (Z.ltb_spec (ResponseCode resp) 400);
      try lia; cbn [orb andb] in *; try done. }
  rewrite Hrun, OnHotUpdateState_logged by auto.
  eexists. split; [reflexivity|].
  unfold posts. destruct (TimerSet s) eqn:Ht; cbn; rewrite ?List.filter_app, ?length_app;
    cbn; repeat split; auto; lia.
Qed.

Lemma RetGetVersion_failure_is_final_witness :
  exists s',
    RetGetVersion Demo.engine 1 (Some (Demo.response 404 0 0)) true (Demo.world Demo.disk)
    = Some (Demo.disk, s')
    /\ Log s' = [StateEvent HU_ERROR "Error: Failed to get version"].
Proof.
  destruct (RetGetVersion_failure_is_final Demo.engine 1 Demo.disk Initialize
              (Some (Demo.response 404 0 0)) true ltac:(lia) eq_refl)
    as (s' & Hr & Hl & _).
  exists s'. split; [exact Hr | exact Hl].
Defined.

(** X19.  From END_DOWNLOAD to the end of the run.  The coordinator
    raises BEGIN_MOUNT and runs the mount stage.  If the pak manager is
    not successful afterwards it raises ERROR with [Mount failed] and
    stops there.  Otherwise it raises END_MOUNT and END_HOTUPDATE; then,
    if the download manager is successful too, it shuts both managers
    down, leaves the updating state and broadcasts the finish; if not, it
    raises ERROR with [Is not successful].  On either error the managers
    stay alive and the coordinator stays in the updating state. *)
Theorem mount_stage_outcome (E : Engine) (fuel : nat) (fs : FileSystem)
    (s : UHotUpdateSubsystem.t) (dm : FFileDownloadManager.t) (pm : FFilePakManager.t) :
  (5 <= fuel)%nat ->
  DownloadManager s = Some dm -> PakManager s = Some pm ->
  let r := FFilePakManager.StartUp E fs pm in
  exists s', OnHotUpdateState E fuel HU_END_DOWNLOAD "EndDownload" (fs, s) = Some (r.1, s')
    /\ states (drop (length (Log s)) (Log s'))
       = (HU_END_DOWNLOAD, "EndDownload"%string) :: (HU_BEGIN_MOUNT, "BeginMount"%string)
         :: (if FFilePakManager.IsSuccessful r.2
             then (HU_END_MOUNT, "EndMount"%string)
                  :: (HU_END_HOTUPDATE, "FinishUpdate"%string)
                  :: (if FFileDownloadManager.IsSuccessful dm then []
                      else [(HU_ERROR, "Is not successful"%string)])
             else [(HU_ERROR, "Mount failed"%string)])
    /\ (if FFilePakManager.IsSuccessful r.2 && FFileDownloadManager.IsSuccessful dm
        then last (Log s') = Some HotUpdateFinished
             /\ bIsUpdating s' = false
             /\ DownloadManager s' = None /\ PakManager s' = None
        else (HotUpdateFinished ∉ drop (length (Log s)) (Log s'))
             /\ bIsUpdating s' = bIsUpdating s
             /\ DownloadManager s' = Some dm /\ PakManager s' = Some r.2).
Proof.
  intros Hf Hd Hp. cbv zeta. rewrite (mount_stage E fuel fs s dm pm Hf Hd Hp). cbv zeta.
  destruct (mounted_state_fields s pm (FFilePakManager.StartUp E fs pm).2)
    as (HL & HD & HP & HU).
  set (s3 := mounted_state s pm _) in *.
  set (news := drop _ (FFilePakManager.Out _)) in *.
  eexists. split; [reflexivity|].
  destruct (FFilePakManager.IsSuccessful _); [destruct (FFileDownloadManager.IsSuccessful dm)|];
    cbn [andb Log UHotUpdateSubsystem.emit UHotUpdateSubsystem.ShutDown set_bIsUpdating
           set_PakManager set_DownloadManager set_RequestBound bIsUpdating DownloadManager
           PakManager];
    rewrite HL, <- ?app_assoc, drop_app_length, ?states_app, states_MountOut.
  - split; [reflexivity|]. split; [|done].
    rewrite !app_assoc. apply last_snoc.
  - split; [reflexivity|]. rewrite HD, HP, HU, Hd. split; [|done].
    apply not_finished. rewrite !Forall_app.
    repeat split; try apply MountOut_not_finished; by repeat constructor.
  - split; [reflexivity|]. rewrite HD, HP, HU, Hd. split; [|done].
    apply not_finished. rewrite !Forall_app.
    repeat split; try apply MountOut_not_finished; by repeat constructor.
Qed.

Lemma mount_stage_outcome_witness :
  exists s',
    OnHotUpdateState Demo.engine 5 HU_END_DOWNLOAD "EndDownload" (Demo.world Demo.disk)
    = Some (Demo.disk, s')
    /\ last (Log s') = Some HotUpdateFinished /\ bIsUpdating s' = false.
Proof.
  destruct (mount_stage_outcome Demo.engine 5 Demo.disk Initialize
              FFileDownloadManager.empty FFilePakManager.empty ltac:(lia) eq_refl eq_refl)
    as (s' & Hr & _ & Hl & Hu & _).
  exists s'. split; [exact Hr|]. split; [exact Hl | exact Hu].
Defined.



(** X21.  [ForceSkipUpdate] does nothing on a coordinator that is not
    updating.  On one that is, it raises END_HOTUPDATE with the message
    [OnSkipUpdate]; the run is then finished (managers shut down, finish
    broadcast) only if both managers are successful already.  Otherwise
    ERROR [Is not successful] follows and nothing is skipped: the managers
    and the updating state stay as they were. *)
Theorem ForceSkipUpdate_outcome (E : Engine) (fuel : nat) (fs : FileSystem)
    (s : UHotUpdateSubsystem.t) :
  (2 <= fuel)%nat ->
  exists s', ForceSkipUpdate E fuel (fs, s) = Some (fs, s')
    /\ (bIsUpdating s = false -> s' = s)
    /\ (bIsUpdating s = true -> UHotUpdateSubsystem.IsSuccessful s = true ->
        Log s' = Log s ++ [StateEvent HU_END_HOTUPDATE "OnSkipUpdate"; HotUpdateFinished]
        /\ bIsUpdating s' = false
        /\ DownloadManager s' = None /\ PakManager s' = None)
    /\ (bIsUpdating s = true -> UHotUpdateSubsystem.IsSuccessful s = false ->
        Log s' = Log s ++ [StateEvent HU_END_HOTUPDATE "OnSkipUpdate";
                           StateEvent HU_ERROR "Is not successful"]
        /\ bIsUpdating s' = true
        /\ DownloadManager s' = DownloadManager s /\ PakManager s' = PakManager s).
Proof.
  intros Hf. do 2 (destruct fuel as [|fuel]; [lia|]).
  unfold ForceSkipUpdate, OnSkipUpdate, IsFinished, CanSkipUpdate. cbn [snd].
  destruct (bIsUpdating s) eqn:Hu; cbn [negb].
  - cbn [OnHotUpdateState OnHotUpdateState_body fst snd].
    assert (Hsame : UHotUpdateSubsystem.IsSuccessful
                      (UHotUpdateSubsystem.emit (StateEvent HU_END_HOTUPDATE "OnSkipUpdate") s)
                    = UHotUpdateSubsystem.IsSuccessful s) by reflexivity.
    rewrite Hsame.
    destruct (UHotUpdateSubsystem.IsSuccessful s).
    + eexists. split; [reflexivity|]. split; [done|]. split; [|done].
      intros _ _. cbn. by rewrite <- app_assoc.
    + eexists. split; [reflexivity|]. split; [done|]. split; [done|].
      intros _ _. cbn. by rewrite <- app_assoc.
  - exists s. split; [reflexivity|]. split; [done|]. split; done.
Qed.

Lemma ForceSkipUpdate_outcome_witness :
  exists s',
    ForceSkipUpdate Demo.engine 2 (Demo.world Demo.disk) = Some (Demo.disk, s')
    /\ Log s' = [StateEvent HU_END_HOTUPDATE "OnSkipUpdate"; HotUpdateFinished].
Proof.
  destruct (ForceSkipUpdate_outcome Demo.engine 2 Demo.disk Initialize ltac:(lia))
    as (s' & Hr & _ & Hok & _).
  exists s'. split; [exact Hr|]. exact (proj1 (Hok eq_refl eq_refl)).
Defined.

(** X22.  With [MaxRetryTime] set to the largest uint32 the coordinator
    never gives up on timeouts: the retry counter wraps around before it
    can exceed the bound, so every timeout, however many there are and
    whatever the counter was, posts the manifest request again and raises
    no ERROR. *)
Theorem timeouts_at_uint32_max_never_give_up (E : Engine) (fuel : nat) (fs : FileSystem)
    (k : nat) :
  (0 < fuel)%nat -> MaxRetryTime E = UINT32_MAX ->
  forall s, exists sk,
    after_timeouts E fuel k (fs, s) = Some (fs, sk)
    /\ Log sk = Log s ++ concat (replicate k request_entry)
    /\ (0 < k -> TimerSet sk = true)%nat.
Proof.
  intros Hf Hmax s. induction k as [|k IH].
  - exists s. cbn. rewrite app_nil_r. split; [done|]. split; [done | lia].
  - destruct IH as (sk & Hrun & Hlog & _).
    rewrite after_timeouts_S, Hrun. cbn [mbind option_bind].
    unfold OnReqGetVersionTimeOut.
    cbn [CurrentTimeRetry set_CurrentTimeRetry set_RequestBound].
    assert (Hle : uint32 (CurrentTimeRetry sk + 1) <= MaxRetryTime E).
    { rewrite Hmax. unfold uint32, UINT32_MAX.
      pose proof (Z.mod_pos_bound (CurrentTimeRetry sk + 1) 4294967296 ltac:(lia)). lia. }
    apply Z.leb_le in Hle. rewrite Hle.
    rewrite ReqGetVersion_eq by exact Hf.
    eexists. split; [reflexivity|]. split; [|done].
    cbn [Log set_TimerSet UHotUpdateSubsystem.emit set_RequestBound set_CurrentTimeRetry].
    rewrite Hlog, <- !app_assoc. f_equal.
    replace (S k) with (k + 1)%nat by lia.
    rewrite replicate_add, concat_app. reflexivity.
Qed.

Lemma timeouts_at_uint32_max_never_give_up_witness :
  exists sk,
    after_timeouts Demo.patient_engine 1 5
      (Demo.disk, set_CurrentTimeRetry UINT32_MAX Initialize)
    = Some (Demo.disk, sk)
    /\ posts (Log sk) = 5%nat.
Proof.
  destruct (timeouts_at_uint32_max_never_give_up Demo.patient_engine 1 Demo.disk 5
              ltac:(lia) eq_refl (set_CurrentTimeRetry UINT32_MAX Initialize))
    as (sk & Hr & Hl & _).
  exists sk. split; [exact Hr|]. rewrite Hl. reflexivity.
Defined.

(** X23.  After [ShutDown] the coordinator has no managers, and a new
    [StartUp] leads nowhere: the manifest is requested, but a good answer
    is dropped without any state event, neither END_GETVERSION nor
    ERROR, and with the timer stopped no timeout will follow. *)
Theorem answer_after_ShutDown_is_dropped (E : Engine) (fuel : nat) (fs : FileSystem)
    (s : UHotUpdateSubsystem.t) (resp : FHttpResponse) :
  (0 < fuel)%nat ->
  bad_status (ResponseCode resp) = false ->
  exists s',
    (UHotUpdateSubsystem.StartUp E fuel (fs, UHotUpdateSubsystem.ShutDown s)
       ≫= RetGetVersion E fuel (Some resp) true) = Some (fs, s')
    /\ Log s' = Log s ++ request_entry
    /\ TimerSet s' = false
    /\ bIsUpdating s' = false
    /\ DownloadManager s' = None /\ PakManager s' = None.
Proof.
  intros Hf Hst. unfold UHotUpdateSubsystem.StartUp.
  rewrite ReqGetVersion_eq by exact Hf. cbn [mbind option_bind].
  unfold RetGetVersion. cbn [negb]. rewrite Hst.
  eexists. split; [reflexivity|]. cbn. rewrite <- app_assoc. done.
Qed.

Lemma answer_after_ShutDown_is_dropped_witness :
  exists s',
    (UHotUpdateSubsystem.StartUp Demo.engine 1
       (Demo.disk, UHotUpdateSubsystem.ShutDown Initialize)
       ≫= RetGetVersion Demo.engine 1 (Some (Demo.answer Demo.manifest_text)) true)
    = Some (Demo.disk, s')
    /\ Log s' = request_entry.
Proof.
  destruct (answer_after_ShutDown_is_dropped Demo.engine 1 Demo.disk Initialize
              (Demo.answer Demo.manifest_text) ltac:(lia) eq_refl)
    as (s' & Hr & Hl & _).
  exists s'. split; [exact Hr | exact Hl].
Defined.

(** ** More on tasks and their manager *)

(** X24.  [Start] is idempotent.  A task that [Start] did not reject is
    marked as downloading, and starting it again does nothing at all: no
    second HEAD request, no event.  A task that [Start] rejected is
    rejected again, with the same ERROR. *)
Theorem Start_idempotent (E : Engine) (x : FDownloadTask.t) :
  let x1 := (Start E x).1 in
  if raised ERROR (Start E x).2
  then Start E x1 = (x1, [Execute ERROR (TaskInfo x1)])
  else bIsDownLoading x1 = true /\ Start E x1 = (x1, []).
Proof.
  cbv zeta.
  assert (Hidem : name_fallback E (name_fallback E x) = name_fallback E x).
  { unfold name_fallback at 2 3.
    destruct (FString.IsEmpty (FileName (TaskInfo x))) eqn:Hx.
    - unfold name_fallback. cbn [TaskInfo set_info FileName with_FileName URL with_URL].
      by destruct (FString.IsEmpty (GetCleanFilename E (URL (TaskInfo x)))).
    - unfold name_fallback. by rewrite Hx. }
  assert (Hagain : forall y,
            name_fallback E y = y ->
            FString.IsEmpty (URL (TaskInfo y)) || FString.IsEmpty (FileName (TaskInfo y)) = false ->
            bIsDownLoading y = true -> Start E y = (y, [])).
  { intros y Hy Hc Hb. unfold Start. by rewrite Hy, Hc, Hb. }
  assert (Hnf : forall y, FString.IsEmpty (FileName (TaskInfo y)) = false -> name_fallback E y = y).
  { intros y Hy. unfold name_fallback. by rewrite Hy. }
  set (y := name_fallback E x) in *.
  assert (HS : Start E x
               = if FString.IsEmpty (URL (TaskInfo y)) || FString.IsEmpty (FileName (TaskInfo y))
                 then (y, [Execute ERROR (TaskInfo y)])
                 else if bIsDownLoading y then (y, [])
                      else ReqGetHead E (set_bIsDownLoading true y)) by reflexivity.
  rewrite HS. clear HS.
  destruct (FString.IsEmpty (URL (TaskInfo y)) || FString.IsEmpty (FileName (TaskInfo y)))
    eqn:Hc.
  - cbn [fst snd]. replace (raised ERROR [Execute ERROR (TaskInfo y)]) with true by reflexivity.
    unfold Start. by rewrite Hidem, Hc.
  - pose proof Hc as Hc'. apply orb_false_iff in Hc' as [Hu Hn].
    destruct (bIsDownLoading y) eqn:Hd.
    + cbn [fst snd]. replace (raised ERROR []) with false by reflexivity.
      split; [exact Hd|]. by apply Hagain.
    + unfold ReqGetHead. destruct (FString.IsEmpty (GetEncodedURL E _)); cbn [fst snd].
      * replace (raised ERROR []) with false by reflexivity. split; [done|].
        apply Hagain; [by apply Hnf | exact Hc | done].
      * match goal with
        | |- context [raised ERROR ?l] => replace (raised ERROR l) with false by reflexivity
        end.
        split; [done|]. apply Hagain; [by apply Hnf | exact Hc | done].
Qed.

(** X25.  A file of length zero.  When the HEAD answer announces no
    content (a length of zero, or a negative one), the task still asks for
    a range: from byte 0 to the byte before it.  The first answer to that
    request, whatever it carries, ends the task: no further range is
    requested. *)
Theorem empty_file_is_requested_once (E : Engine) (x : FDownloadTask.t)
    (resp body : FHttpResponse) (ha : HeadAnswers) (a : ChunkAnswers) :
  FString.IsEmpty (GetEncodedURL E x) = false ->
  bad_status (ResponseCode resp) = false ->
  -2147483647 <= ContentLength resp <= 0 ->
  DirectoryExists ha = true -> OpenWrite ha = true -> WriteOk a = true ->
  bad_status (ResponseCode body) = false ->
  0 <= ContentNum body <= INT32_MAX ->
  let h := RetGetHead E (Some resp) true ha x in
  let r := RetGetChunk E (Some body) true a h.1 in
  ranges h.2 = [(0, ContentLength resp - 1)]
  /\ writes r.2 = [(0, ContentNum body - 1)]
  /\ ranges r.2 = []
  /\ bIsDownLoading r.1 = false
  /\ (raised END_DOWNLOAD r.2 || raised ERROR r.2 = true).
Proof.
  intros Hurl Hst Hlen Hdir Hopen Hw Hst2 Hn. cbv zeta.
  unfold RetGetHead. cbn [negb]. rewrite Hst, Hdir, Hopen.
  cbn [negb TempFileHandle set_TempFileHandle].
  set (x1 := set_TempFileHandle true _).
  assert (Hu1 : FString.IsEmpty (GetEncodedURL E x1) = false).
  { rewrite (GetEncodedURL_URL E x1 x); [exact Hurl | reflexivity]. }
  assert (Ht1 : TotalSize (TaskInfo x1) = ContentLength resp).
  { subst x1. cbn. apply int32_id. unfold INT32_MAX. lia. }
  assert (Hc1 : CurrentSize (TaskInfo x1) = 0) by reflexivity.
  destruct (ReqGetChunk_state E x1) as (Hi & Hh & _ & _).
  assert (Hrg : ranges (ReqGetChunk E x1).2 = [(0, ContentLength resp - 1)]).
  { unfold ReqGetChunk. rewrite Hu1, Hc1, Ht1, int32_pred. cbn [snd].
    rewrite ChunkSize_val.
    rewrite (int32_id (0 + 4194304 - 1)) by (unfold INT32_MAX; lia).
    destruct (Z.leb_spec (ContentLength resp) (0 + 4194304 - 1)); [|lia].
    rewrite int32_id by (unfold INT32_MAX; lia). reflexivity. }
  destruct (ReqGetChunk E x1) as [x2 e2]. cbn [fst snd] in *.
  split; [exact Hrg|].
  assert (Hu2 : FString.IsEmpty (GetEncodedURL E x2) = false).
  { rewrite (GetEncodedURL_URL E x2 x1); [exact Hu1 | by rewrite Hi]. }
  pose proof (RetGetChunk_step E a x2 body Hst2 Hw ltac:(by rewrite Hh) Hu2) as Hstep.
  cbv zeta in Hstep. rewrite Hi, Hc1, Ht1 in Hstep.
  destruct Hstep as [Hwr Hnext]; [unfold INT32_MAX in *; lia|].
  destruct (Z.ltb_spec (0 + ContentNum body) (ContentLength resp)); [lia|].
  destruct Hnext as (H1 & H2 & H3). auto.
Qed.

Lemma empty_file_is_requested_once_witness :
  let x := (Start Demo.engine Demo.task_a).1 in
  let h := RetGetHead Demo.engine (Some (Demo.response 200 0 0)) true Demo.head_ok x in
  let r := RetGetChunk Demo.engine (Some (Demo.response 206 0 0)) true Demo.chunk_ok h.1 in
  ranges h.2 = [(0, -1)] /\ bIsDownLoading r.1 = false.
Proof.
  cbv zeta.
  destruct (empty_file_is_requested_once Demo.engine (Start Demo.engine Demo.task_a).1
              (Demo.response 200 0 0) (Demo.response 206 0 0) Demo.head_ok Demo.chunk_ok
              eq_refl eq_refl ltac:(cbn; lia) eq_refl eq_refl eq_refl eq_refl
              ltac:(cbn; unfold INT32_MAX; lia))
    as (H1 & _ & _ & H4 & _).
  split; [exact H1 | exact H4].
Defined.

(** X26.  The manager lets through at most one UPDATE_DOWNLOAD for one
    value of the world time: once a progress event has been handled, a
    second one that arrives at the same time, from whatever task, changes
    nothing and is not forwarded. *)
Theorem UPDATE_DOWNLOAD_once_per_time (E : Engine) (fuel : nat)
    (info1 info2 : FTaskInfo) (m : FFileDownloadManager.t) :
  (0 < fuel)%nat ->
  exists m1,
    OnTaskEvent E fuel UPDATE_DOWNLOAD info1 m = Some m1
    /\ Now m1 = Now m
    /\ Now m <= LastUpdateTime m1
    /\ OnTaskEvent E fuel UPDATE_DOWNLOAD info2 m1 = Some m1.
Proof.
  intros Hf. destruct fuel as [|fuel]; [lia|].
  cbn [OnTaskEvent OnTaskEvent_body].
  destruct (Z.leb_spec (Now m) (LastUpdateTime m)) as [Hle|Hgt].
  - exists m. split; [done|]. split; [done|]. split; [done|].
    apply Z.leb_le in Hle. by rewrite Hle.
  - eexists. split; [reflexivity|]. cbn. split; [done|]. split; [lia|].
    by rewrite Z.leb_refl.
Qed.

Lemma UPDATE_DOWNLOAD_once_per_time_witness :
  exists m1,
    OnTaskEvent Demo.engine 1 UPDATE_DOWNLOAD (TaskInfo Demo.task_a)
      (set_Now 5 Demo.two_tasks) = Some m1
    /\ OnTaskEvent Demo.engine 1 UPDATE_DOWNLOAD (TaskInfo Demo.task_a) m1 = Some m1.
Proof.
  destruct (UPDATE_DOWNLOAD_once_per_time Demo.engine 1 (TaskInfo Demo.task_a)
              (TaskInfo Demo.task_a) (set_Now 5 Demo.two_tasks) ltac:(lia))
    as (m1 & H1 & _ & _ & H2).
  exists m1. split; [exact H1 | exact H2].
Defined.

(** X27.  Ending a task twice is harmless.  Once the manager has handled
    an event that ends a task, the task is out of the map; when a second
    ERROR arrives for it, nothing is found under its GUID, and neither the
    map nor the failed list nor the events sent out change: a task is
    never entered into the failed list twice. *)
Theorem repeated_ERROR_is_harmless (E : Engine) (fuel : nat) (ev : EDownloadTaskEvent)
    (info : FTaskInfo) (m : FFileDownloadManager.t) :
  (size (Tasks m) < fuel)%nat -> terminal ev = true ->
  exists m1 m2,
    OnTaskEvent E fuel ev info m = Some m1
    /\ OnTaskEvent E fuel ERROR info m1 = Some m2
    /\ Tasks m2 = Tasks m1
    /\ FailedTasks m2 = FailedTasks m1
    /\ FFileDownloadManager.Out m2 = FFileDownloadManager.Out m1.
Proof.
  intros Hfuel Hev.
  destruct (OnTaskEvent_total E fuel ev info m Hfuel) as [m1 Hm1].
  exists m1. pose proof (OnTaskEvent_settled E fuel _ _ _ _ Hm1) as (_ & Hgone & _).
  specialize (Hgone Hev).
  destruct fuel as [|fuel]; [lia|].
  eexists. split; [exact Hm1|].
  cbn [OnTaskEvent OnTaskEvent_body]. unfold OnTaskFinish.
  cbn [Tasks set_CurrentDownloadSize]. rewrite Hgone. done.
Qed.

Lemma repeated_ERROR_is_harmless_witness :
  exists m1 m2,
    OnTaskEvent Demo.engine 3 ERROR (TaskInfo Demo.task_a) Demo.two_tasks = Some m1
    /\ OnTaskEvent Demo.engine 3 ERROR (TaskInfo Demo.task_a) m1 = Some m2
    /\ FailedTasks m2 = FailedTasks m1.
Proof.
  destruct (repeated_ERROR_is_harmless Demo.engine 3 ERROR (TaskInfo Demo.task_a)
              Demo.two_tasks ltac:(vm_compute; lia) eq_refl)
    as (m1 & m2 & H1 & H2 & _ & H4 & _).
  exists m1, m2. split; [exact H1|]. split; [exact H2 | exact H4].
Defined.

(** *** The total of a run *)

Section TotalFixed.
Context (E : Engine).

Section WithHandler.
Context (rec : EDownloadTaskEvent -> FTaskInfo -> FFileDownloadManager.t
               -> option FFileDownloadManager.t).
Context (rec_tot : forall ev info m m',
           rec ev info m = Some m' -> TotalDownloadSize m' = TotalDownloadSize m).

Lemma deliver_TotalDownloadSize k effs : forall m m',
  deliver rec k effs m = Some m' -> TotalDownloadSize m' = TotalDownloadSize m.
Proof.
  induction effs as [|e effs IH]; intros m m'; cbn [deliver].
  { by intros [= <-]. }
  destruct e as [q|ev info|o c]; cbn [mbind option_bind].
  - intros Hd. by apply IH in Hd.
  - destruct (rec ev info m) as [m1|] eqn:Hr; [|done]. intros Hd.
    apply IH in Hd. apply rec_tot in Hr. congruence.
  - apply IH.
Qed.

Lemma call_TotalDownloadSize k method m m' :
  call rec k method m = Some m' -> TotalDownloadSize m' = TotalDownloadSize m.
Proof.
  unfold call. destruct (Tasks m !! k) as [x|]; [|by intros [= <-]].
  destruct (method x) as [x' effs]. intros Hd. by apply deliver_TotalDownloadSize in Hd.
Qed.

Lemma restart_TotalDownloadSize ks : forall m m',
  restart E rec ks m = Some m' -> TotalDownloadSize m' = TotalDownloadSize m.
Proof.
  induction ks as [|k ks IH]; intros m m'; cbn [restart]; [by intros [= <-]|].
  destruct (Tasks m !! k) as [x|] eqn:Hk.
  - destruct (IsDownloading x).
    + cbn. apply IH.
    + destruct (call rec k (Start E) m) as [m1|] eqn:Hc; [|done]. cbn.
      intros H. apply IH in H. apply call_TotalDownloadSize in Hc. congruence.
  - cbn. apply IH.
Qed.

Lemma start_all_TotalDownloadSize ks : forall m m',
  start_all E rec ks m = Some m' -> TotalDownloadSize m' = TotalDownloadSize m.
Proof.
  induction ks as [|k ks IH]; intros m m'; cbn [start_all]; [by intros [= <-]|].
  destruct (call rec k (Start E) m) as [m1|] eqn:Hc; [|done]. cbn.
  intros H. apply IH in H. apply call_TotalDownloadSize in Hc. congruence.
Qed.

Lemma OnTaskFinish_TotalDownloadSize Info bIsSuccess m m' :
  OnTaskFinish E rec Info bIsSuccess m = Some m' ->
  TotalDownloadSize m' = TotalDownloadSize m.
Proof.
  unfold OnTaskFinish. cbn [Tasks set_CurrentDownloadSize].
  destruct (Tasks m !! GUID Info) as [x|]; [|by intros [= <-]].
  intros Hr. apply restart_TotalDownloadSize in Hr. rewrite Hr. by destruct bIsSuccess.
Qed.

Lemma OnTaskEvent_body_TotalDownloadSize InEvent InInfo m m' :
  OnTaskEvent_body E rec InEvent InInfo m = Some m' ->
  TotalDownloadSize m' = TotalDownloadSize m.
Proof.
  destruct InEvent; cbn [OnTaskEvent_body]; try by intros [= <-].
  - by destruct (Now m <=? LastUpdateTime m); intros [= <-].
  - destruct (OnTaskFinish E rec InInfo true _) as [m2|] eqn:Hf; [|done].
    cbn. intros [= <-]. apply OnTaskFinish_TotalDownloadSize in Hf.
    by destruct (FFileDownloadManager.IsSuccessful m2).
  - apply OnTaskFinish_TotalDownloadSize.
Qed.

End WithHandler.

Lemma OnTaskEvent_TotalDownloadSize fuel : forall ev info m m',
  OnTaskEvent E fuel ev info m = Some m' -> TotalDownloadSize m' = TotalDownloadSize m.
Proof.
  induction fuel as [|fuel IH]; intros ev info m m'; [done|].
  cbn [OnTaskEvent]. by apply OnTaskEvent_body_TotalDownloadSize.
Qed.

End TotalFixed.

(** X28.  The total of a run is fixed when the run starts.  [StartUp] on
    a map with tasks sets [TotalDownloadSize] to the sum of the declared
    file sizes of the tasks then stored (in uint64 arithmetic), and no
    callback changes it afterwards, whether tasks complete, fail or
    report progress. *)
Theorem TotalDownloadSize_fixed (E : Engine) (fuel : nat) (m : FFileDownloadManager.t) :
  (size (Tasks m) < fuel)%nat -> Tasks m <> ∅ ->
  exists m1,
    FFileDownloadManager.StartUp E fuel m = Some m1
    /\ TotalDownloadSize m1 = sum_FileSize m
    /\ forall m2,
         rtc (fun a b => exists fuel' now g cb, OnCallback E fuel' now g cb a = Some b) m1 m2 ->
         TotalDownloadSize m2 = sum_FileSize m.
Proof.
  intros Hfuel Hne. destruct (StartUp_total E fuel m Hfuel) as [m1 Hm]. exists m1.
  split; [exact Hm|].
  assert (H1 : TotalDownloadSize m1 = sum_FileSize m).
  { unfold FFileDownloadManager.StartUp in Hm.
    destruct (Z.ltb_spec 0 (Z.of_nat (size (Tasks m)))) as [Hpos|Hzero].
    - cbn -[start_all keys] in Hm.
      apply (start_all_TotalDownloadSize E _ (OnTaskEvent_TotalDownloadSize E fuel)) in Hm.
      rewrite Hm. reflexivity.
    - exfalso. apply Hne. apply map_size_empty_inv. lia. }
  split; [exact H1|].
  intros m2 Hr. rewrite <- H1. clear -Hr.
  induction Hr as [|a b c (fuel' & now & g & cb & Hc) _ IH]; [done|].
  rewrite IH. unfold OnCallback in Hc.
  destruct (Tasks a !! g) as [x0|]; [|done]. destruct (bound cb x0); [|done].
  by apply (call_TotalDownloadSize _ (OnTaskEvent_TotalDownloadSize E fuel')) in Hc.
Qed.

Lemma TotalDownloadSize_fixed_witness :
  exists m1,
    FFileDownloadManager.StartUp Demo.engine 3 Demo.two_tasks = Some m1
    /\ TotalDownloadSize m1 = 2.
Proof.
  destruct (TotalDownloadSize_fixed Demo.engine 3 Demo.two_tasks
              ltac:(vm_compute; lia) ltac:(by vm_compute))
    as (m1 & H1 & H2 & _).
  exists m1. split; [exact H1|]. rewrite H2. reflexivity.
Defined.
